(** * The scaffold configuration compiler (scaffold/config.py)

    A shallow embedding of the configuration loader of the scaffold
    builder: the generic two-phase section loader [load_attr], the layer
    loader and geometry resolver ([init_layer], [finalize_layers]), the
    placement loader ([init_placement]), the connection type loader
    ([init_connection], [finalize_connection]) and the volume [resize]
    operation, together with the properties the specification states
    about them.

    Conventions of the embedding.
    - A method of the configuration object is a computation in the monad
      [M ScaffoldConfig]: it receives the object's state and returns an
      outcome (a value or a raised exception) together with the state it
      left behind.  As in Python, what was mutated before an exception
      is raised stays mutated.
    - Python floats are modelled by exact rationals ([Qc], with Leibniz
      equality); rounding, infinities and NaN are therefore not part of
      the model.  Where numpy would continue with [inf] or [nan] (a
      division by zero inside an array expression) the model stops with
      [NonFinite].
    - Dictionaries keep insertion order, so they are association lists
      with unique keys: assigning to an existing key keeps its place.
    - The parts of the Python runtime the loader relies on but that are
      not code of this repository (parsing a string as a number, [repr],
      the dynamic import of a class, [pow(x, 1/3)]) are the fields of the
      class [Runtime]. *)

From stdpp Require Import base tactics decidable option list strings numbers sorting pretty.
From Stdlib Require Import Ascii String QArith Qcanon.

#[local] Set Warnings "-register-all".
#[local] Open Scope Z_scope.
#[local] Open Scope Qc_scope.
#[local] Open Scope string_scope.
#[local] Open Scope list_scope.

(** ** Exceptions and the state-and-exception monad *)

Inductive exn : Type :=
  | ConfigurationException (msg : string)
  | ConfigurableClassNotFoundException (msg : string)
  | DynamicClassException (msg : string)
  | Exception (msg : string)
  | KeyError
  | IndexError
  | TypeError
  | ValueError
  | AttributeError
  | ImportError
  | ZeroDivisionError
  | UnboundLocalError (var : string)
  | NonFinite.

#[global] Instance exn_eq_dec : EqDecision exn.
Proof. solve_decision. Defined.

Variant outcome (A : Type) : Type :=
  | Ok (a : A)
  | Raise (e : exn).
Arguments Ok {A} a.
Arguments Raise {A} e.

#[global] Instance outcome_ret : MRet outcome := fun A a => Ok a.
#[global] Instance outcome_bind : MBind outcome := fun A B f r =>
  match r with
  | Ok a => f a
  | Raise e => Raise e
  end.
#[global] Instance outcome_fmap : FMap outcome := fun A B f r =>
  match r with
  | Ok a => Ok (f a)
  | Raise e => Raise e
  end.

Definition is_ok {A} (r : outcome A) : bool :=
  match r with Ok _ => true | Raise _ => false end.

(** A computation over a mutable state [S]. *)
Definition M (S A : Type) : Type := S -> outcome A * S.

#[global] Instance M_ret {S} : MRet (M S) := fun A a s => (Ok a, s).
#[global] Instance M_bind {S} : MBind (M S) := fun A B f m s =>
  match m s with
  | (Ok a, s') => f a s'
  | (Raise e, s') => (Raise e, s')
  end.

#[global] Instance M_fmap {S} : FMap (M S) := fun A B f m s =>
  match m s with
  | (Ok a, s') => (Ok (f a), s')
  | (Raise e, s') => (Raise e, s')
  end.

Definition raise {S A} (e : exn) : M S A := fun s => (Raise e, s).
Definition gets {S A} (f : S -> A) : M S A := fun s => (Ok (f s), s).
Definition modify {S} (f : S -> S) : M S unit := fun s => (Ok tt, f s).
(** A pure computation that may raise, run inside a method. *)
Definition lift {S A} (r : outcome A) : M S A := fun s => (r, s).

(** [for x in l: body x] *)
Fixpoint for_each {S A} (l : list A) (body : A -> M S unit) : M S unit :=
  match l with
  | [] => mret tt
  | x :: l' => body x ;; for_each l' body
  end.

(** [[f(x) for x in l]] for an [f] that may raise. *)
Fixpoint map_outcome {A B} (f : A -> outcome B) (l : list A) : outcome (list B) :=
  match l with
  | [] => Ok []
  | x :: l' => y ← f x; ys ← map_outcome f l'; mret (y :: ys)
  end.

(** ** Insertion-ordered dictionaries *)

Section dict.
Context {K V : Type} `{EqDecision K}.

Definition dict_get (k : K) (d : list (K * V)) : option V :=
  snd <$> List.find (fun kv => bool_decide (kv.1 = k)) d.

(** [k in d] *)
Definition dict_mem (k : K) (d : list (K * V)) : bool :=
  bool_decide (is_Some (dict_get k d)).

(** [d[k] = v]: an existing key keeps its position, a new key goes
    last. *)
Fixpoint dict_set (k : K) (v : V) (d : list (K * V)) : list (K * V) :=
  match d with
  | [] => [(k, v)]
  | (k', v') :: d' =>
      if bool_decide (k' = k) then (k', v) :: d' else (k', v') :: dict_set k v d'
  end.

Definition dict_keys (d : list (K * V)) : list K := d.*1.
Definition dict_values (d : list (K * V)) : list V := d.*2.
End dict.

(** ** Parsed documents

    What [json.loads] returns: [None], booleans, integers, floats,
    strings, lists and dictionaries with string keys. *)

Inductive value : Type :=
  | VNone
  | VBool (b : bool)
  | VInt (n : Z)
  | VFloat (q : Qc)
  | VStr (s : string)
  | VList (l : list value)
  | VDict (d : list (string * value)).

(** [key in section], for a section that is a dictionary.  On a list the
    test looks for an equal element and on a string for a substring; the
    loader only applies it to sections, other values raise here. *)
Definition contains (section : value) (key : string) : outcome bool :=
  match section with
  | VDict d => Ok (dict_mem key d)
  | _ => Raise TypeError
  end.

(** [section[key]] *)
Definition getitem (section : value) (key : string) : outcome value :=
  match section with
  | VDict d => match dict_get key d with Some v => Ok v | None => Raise KeyError end
  | _ => Raise TypeError
  end.

(** [seq[i]] on a list. *)
Definition getindex (seq : value) (i : nat) : outcome value :=
  match seq with
  | VList l => match l !! i with Some v => Ok v | None => Raise IndexError end
  | VDict _ => Raise KeyError
  | _ => Raise TypeError
  end.

(** [section.items()] *)
Definition items (section : value) : outcome (list (string * value)) :=
  match section with
  | VDict d => Ok d
  | _ => Raise AttributeError
  end.

(** Iterating a value: the elements of a list, the characters of a
    string, the keys of a dictionary. *)
Fixpoint chars (s : string) : list value :=
  match s with
  | EmptyString => []
  | String a s' => VStr (String a EmptyString) :: chars s'
  end.

Definition iterate (v : value) : outcome (list value) :=
  match v with
  | VList l => Ok l
  | VStr s => Ok (chars s)
  | VDict d => Ok (VStr <$> dict_keys d)
  | _ => Raise TypeError
  end.

(** A number as Python arithmetic sees it: bools count as 0 and 1. *)
Definition number (v : value) : outcome Qc :=
  match v with
  | VBool b => Ok (if b then 1 else 0)
  | VInt n => Ok (Qc_of_Z n)
  | VFloat q => Ok q
  | _ => Raise TypeError
  end.

(** Python's true division of two numbers. *)
Definition py_div (x y : Qc) : outcome Qc :=
  if bool_decide (y = 0) then Raise ZeroDivisionError else Ok (x / y).

(** Division inside a numpy expression: a zero divisor gives [inf] or
    [nan] there, values the model does not have. *)
Definition np_div (x y : Qc) : outcome Qc :=
  if bool_decide (y = 0) then Raise NonFinite else Ok (x / y).

(** [int(x)] of a float truncates towards zero. *)
Definition trunc (q : Qc) : Z := Z.quot (Qnum (this q)) (Zpos (Qden (this q))).

(** ** The Python runtime *)

(** What a dynamic import of a qualified class name finds. *)
Record class_def : Type := {
  class_bases : list string;   (* the capability classes it derives from *)
  class_is_entities : bool;    (* what [is_entities()] answers on an instance *)
  class_attrs : list (string * value)  (* the instance dictionary its constructor leaves *)
}.

Variant class_lookup : Type :=
  | ModuleNotFound
  | ClassNotFound
  | ClassFound (c : class_def).

Class Runtime : Type := {
  (** [float(s)] and [int(s)] on a string: [None] is a [ValueError]. *)
  float_of_str : string -> option Qc;
  int_of_str : string -> option Z;
  (** [str(v)] of a value that is not a string. *)
  py_repr : value -> string;
  (** [pow(x, 1 / 3)] *)
  pow_third : Qc -> Qc;
  (** [__import__] of the module part of a qualified name and the lookup
      of its last component in the module. *)
  import_class : string -> class_lookup
}.

(** ** Geometry: models.Layer *)

Record vec3 : Type := Vec3 { vx : Qc; vy : Qc; vz : Qc }.

Record Layer : Type := mkLayer {
  name : string;
  origin : vec3;
  dimensions : vec3;
  scaling : bool;
  xz_center : bool
}.

Definition set_origin (o : vec3) (l : Layer) : Layer :=
  mkLayer (name l) o (dimensions l) (scaling l) (xz_center l).
Definition set_dimensions (d : vec3) (l : Layer) : Layer :=
  mkLayer (name l) (origin l) d (scaling l) (xz_center l).
Definition set_xz_center (b : bool) (l : Layer) : Layer :=
  mkLayer (name l) (origin l) (dimensions l) (scaling l) b.

(** Modelled from the spec: the class [Layer] of scaffold/models.py is
    not among the sources.  A layer has a name, a 3D origin, 3D
    dimensions and the flags [scaling] and [xz_center]; its thickness is
    its extent along Y (a layer of explicit thickness 100 in a 200 by 200
    volume has dimensions [200, 100, 200]) and its volume the product of
    its dimensions.  Layers follow a volume resize unless told otherwise. *)
Definition new_Layer (name : string) (origin dimensions : vec3) : Layer :=
  mkLayer name origin dimensions true false.
Definition thickness (l : Layer) : Qc := vy (dimensions l).
Definition volume (l : Layer) : Qc :=
  vx (dimensions l) * vy (dimensions l) * vz (dimensions l).

(** A stack: the dictionary [{"layers": {...}, "position": ...}] that
    [init_layer] keeps per stack id.  The keys of ["layers"] are the raw
    [position_in_stack] values, which must be hashable. *)
Inductive slot : Type :=
  | SNone
  | SNum (q : Qc)       (* 1, 1.0 and True are the same key *)
  | SStr (s : string).

#[global] Instance slot_eq_dec : EqDecision slot.
Proof. solve_decision. Defined.

Definition hash_key (v : value) : outcome slot :=
  match v with
  | VNone => Ok SNone
  | VBool b => Ok (SNum (if b then 1 else 0))
  | VInt n => Ok (SNum (Qc_of_Z n))
  | VFloat q => Ok (SNum q)
  | VStr s => Ok (SStr s)
  | VList _ | VDict _ => Raise TypeError
  end.

Record Stack : Type := mkStack {
  stack_layers : list (slot * string);
  stack_position : option value
}.

(** ** Configured class instances *)

(** An attribute of an instance: a configuration value, or a list of
    references to [CellType] objects (by name). *)
Variant attr : Type :=
  | Val (v : value)
  | CellTypes (names : list string).

Record Instance : Type := mkInstance {
  instance_class : class_def;
  __dict__ : list (string * attr)
}.

Definition setattr (k : string) (a : attr) (obj : Instance) : Instance :=
  mkInstance (instance_class obj) (dict_set k a (__dict__ obj)).

(** Modelled from the spec: the class [CellType] of scaffold/models.py is
    not among the sources.  A cell type has a name and a placement
    strategy; an entity type has no morphology. *)
Record CellType : Type := mkCellType {
  cell_type_name : string;
  placement : option Instance;
  entity : bool
}.

(** ** The configuration object *)

Record ScaffoldConfig : Type := mkConfig {
  X : Qc;
  Z_ : Qc;   (* self.Z *)
  layers : list (string * Layer);
  layer_map : list string;
  _layer_stacks : list (Z * Stack);
  _parsed_config : value;
  cell_types : list (string * CellType);
  cell_type_map : list string;
  connection_types : list (slot * Instance);
  placement_strategies : list (slot * Instance)
}.

Definition set_X (x : Qc) (c : ScaffoldConfig) : ScaffoldConfig :=
  mkConfig x (Z_ c) (layers c) (layer_map c) (_layer_stacks c) (_parsed_config c)
    (cell_types c) (cell_type_map c) (connection_types c) (placement_strategies c).
Definition set_Z (z : Qc) (c : ScaffoldConfig) : ScaffoldConfig :=
  mkConfig (X c) z (layers c) (layer_map c) (_layer_stacks c) (_parsed_config c)
    (cell_types c) (cell_type_map c) (connection_types c) (placement_strategies c).
Definition set_layers (ls : list (string * Layer)) (c : ScaffoldConfig) : ScaffoldConfig :=
  mkConfig (X c) (Z_ c) ls (layer_map c) (_layer_stacks c) (_parsed_config c)
    (cell_types c) (cell_type_map c) (connection_types c) (placement_strategies c).
Definition set_layer_map (m : list string) (c : ScaffoldConfig) : ScaffoldConfig :=
  mkConfig (X c) (Z_ c) (layers c) m (_layer_stacks c) (_parsed_config c)
    (cell_types c) (cell_type_map c) (connection_types c) (placement_strategies c).
Definition set_layer_stacks (st : list (Z * Stack)) (c : ScaffoldConfig) : ScaffoldConfig :=
  mkConfig (X c) (Z_ c) (layers c) (layer_map c) st (_parsed_config c)
    (cell_types c) (cell_type_map c) (connection_types c) (placement_strategies c).
Definition set_parsed_config (p : value) (c : ScaffoldConfig) : ScaffoldConfig :=
  mkConfig (X c) (Z_ c) (layers c) (layer_map c) (_layer_stacks c) p
    (cell_types c) (cell_type_map c) (connection_types c) (placement_strategies c).
Definition set_connection_types (ct : list (slot * Instance)) (c : ScaffoldConfig)
  : ScaffoldConfig :=
  mkConfig (X c) (Z_ c) (layers c) (layer_map c) (_layer_stacks c) (_parsed_config c)
    (cell_types c) (cell_type_map c) ct (placement_strategies c).
Definition set_placement_strategies (ps : list (slot * Instance)) (c : ScaffoldConfig)
  : ScaffoldConfig :=
  mkConfig (X c) (Z_ c) (layers c) (layer_map c) (_layer_stacks c) (_parsed_config c)
    (cell_types c) (cell_type_map c) (connection_types c) ps.

(** The object [ScaffoldConfig.__init__] leaves before anything is
    loaded, holding the parsed document. *)
Definition new_config (parsed : value) : ScaffoldConfig :=
  mkConfig (Qc_of_Z 200) (Qc_of_Z 200) [] [] [] parsed [] [] [] [].

(** ** ScaffoldConfig.resize *)

(** The body of the loop over [self.layers.values()]. *)
Definition resize_layer (scaling_x scaling_z X Z : Qc) (layer : Layer) : Layer :=
  let layer :=
    if scaling layer then
      set_dimensions (Vec3 (vx (dimensions layer) * scaling_x)
                           (vy (dimensions layer))
                           (vz (dimensions layer) * scaling_z)) layer
    else layer in
  if xz_center layer then
    set_origin (Vec3 (X / 2 - vx (dimensions layer) / 2)
                     (vy (origin layer))
                     (Z / 2 - vz (dimensions layer) / 2)) layer
  else layer.

Definition resize (X' Z' : option Qc) : M ScaffoldConfig unit :=
  scaling_x ← match X' with
              | Some x =>
                  selfX ← gets X;
                  s ← lift (py_div x selfX);
                  modify (set_X x);;
                  mret s
              | None => mret 1
              end;
  scaling_z ← match Z' with
              | Some z =>
                  selfZ ← gets Z_;
                  s ← lift (py_div z selfZ);
                  modify (set_Z z);;
                  mret s
              | None => mret 1
              end;
  modify (fun self =>
    set_layers (prod_map id (resize_layer scaling_x scaling_z (X self) (Z_ self))
                  <$> layers self) self).

(** ** Built-in conversions and string formatting *)

Section builtins.
Context `{!Runtime}.

(** [float(v)] *)
Definition float (v : value) : outcome Qc :=
  match v with
  | VBool _ | VInt _ | VFloat _ => number v
  | VStr s => match float_of_str s with Some q => Ok q | None => Raise ValueError end
  | _ => Raise TypeError
  end.

(** [int(v)] *)
Definition int (v : value) : outcome Z :=
  match v with
  | VBool b => Ok (if b then 1 else 0)%Z
  | VInt n => Ok n
  | VFloat q => Ok (trunc q)
  | VStr s => match int_of_str s with Some n => Ok n | None => Raise ValueError end
  | _ => Raise TypeError
  end.

(** [str(v)], as [str.format] applies it to its arguments. *)
Definition str (v : value) : string :=
  match v with
  | VStr s => s
  | _ => py_repr v
  end.
End builtins.

(** [fmt.format(a, b, ...)] for a format string whose only replacement
    fields are [{}]. *)
Fixpoint format (fmt : string) (args : list string) : outcome string :=
  match fmt with
  | EmptyString => Ok EmptyString
  | String c rest =>
      match c, rest with
      | "{"%char, String "}"%char rest' =>
          match args with
          | a :: args' => s ← format rest' args'; mret (a +:+ s)
          | [] => Raise IndexError
          end
      | _, _ => s ← format rest args; mret (String c s)
      end
  end.

(** [raise E(fmt.format(a, b, ...))] *)
Definition raise_format {S A} (E : string -> exn) (fmt : string) (args : list string)
  : M S A :=
  msg ← lift (format fmt args); raise (E msg).

(** [if b: m] *)
Definition when {S} (b : bool) (m : M S unit) : M S unit :=
  if b then m else mret tt.

(** Reading a local variable of a Python function: a name that the
    function assigns somewhere is local to it, and reading it before the
    assignment has run raises [UnboundLocalError]. *)
Definition read_local {S A} (var : string) (binding : option A) : M S A :=
  match binding with
  | Some a => mret a
  | None => raise (UnboundLocalError var)
  end.

(** ** JSONConfig.load_attr *)

(** The [final] argument: a function that [load_attr] calls either with
    no argument or with a name and a section.  Calling it with the wrong
    number of arguments is a [TypeError]. *)
Variant finalizer (S : Type) : Type :=
  | Final0 (f : M S unit)
  | Final2 (f : string -> value -> M S unit).
Arguments Final0 {S} f.
Arguments Final2 {S} f.

Definition call0 {S} (final : finalizer S) : M S unit :=
  match final with
  | Final0 f => f
  | Final2 _ => raise TypeError
  end.

Definition call2 {S} (final : finalizer S) (def_name : string) (def_config : value)
  : M S unit :=
  match final with
  | Final0 _ => raise TypeError
  | Final2 f => f def_name def_config
  end.

(** [node_name or "configuration"] *)
Definition or_configuration (node_name : option string) : string :=
  match node_name with
  | Some n => if bool_decide (n = "") then "configuration" else n
  | None => "configuration"
  end.

(** The sections are passed to the callbacks by value; in the source they
    are the objects of the parsed document, and a callback that assigns
    into its section ([init_layer] does, for ["xz_scale"]) changes the
    document.  [init_layer] below records that write in
    [_parsed_config]. *)
Definition load_attr {S} (config : value) (attr : string)
    (init : string -> value -> M S unit) (final : option (finalizer S))
    (single : bool) (node_name : option string) : M S unit :=
  present ← lift (contains config attr);
  when (negb present)
    (raise_format Exception "Missing '{}' attribute in {}."
       [attr; or_configuration node_name]);;
  children ← lift (getitem config attr ≫= items);
  for_each children (fun '(def_name, def_config) => init def_name def_config);;
  match final with
  | Some final' =>
      if single then call0 final'
      else
        children ← lift (getitem config attr ≫= items);
        for_each children (fun '(def_name, def_config) => call2 final' def_name def_config)
  | None => mret tt
  end.

(** ** Layers *)

Definition add_layer (layer : Layer) : M ScaffoldConfig unit :=
  modify (fun self => set_layers (dict_set (name layer) layer (layers self)) self);;
  modify (fun self => set_layer_map (layer_map self ++ [name layer]) self).

(** [self.layers[name]] *)
Definition self_layer (layer_name : string) : M ScaffoldConfig Layer :=
  ls ← gets layers;
  match dict_get layer_name ls with
  | Some layer => mret layer
  | None => raise KeyError
  end.

(** [self._layer_stacks[stack_id]] *)
Definition self_stack (stack_id : Z) : M ScaffoldConfig Stack :=
  stacks ← gets _layer_stacks;
  match dict_get stack_id stacks with
  | Some stack => mret stack
  | None => raise KeyError
  end.

(** A write through a reference to the stack object of [stack_id]. *)
Definition update_stack (stack_id : Z) (f : Stack -> Stack) : M ScaffoldConfig unit :=
  stack ← self_stack stack_id;
  modify (fun self => set_layer_stacks (dict_set stack_id (f stack) (_layer_stacks self)) self).

(** [doc[k1][k2][key] = v] *)
Definition setitem (key : string) (v : value) (section : value) : value :=
  match section with
  | VDict d => VDict (dict_set key v d)
  | _ => section
  end.

Definition update_item (key : string) (f : value -> value) (section : value) : value :=
  match section with
  | VDict d =>
      match dict_get key d with
      | Some v => VDict (dict_set key (f v) d)
      | None => section
      end
  | _ => section
  end.

(** [x is True] *)
Definition is_True (v : value) : bool :=
  match v with VBool true => true | _ => false end.

Definition isinstance_list (v : value) : bool :=
  match v with VList _ => true | _ => false end.

Section layers.
Context `{!Runtime}.

(** The [stack] block of a layer section (lines 604-633). *)
Definition init_layer_stack (name : string) (config : value) : M ScaffoldConfig unit :=
  stack_config ← lift (getitem config "stack");
  has_id ← lift (contains stack_config "stack_id");
  when (negb has_id)
    (raise_format Exception "A 'stack_id' attribute is required in '{}.stack'." [name]);;
  stack_id ← lift (getitem stack_config "stack_id" ≫= int);
  (* Get or add stack to layer_stacks *)
  stacks ← gets _layer_stacks;
  when (negb (dict_mem stack_id stacks))
    (modify (set_layer_stacks (dict_set stack_id (mkStack [] None) stacks)));;
  has_slot ← lift (contains stack_config "position_in_stack");
  when (negb has_slot)
    (raise_format Exception
       "A 'position_in_stack' attribute is required in '{}.stack'." [name]);;
  position_in_stack ← lift (getitem stack_config "position_in_stack" ≫= hash_key);
  update_stack stack_id (fun stack =>
    mkStack (dict_set position_in_stack name (stack_layers stack)) (stack_position stack));;
  (* Configurate the position of the stack *)
  has_position ← lift (contains stack_config "position");
  when has_position (
    stack ← self_stack stack_id;
    when (bool_decide (is_Some (stack_position stack)))
      (raise_format Exception
         "Duplicate positioning attribute found for stack with id '{}'"
         [str (VInt stack_id)]);;
    position ← lift (getitem stack_config "position");
    update_stack stack_id (fun stack => mkStack (stack_layers stack) (Some position))).

(** The [xz_scale] attribute (lines 635-650); a scalar is replaced, in
    the document, by a two element list. *)
Definition init_layer_xz_scale (name : string) (config : value)
  : M ScaffoldConfig (Qc * Qc) :=
  has_xz_scale ← lift (contains config "xz_scale");
  if (has_xz_scale : bool) then
    xz_scale ← lift (getitem config "xz_scale");
    xz_scale ←
      (if isinstance_list xz_scale then mret xz_scale
       else
         match float xz_scale with
         | Ok xzScaleValue =>
             let pair := VList [VFloat xzScaleValue; VFloat xzScaleValue] in
             modify (fun self =>
               set_parsed_config
                 (update_item "layers" (update_item name (setitem "xz_scale" pair))
                    (_parsed_config self)) self);;
             mret pair
         | Raise _ =>
             raise_format Exception "Could not convert xz_scale value '{}' to a float."
               [str xz_scale]
         end);
    xzScale0 ← lift (getindex xz_scale 0 ≫= float);
    xzScale1 ← lift (getindex xz_scale 1 ≫= float);
    mret (xzScale0, xzScale1)
  else mret (1, 1).

Definition init_layer (name : string) (config : value) : M ScaffoldConfig Layer :=
  (* Get thickness of the layer *)
  has_thickness ← lift (contains config "thickness");
  has_volume_scale ← lift (contains config "volume_scale");
  when (negb has_thickness && negb has_volume_scale)
    (raise_format ConfigurationException
       "Either a thickness attribute or volume_scale required in {} config." [name]);;
  thickness ← (if (has_thickness : bool) then lift (getitem config "thickness" ≫= float)
               else mret 0);
  (* Set the position of this layer in the space. *)
  has_position ← lift (contains config "position");
  origin ←
    (if negb has_position then mret (Vec3 0 0 0)
     else
       position ← lift (getitem config "position");
       origin ← lift (iterate position ≫= map_outcome float);
       match origin with
       | [x; y; z] => mret (Vec3 x y z)
       | _ => raise_format Exception "Invalid position '{}' given in config '{}'"
                [str position; name]
       end);
  (* Parse the layer stack config *)
  has_stack ← lift (contains config "stack");
  when has_stack (init_layer_stack name config);;
  (* Set the layer dimensions *)
  '(xzScale0, xzScale1) ← init_layer_xz_scale name config;
  selfX ← gets X;
  selfZ ← gets Z_;
  let dimensions := Vec3 (selfX * xzScale0) thickness (selfZ * xzScale1) in
  (* and center the layer on the XZ plane, if present *)
  has_xz_center ← lift (contains config "xz_center");
  centered ← (if (has_xz_center : bool) then is_True <$> lift (getitem config "xz_center")
              else mret false);
  let origin :=
    if (centered : bool) then
      Vec3 ((selfX - vx dimensions) / 2) (vy origin) ((selfZ - vz dimensions) / 2)
    else origin in
  (* Put together the layer object from the extracted values. *)
  let layer := set_xz_center centered (new_Layer name origin dimensions) in
  add_layer layer;;
  mret layer.
End layers.

(** ** Sorting the slots of a stack

    [sorted(stack["layers"].items())] compares (slot, name) pairs:
    numbers with numbers and strings with strings, anything else is a
    [TypeError].  The slots of a dictionary are distinct, so the result
    does not depend on the sorting algorithm; an insertion sort stands
    for it. *)

Definition slot_lt (a b : slot) : outcome bool :=
  match a, b with
  | SNum x, SNum y => Ok (bool_decide (x < y))
  | SStr s, SStr t => Ok (String.ltb s t)
  | _, _ => Raise TypeError
  end.

Definition item_lt (a b : slot * string) : outcome bool :=
  if bool_decide (a.1 = b.1) then Ok (String.ltb a.2 b.2) else slot_lt a.1 b.1.

Fixpoint insert_sorted (x : slot * string) (l : list (slot * string))
  : outcome (list (slot * string)) :=
  match l with
  | [] => Ok [x]
  | y :: l' =>
      lt ← item_lt x y;
      if (lt : bool) then Ok (x :: y :: l')
      else l'' ← insert_sorted x l'; mret (y :: l'')
  end.

Fixpoint sorted (l : list (slot * string)) : outcome (list (slot * string)) :=
  match l with
  | [] => Ok []
  | x :: l' => l'' ← sorted l'; insert_sorted x l''
  end.

(** ** JSONConfig.finalize_layers *)

Definition scale (k : Qc) (v : vec3) : vec3 := Vec3 (k * vx v) (k * vy v) (k * vz v).
Definition prod (v : vec3) : Qc := vx v * vy v * vz v.

(** [self.layers[layer].volume] for an element of [scale_from_layers]. *)
Definition reference_volume (ls : list (string * Layer)) (layer : value) : outcome Qc :=
  match layer with
  | VStr n => match dict_get n ls with Some l => Ok (volume l) | None => Raise KeyError end
  | VList _ | VDict _ => Raise TypeError
  | _ => Raise KeyError
  end.

Definition sum (l : list Qc) : Qc := foldr Qcplus 0 l.

Section finalize_layers.
Context `{!Runtime}.

(** The dimensions a volume-scale constraint gives a layer (lines
    862-907).  The components of the ratio must be numbers. *)
Definition scaled_dimensions (ls : list (string * Layer))
    (volume_scale reference_layers dimension_ratios : value) : outcome vec3 :=
  (* Normalize dimension ratios to y dimension *)
  ratio1 ← getindex dimension_ratios 1;
  ratios ← iterate dimension_ratios ≫= map_outcome number;
  ratio1 ← number ratio1;
  dimension_ratios ← map_outcome (fun r => np_div r ratio1) ratios;
  references ← iterate reference_layers;
  volumes ← map_outcome (reference_volume ls) references;
  let volume_reference_layers := sum volumes in
  volume_scale ← number volume_scale;
  quotient ← np_div volume_reference_layers
               (volume_scale * foldr Qcmult 1 dimension_ratios);
  let normalized_size := pow_third quotient in
  (* Apply the normalized size with their ratios to each dimension *)
  match dimension_ratios with
  | [rx; ry; rz] => Ok (scale normalized_size (Vec3 rx ry rz))
  | _ => Raise ValueError
  end.

(** The body of the first loop, for the layer stored under
    [layer_name].  [local_name] is the method's local variable [name]. *)
Definition scale_layer (local_name : option string) (layer_name : string)
  : M ScaffoldConfig unit :=
  layer ← self_layer layer_name;
  parsed ← gets _parsed_config;
  config ← lift (getitem parsed "layers" ≫= fun ls => getitem ls (name layer));
  has_volume_scale ← lift (contains config "volume_scale");
  when has_volume_scale (
    volume_scale ← lift (getitem config "volume_scale");
    has_reference ← lift (contains config "scale_from_layers");
    when (negb has_reference) (
      name ← read_local "name" local_name;
      raise_format ConfigurationException
        "Required attribute scale_from_layers missing in {} config." [name]);;
    reference_layers ← lift (getitem config "scale_from_layers");
    has_ratio ← lift (contains config "volume_dimension_ratio");
    dimension_ratios ←
      (if (has_ratio : bool) then lift (getitem config "volume_dimension_ratio")
       else mret (VList [VFloat 1; VFloat 1; VFloat 1]));
    ls ← gets layers;
    dimensions ← lift (scaled_dimensions ls volume_scale reference_layers dimension_ratios);
    modify (fun self =>
      set_layers (dict_set layer_name (set_dimensions dimensions layer) (layers self)) self)).

(** The inner loop of the second loop: the layers of one stack, from
    the bottom up, with the roof reached so far. *)
Fixpoint place_layers (stack_roof : Qc) (names : list string) : M ScaffoldConfig unit :=
  match names with
  | [] => mret tt
  | name :: names' =>
      layer ← self_layer name;
      (* Place the layer on top of the roof of the stack, and move up
         the roof by the thickness of the stacked layer. *)
      let layer' :=
        set_origin (Vec3 (vx (origin layer)) stack_roof (vz (origin layer))) layer in
      modify (fun self => set_layers (dict_set name layer' (layers self)) self);;
      place_layers (stack_roof + thickness layer') names'
  end.

(** The body of the second loop.  A base height that is not a number
    cannot be added to a thickness. *)
Definition place_stack (stack_id : Z) : M ScaffoldConfig unit :=
  stack ← self_stack stack_id;
  when (bool_decide (stack_position stack = None))
    (update_stack stack_id (fun stack =>
       mkStack (stack_layers stack) (Some (VList [VFloat 0; VFloat 0; VFloat 0]))));;
  stack ← self_stack stack_id;
  position ← match stack_position stack with
             | Some position => mret position
             | None => raise KeyError
             end;
  (* Get the current roof of the stack *)
  stack_roof ← lift (getindex position 1 ≫= number);
  layers_in_order ← lift (sorted (stack_layers stack));
  place_layers stack_roof layers_in_order.*2.

Definition finalize_layers : M ScaffoldConfig unit :=
  (* [name] is assigned by the second loop only *)
  let local_name : option string := None in
  ls ← gets layers;
  for_each (dict_keys ls) (scale_layer local_name);;
  stacks ← gets _layer_stacks;
  for_each (dict_keys stacks) place_stack.

(** Lines 428-436 of [JSONConfig.__init__]. *)
Definition load_layers : M ScaffoldConfig unit :=
  modify (set_layer_stacks []);;
  parsed_config ← gets _parsed_config;
  load_attr parsed_config "layers"
    (fun name config => init_layer name config;; mret tt)
    (Some (Final0 finalize_layers)) true None.
End finalize_layers.

(** ** Helpers, placement and connection types *)

(** Modelled from the spec: scaffold/helpers.py is not among the sources.
    [assert_attr] returns a required attribute of a section and fails
    with a configuration error naming the attribute and the node path
    when the key is absent. *)
Definition assert_attr (section : value) (attr section_name : string) : outcome value :=
  present ← contains section attr;
  if (present : bool) then getitem section attr
  else
    msg ← format "Required attribute '{}' missing in '{}'." [attr; section_name];
    Raise (ConfigurationException msg).

(** Modelled from the spec: scaffold/helpers.py is not among the sources.
    A required attribute that must be an array. *)
Definition assert_attr_array (section : value) (attr section_name : string)
  : outcome value :=
  v ← assert_attr section attr section_name;
  if isinstance_list v then Ok v
  else
    msg ← format "Attribute '{}' in '{}' must be an array." [attr; section_name];
    Raise (ConfigurationException msg).

(** Modelled from the spec: scaffold/helpers.py is not among the sources.
    [assert_strictly_one] requires exactly one of [attrs] to be a key of
    the section and returns that key with its value; it fails with a
    configuration error if zero or more than one is present. *)
Definition assert_strictly_one (section : value) (attrs : list string)
    (section_name : string) : outcome (string * value) :=
  d ← items section;
  match filter (fun attr => dict_mem attr d) attrs with
  | [attr] => v ← getitem section attr; mret (attr, v)
  | _ =>
      msg ← format "Strictly one of the following attributes is expected in {}."
              [section_name];
      Raise (ConfigurationException msg)
  end.

Section helpers.
Context `{!Runtime}.

(** Modelled from the spec: scaffold/helpers.py is not among the
    sources.  [assert_float] casts a value to a float and fails with a
    configuration error naming the node path if it cannot. *)
Definition assert_float (val : value) (section_name : string) : outcome Qc :=
  match float val with
  | Ok x => Ok x
  | Raise _ =>
      msg ← format "Invalid float '{}' given for '{}'." [str val; section_name];
      Raise (ConfigurationException msg)
  end.

(** Modelled from the spec: scaffold/helpers.py is not among the
    sources.  A required attribute that must be a float. *)
Definition assert_attr_float (section : value) (attr section_name : string)
  : outcome Qc :=
  v ← assert_attr section attr section_name;
  assert_float v (section_name +:+ "." +:+ attr).
End helpers.

(** [obj.name], as a dictionary key. *)
Definition instance_name (obj : Instance) : outcome slot :=
  match dict_get "name" (__dict__ obj) with
  | Some (Val v) => hash_key v
  | Some (CellTypes _) => Raise TypeError
  | None => Raise AttributeError
  end.

(** [obj.attr] *)
Definition getattr (obj : Instance) (k : string) : outcome attr :=
  match dict_get k (__dict__ obj) with
  | Some a => Ok a
  | None => Raise AttributeError
  end.

(** ** ScaffoldConfig.fill_configurable_class *)

Definition fill_configurable_class (obj : Instance) (conf : value)
    (excluded : list string) : outcome Instance :=
  props ← items conf;
  (* Loop over all items in the configuration section. *)
  mret (foldl (fun obj '(name, prop) =>
          (* If the key isn't excluded, copy the value to the internal dictionary *)
          if bool_decide (name ∈ excluded) then obj else setattr name (Val prop) obj)
        obj props).

(** The qualified names of the capability classes. *)
Definition PlacementStrategy : string := "scaffold.placement.PlacementStrategy".
Definition ConnectionStrategy : string := "scaffold.connectivity.ConnectionStrategy".

Section classes.
Context `{!Runtime}.

(** ** ScaffoldConfig.load_configurable_class, for a class given by
    its qualified name *)
Definition load_configurable_class (name : string) (configured_class_name : value)
    (parent_class : string) : outcome Instance :=
  match configured_class_name with
  | VStr qualified =>
      match import_class qualified with
      | ModuleNotFound => Raise ImportError
      | ClassNotFound =>
          Raise (ConfigurableClassNotFoundException ("Class not found:" +:+ qualified))
      | ClassFound class_ref =>
          if bool_decide (parent_class ∈ class_bases class_ref) then
            (* Construct an instance of the class and set the name *)
            Ok (setattr "name" (Val (VStr name))
                  (mkInstance class_ref (prod_map id Val <$> class_attrs class_ref)))
          else
            msg ← format "Configurable class '{}' must derive from {}"
                    [qualified; parent_class];
            Raise (DynamicClassException msg)
      end
  | _ => Raise AttributeError
  end.
End classes.

Definition add_placement_strategy (placement : Instance) : M ScaffoldConfig unit :=
  key ← lift (instance_name placement);
  modify (fun self =>
    set_placement_strategies (dict_set key placement (placement_strategies self)) self).

Definition add_connection (connection : Instance) : M ScaffoldConfig unit :=
  key ← lift (instance_name connection);
  modify (fun self =>
    set_connection_types (dict_set key connection (connection_types self)) self).

(** The density modes of a placement section. *)
Definition density_attrs : list string :=
  ["density"; "planar_density"; "placement_count_ratio"; "density_ratio"; "count"].

Section placement.
Context `{!Runtime}.

(** ** JSONConfig.init_placement *)
Definition init_placement (section : value) (cell_type_name : string)
  : M ScaffoldConfig Instance :=
  let name := cell_type_name +:+ "_placement" in
  node_name ← lift (format "cell_types.{}.placement" [cell_type_name]);
  placement_class ← lift (assert_attr section "class" node_name);
  placement ←
    match load_configurable_class name placement_class PlacementStrategy with
    | Raise (ConfigurableClassNotFoundException _) =>
        raise_format Exception "Couldn't find class '{}' specified in '{}'"
          [str placement_class; node_name]
    | r => lift r
    end;
  (* Placement layer *)
  layer ← lift (assert_attr section "layer" node_name);
  let placement := setattr "layer" (Val layer) placement in
  placement ←
    (if negb (class_is_entities (instance_class placement)) then
       (* Radius of the cell soma *)
       soma_radius ← lift (assert_attr_float section "soma_radius" node_name);
       let placement := setattr "soma_radius" (Val (VFloat soma_radius)) placement in
       (* Alias it to the radius shorthand. *)
       mret (setattr "radius" (Val (VFloat soma_radius)) placement)
     else mret placement);
  (* Density configurations all rely on a float or a float and relation *)
  '(density_attr, density_value) ←
    lift (assert_strictly_one section density_attrs node_name);
  section_name ← lift (format "{}.{}" [node_name; density_attr]);
  density_value ← lift (assert_float density_value section_name);
  let placement := setattr density_attr (Val (VFloat density_value)) placement in
  (* Does this density configuration rely on a relation to another cell_type? *)
  let ratio_attrs := ["placement_count_ratio"; "density_ratio"] in
  placement ←
    (if bool_decide (density_attr ∈ ratio_attrs) then
       relation ← lift (assert_attr section "placement_relative_to" node_name);
       mret (setattr "placement_relative_to" (Val relation) placement)
     else mret placement);
  (* Copy other information to be validated by the placement class *)
  placement ← lift (fill_configurable_class placement section
    ["class"; "layer"; "soma_radius"; "density"; "planar_density";
     "placement_count_ratio"; "density_ratio"]);
  (* Register the configured placement class *)
  add_placement_strategy placement;;
  mret placement.

(** ** JSONConfig.init_connection *)
Definition init_connection (name : string) (section : value) : M ScaffoldConfig unit :=
  node_name ← lift (format "connection_types.{}" [name]);
  connection_class ← lift (assert_attr section "class" node_name);
  connection ← lift (load_configurable_class name connection_class ConnectionStrategy);
  connection ← lift (fill_configurable_class connection section
    ["class"; "from_cell_types"; "to_cell_types"; "simulation"]);
  from_cell_types ← lift (assert_attr_array section "from_cell_types" node_name);
  let connection := setattr "_from_cell_types" (Val from_cell_types) connection in
  to_cell_types ← lift (assert_attr_array section "to_cell_types" node_name);
  let connection := setattr "_to_cell_types" (Val to_cell_types) connection in
  add_connection connection.

(** ** JSONConfig.finalize_connection *)

(** [raise Exception("Unknown cell type '{}' in '{}.from_cell_types'"
    .format(type, node_name))], and the same for [to_cell_types]. *)
Definition unknown_cell_type {A} (type : value) (node_name direction : string)
  : outcome A :=
  msg ← format ("Unknown cell type '{}' in '{}." +:+ direction +:+ "'")
          [str type; node_name];
  Raise (Exception msg).

(** One of the two loops over the raw references, with its counter
    [i]: the names of the cell types found and their compartments. *)
Fixpoint resolve_cell_types (cell_types : list (string * CellType))
    (node_name direction default_compartment : string) (i : nat)
    (connected_cells : list value) : outcome (list string * list value) :=
  match connected_cells with
  | [] => Ok ([], [])
  | connected_cell :: rest =>
      type ← assert_attr connected_cell "type" (node_name +:+ "." +:+ pretty i);
      key ← hash_key type;
      match key with
      | SStr type_name =>
          if dict_mem type_name cell_types then
            has_compartments ← contains connected_cell "compartments";
            compartments ←
              (if (has_compartments : bool) then getitem connected_cell "compartments"
               else Ok (VList [VStr default_compartment]));
            '(types, compartments') ←
              resolve_cell_types cell_types node_name direction default_compartment
                (S i) rest;
            mret (type_name :: types, compartments :: compartments')
          else unknown_cell_type type node_name direction
      | _ => unknown_cell_type type node_name direction
      end
  end.

(** Iterating [connection._from_cell_types] or
    [connection._to_cell_types]. *)
Definition raw_references (connection : Instance) (k : string)
  : outcome (list value) :=
  a ← getattr connection k;
  match a with
  | Val v => iterate v
  | CellTypes _ => Raise TypeError
  end.

Definition finalize_connection (connection_name : string) (section : value)
  : M ScaffoldConfig unit :=
  let node_name := "connection_types.{}" in
  connections ← gets connection_types;
  connection ← match dict_get (SStr connection_name) connections with
               | Some connection => mret connection
               | None => raise KeyError
               end;
  known ← gets cell_types;
  raw_from ← lift (raw_references connection "_from_cell_types");
  '(from_cell_types, from_cell_compartments) ←
    lift (resolve_cell_types known node_name "from_cell_types" "axon" 0 raw_from);
  raw_to ← lift (raw_references connection "_to_cell_types");
  '(to_cell_types, to_cell_compartments) ←
    lift (resolve_cell_types known node_name "to_cell_types" "dendrites" 0 raw_to);
  let connection := setattr "from_cell_types" (CellTypes from_cell_types) connection in
  let connection := setattr "to_cell_types" (CellTypes to_cell_types) connection in
  let connection :=
    setattr "from_cell_compartments" (Val (VList from_cell_compartments)) connection in
  let connection :=
    setattr "to_cell_compartments" (Val (VList to_cell_compartments)) connection in
  modify (fun self =>
    set_connection_types
      (dict_set (SStr connection_name) connection (connection_types self)) self).

(** Lines 444-450 of [JSONConfig.__init__]. *)
Definition load_connection_types : M ScaffoldConfig unit :=
  parsed_config ← gets _parsed_config;
  load_attr parsed_config "connection_types" init_connection
    (Some (Final2 finalize_connection)) false None.
End placement.

(** ** A concrete runtime and sample documents

    Used to run the loader on concrete inputs.  The sample runtime reads
    unsigned decimal integers, takes cube roots of perfect cubes and knows
    a handful of classes. *)
Module Sample.

Definition digit (a : ascii) : option Z :=
  let n := Z.of_nat (nat_of_ascii a) in
  if bool_decide (48 <= n <= 57)%Z then Some (n - 48)%Z else None.

Fixpoint digits (acc : Z) (s : string) : option Z :=
  match s with
  | EmptyString => Some acc
  | String a s' => d ← digit a; digits (10 * acc + d)%Z s'
  end.

Definition decimal (s : string) : option Z :=
  match s with
  | EmptyString => None
  | _ => digits 0%Z s
  end.

(** The integer cube root of a perfect cube, 0 for other integers. *)
Definition icbrt (n : Z) : Z :=
  let candidates := Z.of_nat <$> seq 0 (S (Z.to_nat (Z.abs n))) in
  match List.find (fun r => bool_decide (r * r * r = Z.abs n)%Z) candidates with
  | Some r => (Z.sgn n * r)%Z
  | None => 0%Z
  end.

Definition cube_root (q : Qc) : Qc :=
  Qc_of_Z (icbrt (Qnum (this q))) / Qc_of_Z (icbrt (Zpos (Qden (this q)))).

Definition strategy (capability : string) (entities : bool) : class_lookup :=
  ClassFound {| class_bases := [capability]; class_is_entities := entities;
                class_attrs := [] |}.

Definition classes (qualified : string) : class_lookup :=
  if bool_decide (qualified = "scaffold.placement.ParticlePlacement") then
    strategy PlacementStrategy false
  else if bool_decide (qualified = "scaffold.placement.Entities") then
    strategy PlacementStrategy true
  else if bool_decide (qualified = "scaffold.connectivity.AllToAll") then
    strategy ConnectionStrategy false
  else if bool_decide (qualified = "scaffold.placement.Missing") then ClassNotFound
  else ModuleNotFound.

Definition runtime : Runtime := {|
  float_of_str s := Qc_of_Z <$> decimal s;
  int_of_str := decimal;
  py_repr v := match v with VInt n => pretty n | _ => "<value>" end;
  pow_third := cube_root;
  import_class := classes
|}.

(** The state in which the layers of [document] are loaded: the volume
    is 200 by 200. *)
Definition config (document : value) : ScaffoldConfig := new_config document.

(** The entries of the layers section of a document. *)
Definition layer_sections (document : value) : list (string * value) :=
  match getitem document "layers" ≫= items with
  | Ok children => children
  | Raise _ => []
  end.

Definition stack_block (stack_id slot : Z) : value :=
  VDict [("stack_id", VInt stack_id); ("position_in_stack", VInt slot)].

(** Two layers in stack 1 at slots 0 and 1, of thickness 50 and 30. *)
Definition two_stacked : value :=
  VDict [("layers", VDict [
    ("bottom", VDict [("thickness", VInt 50); ("stack", stack_block 1 0)]);
    ("top", VDict [("thickness", VInt 30); ("stack", stack_block 1 1)])])].

(** The lower layer of a stack has a negative thickness. *)
Definition sunken : value :=
  VDict [("layers", VDict [
    ("a", VDict [("thickness", VInt (-10)); ("stack", stack_block 0 0)]);
    ("b", VDict [("thickness", VInt 5); ("stack", stack_block 0 1)])])].

(** Two layers claim slot 0 of stack 0. *)
Definition same_slot : value :=
  VDict [("layers", VDict [
    ("a", VDict [("thickness", VInt 10); ("stack", stack_block 0 0)]);
    ("b", VDict [("thickness", VInt 20); ("stack", stack_block 0 0)])])].


(** A volume scale without the layers to scale from. *)
Definition no_reference : value :=
  VDict [("layers", VDict [("a", VDict [("volume_scale", VFloat (Qc_of_Z 2))])])].

(** A connection type that refers to a cell type nobody declared. *)
Definition ghost_connection : value :=
  VDict [("connection_types", VDict [
    ("a_to_ghost", VDict [
       ("class", VStr "scaffold.connectivity.AllToAll");
       ("from_cell_types", VList [VDict [("type", VStr "ghost")]]);
       ("to_cell_types", VList [VDict [("type", VStr "a")]])])])].

Definition with_cell_type (n : string) (c : ScaffoldConfig) : ScaffoldConfig :=
  mkConfig (X c) (Z_ c) (layers c) (layer_map c) (_layer_stacks c) (_parsed_config c)
    (dict_set n (mkCellType n None false) (cell_types c)) (cell_type_map c ++ [n])
    (connection_types c) (placement_strategies c).

(** A placement section with a count given as a string. *)
Definition count_as_string : value :=
  VDict [("class", VStr "scaffold.placement.ParticlePlacement");
         ("layer", VStr "granular_layer");
         ("soma_radius", VFloat (Qc_of_Z 2));
         ("count", VStr "10")].
End Sample.

(** ** Observing the calls [load_attr] makes

    To state in which order [load_attr] invokes its callbacks, a callback
    is wrapped so that it records, in a log kept next to the state, that
    it was called and, if it returns normally, that it returned. *)

Variant callback : Type :=
  | Init (def_name : string) (def_config : value)
  | FinalizeAll
  | Finalize (def_name : string) (def_config : value).

Variant event : Type :=
  | Call (c : callback)
  | Return (c : callback).

Definition logged {S A} (c : callback) (m : M S A) : M (S * list event) A :=
  fun '(s, log) =>
    match m s with
    | (Ok a, s') => (Ok a, (s', log ++ [Call c; Return c]))
    | (Raise e, s') => (Raise e, (s', log ++ [Call c]))
    end.

Definition logged_init {S} (init : string -> value -> M S unit)
  : string -> value -> M (S * list event) unit :=
  fun def_name def_config => logged (Init def_name def_config) (init def_name def_config).

Definition logged_final {S} (final : finalizer S) : finalizer (S * list event) :=
  match final with
  | Final0 f => Final0 (logged FinalizeAll f)
  | Final2 f => Final2 (fun def_name def_config =>
                  logged (Finalize def_name def_config) (f def_name def_config))
  end.

Definition completed (c : callback) : list event := [Call c; Return c].

(** The log of a load in which no callback raises: every entry is
    initialised, in document order, and then the collection is
    finalized, once or entry by entry. *)
Definition full_log {S} (children : list (string * value)) (final : option (finalizer S))
    (single : bool) : list event :=
  (children ≫= fun '(def_name, def_config) => completed (Init def_name def_config))
  ++ match final, single with
     | Some (Final0 _), true => completed FinalizeAll
     | Some (Final2 _), false =>
         children ≫= fun '(def_name, def_config) => completed (Finalize def_name def_config)
     | _, _ => []
     end.

(** The callback behind an event of the log: [init], or [final] called
    with the arguments it takes.  An event that is no call of this load
    stands for nothing. *)
Definition invoke {S} (init : string -> value -> M S unit) (final : option (finalizer S))
    (c : callback) : M S unit :=
  match c, final with
  | Init def_name def_config, _ => init def_name def_config
  | FinalizeAll, Some (Final0 f) => f
  | Finalize def_name def_config, Some (Final2 f) => f def_name def_config
  | _, _ => mret tt
  end.

(** The finalizer takes the number of arguments that [load_attr] calls
    it with: none if [single], two otherwise. *)
Definition takes_arguments {S} (final : option (finalizer S)) (single : bool) : bool :=
  match final, single with
  | Some (Final0 _), false | Some (Final2 _), true => false
  | _, _ => true
  end.

(** The callbacks return normally, whatever their arguments and the
    state they are called in. *)
Definition returns {S} (init : string -> value -> M S unit) (final : option (finalizer S))
  : Prop :=
  forall c s, (invoke init final c s).1 = Ok tt.

(** ** What the specification says about stacks *)

(** The height at which a stack starts: the Y component of its explicit
    position, and 0 when no position was given. *)
Definition base (position : option value) : outcome Qc :=
  match position with
  | Some position => getindex position 1 ≫= number
  | None => Ok 0
  end.

(** The layers called [names] sit on top of each other from [roof] up:
    the first one starts at [roof] and each next one starts where the
    one below it ends. *)
Fixpoint stacked (ls : list (string * Layer)) (roof : Qc) (names : list string) : Prop :=
  match names with
  | [] => True
  | name :: names' =>
      exists layer, dict_get name ls = Some layer /\ vy (origin layer) = roof /\
        stacked ls (vy (origin layer) + thickness layer) names'
  end.

(** Two dictionaries with the same keys, in the same order, and related
    values. *)
Definition dict_rel {K V} (R : V -> V -> Prop) (d1 d2 : list (K * V)) : Prop :=
  Forall2 (fun a b => a.1 = b.1 /\ R a.2 b.2) d1 d2.

(** Two stacks that differ at most in the X and Z components of their
    base position (or in any part of it that does not decide the height
    at which the stack starts). *)
Definition same_height (stack1 stack2 : Stack) : Prop :=
  stack_layers stack1 = stack_layers stack2 /\
  base (stack_position stack1) = base (stack_position stack2).

(** The X and Z components of the origin of the layer called [n]. *)
Definition origin_xz (n : string) (self : ScaffoldConfig) : option (Qc * Qc) :=
  (fun layer => (vx (origin layer), vz (origin layer))) <$> dict_get n (layers self).

(** Two configurations that differ at most in the parts of the stack
    positions that do not decide the height of a stack. *)
Definition same_heights (s1 s2 : ScaffoldConfig) : Prop :=
  layers s1 = layers s2 /\ _parsed_config s1 = _parsed_config s2 /\
  dict_rel same_height (_layer_stacks s1) (_layer_stacks s2).

(** A layer moved to the height [y]. *)
Definition lift_to (y : Qc) (layer : Layer) : Layer :=
  set_origin (Vec3 (vx (origin layer)) y (vz (origin layer))) layer.

Module Sample_stack.
Import Sample.

(** The two stacked layers, with an explicit position for their
    stack. *)
Definition based (position : value) : value :=
  VDict [("layers", VDict [
    ("bottom", VDict [("thickness", VInt 50);
       ("stack", VDict [("stack_id", VInt 1); ("position_in_stack", VInt 0);
                        ("position", position)])]);
    ("top", VDict [("thickness", VInt 30); ("stack", stack_block 1 1)])])].

(** The configuration once the layers of [document] are initialised
    and before they are finalized. *)
Definition initialised (document : value) : ScaffoldConfig :=
  (for_each (layer_sections document)
     (fun '(name, config) => @init_layer runtime name config;; mret tt)
     (config document)).2.

(** The same configuration with every stack moved to [position]. *)
Definition moved (position : value) (self : ScaffoldConfig) : ScaffoldConfig :=
  set_layer_stacks
    (prod_map id (fun stack => mkStack (stack_layers stack) (Some position))
       <$> _layer_stacks self) self.
End Sample_stack.

(** A slot that is a number, and the order of such slots. *)
Definition numeric (k : slot) : Prop := exists q, k = SNum q.
Definition slot_below (a b : slot) : Prop :=
  exists x y, a = SNum x /\ b = SNum y /\ x < y.

(** The first phase of [load_layers]: every entry of the layers section
    is initialised, in document order. *)
Definition init_layers `{!Runtime} (children : list (string * value))
  : M ScaffoldConfig unit :=
  modify (set_layer_stacks []);;
  for_each children (fun '(name, config) => init_layer name config;; mret tt).

(** The slots of the stack [stack_id], and the height at which it
    starts. *)
Definition slots_of (stacks : list (Z * Stack)) (stack_id : Z)
  : option (list (slot * string)) :=
  stack_layers <$> dict_get stack_id stacks.
Definition base_of (stacks : list (Z * Stack)) (stack_id : Z) : option (outcome Qc) :=
  base ∘ stack_position <$> dict_get stack_id stacks.

(** The stacks are well formed: a stack has no slot and no layer twice,
    and no layer is in two stacks. *)
Definition stacks_wf (stacks : list (Z * Stack)) : Prop :=
  (forall stack_id ls, slots_of stacks stack_id = Some ls ->
     NoDup (dict_keys ls) /\ NoDup (dict_values ls)) /\
  (forall stack_id stack_id' ls ls' n,
     slots_of stacks stack_id = Some ls -> slots_of stacks stack_id' = Some ls' ->
     n ∈ dict_values ls -> n ∈ dict_values ls' -> stack_id = stack_id').

(** ** What a layer section declares about stacks *)

Section declarations.
Context `{!Runtime}.

(** The stack block of a layer section: the stack it names, the slot
    it claims there and, if it gives one, the position of the stack. *)
Definition stack_declaration (config : value)
  : outcome (option (Z * slot * option value)) :=
  has_stack ← contains config "stack";
  if (has_stack : bool) then
    stack_config ← getitem config "stack";
    stack_id ← getitem stack_config "stack_id" ≫= int;
    position_in_stack ← getitem stack_config "position_in_stack" ≫= hash_key;
    has_position ← contains stack_config "position";
    position ← (if (has_position : bool)
                then Some <$> getitem stack_config "position" else Ok None);
    mret (Some (stack_id, position_in_stack, position))
  else mret None.

(** The names of the layers, in document order, that claim the slot
    [position_in_stack] of the stack [stack_id]. *)
Definition claimants (children : list (string * value)) (stack_id : Z)
    (position_in_stack : slot) : list string :=
  omap (fun '(name, config) =>
    match stack_declaration config with
    | Ok (Some (stack_id', position_in_stack', _)) =>
        if bool_decide (stack_id' = stack_id /\ position_in_stack' = position_in_stack)
        then Some name else None
    | _ => None
    end) children.

(** The names of the layers that give the stack [stack_id] a
    position. *)
Definition positioners (children : list (string * value)) (stack_id : Z)
  : list string :=
  omap (fun '(name, config) =>
    match stack_declaration config with
    | Ok (Some (stack_id', _, Some _)) =>
        if bool_decide (stack_id' = stack_id) then Some name else None
    | _ => None
    end) children.
End declarations.

(** The stacks once the layer [name] has claimed [position_in_stack] in
    the stack [stack_id], with a position for the stack or without. *)
Definition register (name : string) (stack_id : Z) (position_in_stack : slot)
    (position : option value) (stacks : list (Z * Stack)) : list (Z * Stack) :=
  let stack := default (mkStack [] None) (dict_get stack_id stacks) in
  dict_set stack_id
    (mkStack (dict_set position_in_stack name (stack_layers stack))
       (match position with
        | Some p => Some p
        | None => stack_position stack
        end))
    stacks.

(** The layer that a stack holds in a slot. *)
Definition layer_in_slot (stacks : list (Z * Stack)) (stack_id : Z)
    (position_in_stack : slot) : option string :=
  stack ← dict_get stack_id stacks; dict_get position_in_stack (stack_layers stack).

(** The heights of the origins of the layers called [names]. *)
Definition heights (ls : list (string * Layer)) (names : list string) : list Qc :=
  omap (fun n => vy ∘ origin <$> dict_get n ls) names.

(** No layer called [names] has a negative thickness. *)
Definition no_negative_thickness (ls : list (string * Layer)) (names : list string)
  : Prop :=
  Forall (fun n => forall layer, dict_get n ls = Some layer -> 0 <= thickness layer) names.

(** [s1] occurs in [s2]. *)
Fixpoint occurs_in (s1 s2 : string) : bool :=
  String.prefix s1 s2 ||
  match s2 with
  | EmptyString => false
  | String _ s2' => occurs_in s1 s2'
  end.

(** ** What else a placement section must satisfy

    Everything [init_placement] requires of a section apart from its
    density mode: the keys of the section are distinct, its class
    resolves to a placement strategy, it names a layer, it gives a
    numeric soma radius unless the class places entities, the values of
    its density keys are numeric, a ratio comes with the cell type it is
    relative to, and a [name] key, which the attribute copier would copy
    over the name of the instance, is hashable. *)
Definition other_requirements_met `{!Runtime} (d : list (string * value)) : Prop :=
  NoDup (dict_keys d) /\
  (exists qualified class_ref,
     dict_get "class" d = Some (VStr qualified) /\
     import_class qualified = ClassFound class_ref /\
     PlacementStrategy ∈ class_bases class_ref /\
     (class_is_entities class_ref = false ->
      exists v, dict_get "soma_radius" d = Some v /\ is_ok (float v) = true)) /\
  is_Some (dict_get "layer" d) /\
  (forall a v, a ∈ density_attrs -> dict_get a d = Some v -> is_ok (float v) = true) /\
  (dict_mem "placement_count_ratio" d || dict_mem "density_ratio" d = true ->
   is_Some (dict_get "placement_relative_to" d)) /\
  (forall v, dict_get "name" d = Some v -> is_ok (hash_key v) = true).

(** The number of density modes that a section gives. *)
Definition density_modes (d : list (string * value)) : nat :=
  List.length (filter (fun a => dict_mem a d) density_attrs).

Module Sample_placement.
Import Sample.

(** The placement that [init_placement] returns for a section of the
    cell type [granule]. *)
Definition loaded (section : value) : Instance :=
  match (@init_placement runtime section "granule" (config VNone)).1 with
  | Ok placement => placement
  | Raise _ => mkInstance (Build_class_def [] false []) []
  end.

Definition section_of (section : value) : list (string * value) :=
  match items section with
  | Ok d => d
  | Raise _ => []
  end.
End Sample_placement.

(** ** Volume-scale constraints *)


(** The section of the configuration that belongs to a layer. *)
Definition layer_section (s : ScaffoldConfig) (layer : Layer) : outcome value :=
  getitem (_parsed_config s) "layers" ≫= fun ls => getitem ls (name layer).


Definition references_of (config : value) : outcome (list value) :=
  getitem config "scale_from_layers" ≫= iterate.

Definition dimension_ratios_of (config : value) : outcome vec3 :=
  has_ratio ← contains config "volume_dimension_ratio";
  dimension_ratios ←
    (if (has_ratio : bool) then getitem config "volume_dimension_ratio"
     else Ok (VList [VFloat 1; VFloat 1; VFloat 1]));
  ratios ← iterate dimension_ratios ≫= map_outcome number;
  match ratios with
  | [rx; ry; rz] => Ok (Vec3 rx ry rz)
  | _ => Raise ValueError
  end.

(** The ratios of the components of a vector to its Y component. *)
Definition normalize (ratios : vec3) : vec3 :=
  Vec3 (vx ratios / vy ratios) (vy ratios / vy ratios) (vz ratios / vy ratios).

Section volume_scale.
Context `{!Runtime}.

(** The dimensions of a volume-scaled layer in the words of the
    specification: [Y] times the normalized ratios, where [Y] is the
    cube root of the summed volume of the referenced layers over the
    volume scale times the product of the normalized ratios. *)
Definition normalized_size (volumes : list Qc) (volume_scale : Qc) (ratios : vec3) : Qc :=
  pow_third (sum volumes / (volume_scale * prod (normalize ratios))).


End volume_scale.

(** ** The power of binary64 floats

    [pow(x, 1 / 3)] is not the cube root: [1 / 3] is the double next
    below one third.  CPython gives [pow(8.0, 1 / 3) = 2.0] and
    [pow(64.0, 1 / 3) = 3.9999999999999996], which is the double next
    below 4, that is [4 - 2 ^ -51].  This is the runtime of the samples
    with that power at 64. *)
Definition pow_third_binary64 (q : Qc) : Qc :=
  if bool_decide (q = Qc_of_Z 64) then Qc_of_Z 4 - Q2Qc (1 # 2 ^ 51)
  else Sample.cube_root q.

Definition runtime_binary64 : Runtime := {|
  float_of_str := @float_of_str Sample.runtime;
  int_of_str := @int_of_str Sample.runtime;
  py_repr := @py_repr Sample.runtime;
  pow_third := pow_third_binary64;
  import_class := @import_class Sample.runtime
|}.

(** Layer A is 4 by 1 by 4 in the volume of 200 by 200, and layer B is
    scaled to half of it as a cube. *)
Definition half_of_thin_A : value :=
  VDict [("layers", VDict [
    ("A", VDict [("thickness", VInt 1); ("xz_scale", VFloat (Q2Qc (1 # 50)))]);
    ("B", VDict [("volume_scale", VFloat (Qc_of_Z 2));
                 ("scale_from_layers", VList [VStr "A"]);
                 ("volume_dimension_ratio", VList [VInt 1; VInt 1; VInt 1])])])].

Module Sample_thin.
(** The layers of that document as [init_layer] leaves them. *)
Definition initialised : ScaffoldConfig :=
  (@init_layers runtime_binary64 (Sample.layer_sections half_of_thin_A)
     (Sample.config half_of_thin_A)).2.

End Sample_thin.

(** Stack 1 of the document with two stacked layers, as [init_layer]
    leaves it. *)
Definition two_stacked_stack : Stack :=
  default (mkStack [] None)
    (dict_get 1%Z
       (_layer_stacks
          (@init_layers Sample.runtime (Sample.layer_sections Sample.two_stacked)
             (Sample.config Sample.two_stacked)).2)).

(** ** The registries of layers and cell types

    [ScaffoldConfig.add_layer] is above; here are the lookups
    [get_layer], [get_layer_id] and [get_layer_list], and the cell type
    registry [add_cell_type], [get_cell_type]. *)

(** [l[i]]: a negative index counts from the end of the list. *)
Definition list_index {A} (l : list A) (i : Z) : outcome A :=
  let i' := if bool_decide (i < 0)%Z then (i + Z.of_nat (List.length l))%Z else i in
  if bool_decide (i' < 0)%Z then Raise IndexError
  else match l !! Z.to_nat i' with
       | Some a => Ok a
       | None => Raise IndexError
       end.

(** How a call ends that may also read a global name nothing defines:
    next to returning and to raising one of the exceptions above, it can
    raise [NameError] for that name. *)
Variant result (A : Type) : Type :=
  | Returned (a : A)
  | Raised (e : exn)
  | NameError (global : string).
Arguments Returned {A} a.
Arguments Raised {A} e.
Arguments NameError {A} global.

(** [ScaffoldConfig.get_layer] (lines 221-247).  The bound of an id is
    taken from [layer_map], the layer from the values of [layers].  The
    last statement raises [ArgumentError], a name that the module
    neither defines nor imports. *)
Definition get_layer (name : string) (id : Z) (self : ScaffoldConfig) : result Layer :=
  if bool_decide (id > -1)%Z then
    if bool_decide (Z.of_nat (List.length (layer_map self)) <= id)%Z then
      Raised (Exception ("Layer with id " +:+ pretty id +:+ " not found."))
    else
      match list_index (dict_values (layers self)) id with
      | Ok layer => Returned layer
      | Raise e => Raised e
      end
  else if bool_decide (name <> "") then
    if negb (dict_mem name (layers self)) then
      Raised (Exception ("Layer with name '" +:+ name +:+ "' not found"))
    else
      match dict_get name (layers self) with
      | Some layer => Returned layer
      | None => Raised KeyError
      end
  else NameError "ArgumentError".

(** [ScaffoldConfig.get_layer_id] (lines 249-259): [list.index]. *)
Definition get_layer_id (name : string) (self : ScaffoldConfig) : outcome nat :=
  match list_find (fun n => n = name) (layer_map self) with
  | Some (i, _) => Ok i
  | None => Raise ValueError
  end.

(** [ScaffoldConfig.get_layer_list] (lines 261-268). *)
Definition get_layer_list (self : ScaffoldConfig) : list Layer :=
  dict_values (layers self).

Definition set_cell_types (cts : list (string * CellType)) (c : ScaffoldConfig)
  : ScaffoldConfig :=
  mkConfig (X c) (Z_ c) (layers c) (layer_map c) (_layer_stacks c) (_parsed_config c)
    cts (cell_type_map c) (connection_types c) (placement_strategies c).
Definition set_cell_type_map (m : list string) (c : ScaffoldConfig) : ScaffoldConfig :=
  mkConfig (X c) (Z_ c) (layers c) (layer_map c) (_layer_stacks c) (_parsed_config c)
    (cell_types c) m (connection_types c) (placement_strategies c).

(** [ScaffoldConfig.add_cell_type] (lines 153-163). *)
Definition add_cell_type (cell_type : CellType) : M ScaffoldConfig unit :=
  modify (fun self =>
    set_cell_types (dict_set (cell_type_name cell_type) cell_type (cell_types self)) self);;
  modify (fun self =>
    set_cell_type_map (cell_type_map self ++ [cell_type_name cell_type]) self).

(** [ScaffoldConfig.get_cell_type] (lines 270-279). *)
Definition get_cell_type (id : Z) (self : ScaffoldConfig) : outcome CellType :=
  name ← list_index (cell_type_map self) id;
  match dict_get name (cell_types self) with
  | Some cell_type => Ok cell_type
  | None => Raise KeyError
  end.

(** The configuration after the layers [ls] were added to [c], one after
    the other. *)
Definition with_layers (ls : list Layer) (c : ScaffoldConfig) : ScaffoldConfig :=
  (for_each ls add_layer c).2.

Definition with_cell_types (cts : list CellType) (c : ScaffoldConfig) : ScaffoldConfig :=
  (for_each cts add_cell_type c).2.

(** The cell type that was added last under the name of [cell_type]. *)
Definition latest (cts : list CellType) (cell_type : CellType) : option CellType :=
  last (filter (fun ct => cell_type_name ct = cell_type_name cell_type) cts).

(** ** Observations on a volume resize *)

(** What a volume resize has no business with: the name of a layer, its
    height and thickness, and its flags. *)
Definition vertical (layer : Layer) : string * Qc * Qc * bool * bool :=
  (name layer, vy (origin layer), thickness layer, scaling layer, xz_center layer).

(** Whether [resize] divides by the present extent of an axis and that
    extent is 0. *)
Definition divides_by_zero (given : option Qc) (extent : Qc) : bool :=
  match given with
  | Some _ => bool_decide (extent = 0)
  | None => false
  end.

(** ** JSONConfig.load_general (lines 459-475) *)

(** [key in container] on any parsed value: a key of a dictionary, an
    element of a list that equals the string, a substring of a string. *)
Definition py_in (key : string) (container : value) : outcome bool :=
  match container with
  | VDict d => Ok (dict_mem key d)
  | VList l =>
      Ok (existsb (fun v => match v with VStr s => bool_decide (s = key) | _ => false end) l)
  | VStr s => Ok (occurs_in key s)
  | _ => Raise TypeError
  end.

Definition load_general `{!Runtime} (config : value) : M ScaffoldConfig unit :=
  present ← lift (py_in "network_architecture" config);
  when (negb present)
    (raise (Exception "Missing 'network_architecture' attribute in configuration."));;
  netw_config ← lift (getitem config "network_architecture");
  has_x ← lift (py_in "simulation_volume_x" netw_config);
  when (negb has_x)
    (raise (Exception
       "Missing 'simulation_volume_x' attribute in 'network_architecture' configuration."));;
  has_z ← lift (py_in "simulation_volume_z" netw_config);
  when (negb has_z)
    (raise (Exception
       "Missing 'simulation_volume_x' attribute in 'network_architecture' configuration."));;
  x ← lift (getitem netw_config "simulation_volume_x" ≫= float);
  modify (set_X x);;
  z ← lift (getitem netw_config "simulation_volume_z" ≫= float);
  modify (set_Z z).

(** A document with a volume of 300 by 150 and one whose network
    architecture leaves out [simulation_volume_z]. *)
Definition volume_300_150 : value :=
  VDict [("network_architecture",
          VDict [("simulation_volume_x", VInt 300); ("simulation_volume_z", VStr "150")])].
Definition volume_without_z : value :=
  VDict [("network_architecture", VDict [("simulation_volume_x", VInt 300)])].

(** ** What a layer section asks for *)

Section layer_sections.
Context `{!Runtime}.

(** The thickness a layer section gives, 0 when it gives none. *)
Definition section_thickness (config : value) : outcome Qc :=
  has_thickness ← contains config "thickness";
  if (has_thickness : bool) then getitem config "thickness" ≫= float else Ok 0.

(** The position a layer section gives, as floats; [None] when it gives
    none. *)
Definition section_position (config : value) : outcome (option (list Qc)) :=
  has_position ← contains config "position";
  if (has_position : bool) then
    position ← getitem config "position";
    origin ← iterate position ≫= map_outcome float;
    Ok (Some origin)
  else Ok None.
End layer_sections.

(** Whether a layer section asks for centering: its [xz_center] is the
    JSON value [true]. *)
Definition section_centered (config : value) : outcome bool :=
  has_xz_center ← contains config "xz_center";
  if (has_xz_center : bool) then is_True <$> getitem config "xz_center" else Ok false.


(** A layer section that asks for centering and gives a position. *)
Definition centered_section : value :=
  VDict [("thickness", VInt 10); ("position", VList [VInt 5; VInt 7; VInt 9]);
         ("xz_scale", VFloat (Q2Qc (1 # 2))); ("xz_center", VBool true)].


(** ** Configurations that differ in the document only *)

(** A configuration without its parsed document. *)
Definition without_document (s : ScaffoldConfig) : ScaffoldConfig :=
  set_parsed_config VNone s.

(** Two computations do the same to configurations that differ in the
    document only: they end alike and leave configurations that differ
    in the document only. *)
Definition alike {A} (m m' : M ScaffoldConfig A) : Prop :=
  forall s s', without_document s = without_document s' ->
    (m s).1 = (m' s').1 /\ without_document (m s).2 = without_document (m' s').2.

(** A layer section with a scalar [xz_scale]. *)
Definition scalar_xz_scale : list (string * value) :=
  [("thickness", VInt 10); ("xz_scale", VStr "2")].

(** ** Sample connection types *)

(** A document whose only connection type gives itself another name. *)
Definition renamed_connection : value :=
  VDict [("connection_types", VDict [
    ("a_to_b", VDict [
       ("class", VStr "scaffold.connectivity.AllToAll");
       ("name", VStr "custom");
       ("from_cell_types", VList [VDict [("type", VStr "a")]]);
       ("to_cell_types", VList [VDict [("type", VStr "b")]])])])].

Definition renamed_connection_section : list (string * value) :=
  match getitem renamed_connection "connection_types"
          ≫= fun cs => getitem cs "a_to_b" ≫= items with
  | Ok d => d
  | Raise _ => []
  end.

(** A layer that scales from a layer the document does not have. *)
Definition unknown_reference : value :=
  VDict [("layers", VDict [
    ("A", VDict [("thickness", VInt 2)]);
    ("B", VDict [("volume_scale", VInt 2);
                 ("scale_from_layers", VList [VStr "A"; VStr "C"])])])].

(** ** functions.exclude_index (scaffold/functions.py, lines 65-69)

    [[arr[i] for i in range(len(arr)) if i != index]] *)
Definition exclude_index {A} (arr : list A) (index : Z) : list A :=
  omap (fun i => arr !! i)
    (filter (fun i => Z.of_nat i <> index) (seq 0 (List.length arr))).

(** ** Slots that can be ordered

    Two slots can be compared when both are numbers or both are
    strings. *)
Definition comparable (a b : slot) : bool :=
  match a, b with
  | SNum _, SNum _ | SStr _, SStr _ => true
  | _, _ => false
  end.

(** Two layers of one stack, one in slot 0 and one in slot ["1"]. *)
Definition mixed_slots : value :=
  VDict [("layers", VDict [
    ("a", VDict [("thickness", VInt 10);
       ("stack", VDict [("stack_id", VInt 0); ("position_in_stack", VInt 0)])]);
    ("b", VDict [("thickness", VInt 20);
       ("stack", VDict [("stack_id", VInt 0); ("position_in_stack", VStr "1")])])])].

(** A connection type between two declared cell types, the source with
    its own compartments. *)
Definition a_to_b_connection : value :=
  VDict [("connection_types", VDict [
    ("a_to_b", VDict [
       ("class", VStr "scaffold.connectivity.AllToAll");
       ("from_cell_types",
        VList [VDict [("type", VStr "a"); ("compartments", VList [VStr "soma"])]]);
       ("to_cell_types", VList [VDict [("type", VStr "b")]])])])].

Definition a_to_b_section : value :=
  match getitem a_to_b_connection "connection_types" ≫= fun cs => getitem cs "a_to_b" with
  | Ok section => section
  | Raise _ => VNone
  end.

(** What one of the loops of [finalize_connection] appends for a
    reference: the cell type that its ["type"] names, which is a key of
    [self.cell_types], and its ["compartments"], or the default of the
    direction where it has none. *)
Definition resolved (known : list (string * CellType)) (default_compartment : string)
    (connected_cell : value) (appended : string * value) : Prop :=
  getitem connected_cell "type" = Ok (VStr appended.1) /\
  dict_mem appended.1 known = true /\
  appended.2 = match getitem connected_cell "compartments" with
               | Ok compartments => compartments
               | Raise _ => VList [VStr default_compartment]
               end.

(** * Properties *)

(** ** Reasoning about computations *)

(** Unfolds the monad operations, so that a computation applied to a
    state reduces to nested case analyses. *)
Ltac run_M :=
  cbv [mbind M_bind mret M_ret gets lift modify raise when fmap M_fmap] in *.

Lemma bind_run {S A B} (m : M S A) (f : A -> M S B) (s : S) :
  (m ≫= f) s =
  match m s with
  | (Ok a, s') => f a s'
  | (Raise e, s') => (Raise e, s')
  end.
Proof. reflexivity. Qed.

Lemma bind_ok {S A B} (m : M S A) (f : A -> M S B) (s s' : S) (b : B) :
  (m ≫= f) s = (Ok b, s') ->
  exists a s1, m s = (Ok a, s1) /\ f a s1 = (Ok b, s').
Proof.
  rewrite bind_run. destruct (m s) as [[a|e] s1]; [eauto | discriminate].
Qed.

Lemma lift_ok {S A} (r : outcome A) (s s' : S) (a : A) :
  lift r s = (Ok a, s') -> r = Ok a /\ s' = s.
Proof. unfold lift. intros [= -> ->]. done. Qed.

Lemma when_ok {S} (b : bool) (m : M S unit) (s s' : S) :
  when b m s = (Ok tt, s') -> (b = true /\ m s = (Ok tt, s')) \/ (b = false /\ s' = s).
Proof.
  destruct b; simpl; [by left | intros [= ->]; by right].
Qed.

Lemma raise_format_not_ok {S A} E fmt args (s s' : S) (a : A) :
  raise_format E fmt args s <> (Ok a, s').
Proof.
  unfold raise_format, raise, lift. rewrite bind_run.
  destruct (format fmt args); discriminate.
Qed.

Lemma outcome_bind_ok {A B} (r : outcome A) (f : A -> outcome B) (b : B) :
  r ≫= f = Ok b -> exists a, r = Ok a /\ f a = Ok b.
Proof. destruct r; [eauto | discriminate]. Qed.

(** ** Volume resize *)

Lemma resize_layer_again (sx sz x z : Qc) (l : Layer) :
  resize_layer 1 1 x z (resize_layer sx sz x z l) = resize_layer sx sz x z l.
Proof.
  unfold resize_layer.
  destruct l as [n o d [] []]; simpl; unfold set_dimensions, set_origin; simpl;
    rewrite ?Qcmult_1_r; reflexivity.
Qed.

Lemma py_div_self (x : Qc) : x <> 0 -> py_div x x = Ok 1.
Proof.
  intros Hx. unfold py_div. rewrite bool_decide_eq_false_2 by done.
  f_equal. field. done.
Qed.

Lemma resize_layers_again (sx sz x z : Qc) (ls : list (string * Layer)) :
  prod_map id (resize_layer 1 1 x z) <$> (prod_map id (resize_layer sx sz x z) <$> ls)
  = prod_map id (resize_layer sx sz x z) <$> ls.
Proof.
  rewrite <- list_fmap_compose. apply list_fmap_ext. intros i [n l] _. simpl.
  unfold prod_map. simpl. f_equal. apply resize_layer_again.
Qed.

Lemma Qcdiv_self (x : Qc) : x <> 0 -> x / x = 1.
Proof. intros. by field. Qed.

(** C6.  Resizing the volume twice in succession to the same extents
    leaves the configuration, and so the dimensions and the origin of
    every layer, exactly as resizing it once does.  For nonzero extents
    (or extents left out) the second call also ends as the first one
    did; a second resize to a zero extent raises [ZeroDivisionError]
    before it touches a layer. *)
Theorem resize_idempotent (c : ScaffoldConfig) (X' Z' : option Qc) :
  ((resize X' Z';; resize X' Z') c).2 = (resize X' Z' c).2 /\
  (X' <> Some 0 -> Z' <> Some 0 -> (resize X' Z';; resize X' Z') c = resize X' Z' c).
Proof.
  unfold resize. run_M. unfold py_div.
  destruct X' as [x|], Z' as [z|]; simpl;
    repeat (case_bool_decide; simpl; try congruence);
    subst; rewrite ?Qcdiv_self by congruence; simpl;
    (split; [|intros; try congruence]);
    unfold set_layers, set_X, set_Z; simpl; rewrite ?resize_layers_again;
    try reflexivity; try congruence.
Qed.

(** ** The two-phase section loader *)

Section load_attr.
Context {S : Type}.

(** A loop of logged callbacks appends to the log a prefix of the calls
    it has to make, and all of them if no callback raises. *)
Lemma for_each_logged {A} (cb : A -> callback) (body : A -> M S unit)
    (body' : A -> M (S * list event) unit) (calls : A -> list event)
    (l : list A) (s : S) (log : list event) :
  (forall x, body' x = logged (cb x) (body x)) ->
  (forall x, calls x = completed (cb x)) ->
  exists t, (for_each l body' (s, log)).2.2 = log ++ t /\
    t `prefix_of` (l ≫= calls) /\
    ((for_each l body' (s, log)).1 = Ok tt -> t = l ≫= calls).
Proof.
  intros Hbody Hcalls. revert s log. induction l as [|x l IH]; intros s log.
  - exists []. simpl. rewrite app_nil_r. done.
  - assert (for_each (x :: l) body' (s, log) =
            match body x s with
            | (Ok _, s1) => for_each l body' (s1, log ++ completed (cb x))
            | (Raise e, s1) => (Raise e, (s1, log ++ [Call (cb x)]))
            end) as ->.
    { cbn [for_each]. rewrite bind_run, Hbody. unfold logged.
      by destruct (body x s) as [[[]|e] s1]. }
    cbn [mbind list_bind]. rewrite Hcalls.
    destruct (body x s) as [[[]|e] s1].
    + destruct (IH s1 (log ++ completed (cb x))) as (t & Hlog & Hpre & Hok).
      exists (completed (cb x) ++ t). rewrite Hlog. split; [by rewrite <- app_assoc|].
      split.
      * apply prefix_app, Hpre.
      * intros Hrun. by rewrite (Hok Hrun).
    + exists [Call (cb x)]. simpl. split; [done|]. split; [|done].
      by exists (Return (cb x) :: (l ≫= calls)).
Qed.

Lemma logged_final_call0 (final : finalizer S) (s : S) (log : list event) :
  let calls := match final with Final0 _ => completed FinalizeAll | _ => [] end in
  exists t, (call0 (logged_final final) (s, log)).2.2 = log ++ t /\
    t `prefix_of` calls /\
    ((call0 (logged_final final) (s, log)).1 = Ok tt -> t = calls).
Proof.
  destruct final as [f|f]; simpl.
  - destruct (f s) as [[[]|e] s1]; simpl.
    + by exists (completed FinalizeAll).
    + exists [Call FinalizeAll]. split; [done|]. split; [|done].
      by exists [Return FinalizeAll].
  - exists []. by rewrite app_nil_r.
Qed.

Lemma logged_final_call2 (final : finalizer S) (children : list (string * value))
    (s : S) (log : list event) :
  let loop := for_each children
    (fun '(def_name, def_config) => call2 (logged_final final) def_name def_config) in
  let calls := match final with
               | Final2 _ => children ≫= fun '(def_name, def_config) =>
                               completed (Finalize def_name def_config)
               | _ => []
               end in
  exists t, (loop (s, log)).2.2 = log ++ t /\ t `prefix_of` calls /\
    ((loop (s, log)).1 = Ok tt -> t = calls).
Proof.
  destruct final as [f|f]; simpl.
  - exists []. rewrite app_nil_r. destruct children as [|[n c] l]; simpl; done.
  - apply (for_each_logged (fun p => Finalize p.1 p.2) (fun p => f p.1 p.2));
      by intros [n c].
Qed.

(** Whatever the callbacks do, the log of a load is a prefix of
    [full_log], and all of it if the load succeeds. *)
Lemma load_attr_log_prefix (config : value) (attr : string)
    (init : string -> value -> M S unit) (final : option (finalizer S))
    (single : bool) (node_name : option string)
    (children : list (string * value)) (s : S) :
  getitem config attr ≫= items = Ok children ->
  let run := load_attr config attr (logged_init init) (logged_final <$> final)
               single node_name (s, []) in
  run.2.2 `prefix_of` full_log children final single /\
  (run.1 = Ok tt -> run.2.2 = full_log children final single).
Proof.
  intros Hchildren. unfold load_attr.
  assert (contains config attr = Ok true) as Hpresent.
  { destruct config; try discriminate. simpl in *. f_equal.
    unfold dict_mem. destruct (dict_get attr d); [|discriminate].
    by apply bool_decide_eq_true_2. }
  rewrite Hpresent, Hchildren. cbv [mbind M_bind lift when negb mret M_ret].
  destruct (for_each_logged (fun p => Init p.1 p.2) (fun p => init p.1 p.2)
              (fun '(def_name, def_config) => logged_init init def_name def_config)
              (fun '(def_name, def_config) => completed (Init def_name def_config))
              children s []) as (t & Hlog & Hpre & Hok); try by intros [n c].
  simpl in Hlog. unfold full_log.
  destruct (for_each children _ (s, [])) as [[[]|e] [s1 log1]] eqn:Hrun;
    simpl in Hlog, Hok; subst log1.
  2:{ simpl. split; [by apply prefix_app_r|intros [=]]. }
  rewrite (Hok eq_refl).
  destruct final as [final|]; simpl.
  2:{ by rewrite app_nil_r. }
  destruct single.
  - destruct (logged_final_call0 final s1
                (children ≫= fun '(n, c) => completed (Init n c)))
      as (t' & Hlog' & Hpre' & Hok').
    rewrite Hlog'. split.
    + apply prefix_app. destruct final; [done|]. by rewrite (prefix_nil_inv _ Hpre').
    + intros Hrun'. rewrite (Hok' Hrun'). by destruct final.
  - destruct (logged_final_call2 final children s1
                (children ≫= fun '(n, c) => completed (Init n c)))
      as (t' & Hlog' & Hpre' & Hok').
    simpl in Hlog', Hok'. rewrite Hlog'. split.
    + apply prefix_app. destruct final; [|done]. by rewrite (prefix_nil_inv _ Hpre').
    + intros Hrun'. rewrite (Hok' Hrun'). by destruct final.
Qed.

(** A loop of logged callbacks that fails has stopped in a callback: the
    callbacks before it returned, and it was called and raised. *)
Lemma for_each_logged_raise {A} (cb : A -> callback) (body : A -> M S unit)
    (body' : A -> M (S * list event) unit) (l : list A) (s : S) (log : list event)
    (e : exn) :
  (forall x, body' x = logged (cb x) (body x)) ->
  (for_each l body' (s, log)).1 = Raise e ->
  exists before x after s0,
    l = before ++ x :: after /\
    (for_each l body' (s, log)).2.2
      = log ++ (before ≫= fun x => completed (cb x)) ++ [Call (cb x)] /\
    (body x s0).1 = Raise e.
Proof.
  intros Hbody. revert s log. induction l as [|x l IH]; intros s log; [done|].
  assert (for_each (x :: l) body' (s, log) =
          match body x s with
          | (Ok _, s1) => for_each l body' (s1, log ++ completed (cb x))
          | (Raise e, s1) => (Raise e, (s1, log ++ [Call (cb x)]))
          end) as ->.
  { cbn [for_each]. rewrite bind_run, Hbody. unfold logged.
    by destruct (body x s) as [[[]|e'] s1]. }
  destruct (body x s) as [[[]|e'] s1] eqn:Hx.
  - intros Hrun. destruct (IH _ _ Hrun) as (before & y & after & s0 & -> & Hlog & Hy).
    exists (x :: before), y, after, s0. split; [done|]. split; [|done].
    rewrite Hlog. cbn [mbind list_bind]. by rewrite <- !app_assoc.
  - simpl. intros [= ->]. exists [], x, l, s. split; [done|]. split; [done|].
    by rewrite Hx.
Qed.

(** C3.  Load a collection with callbacks that log their calls and
    returns.  Whatever the callbacks do, the log is a prefix of
    [full_log]: the entries are initialised once each, in document
    order, and a finalizer is called only once every [init] has
    returned.  If the load succeeds the log is all of [full_log]: every
    entry was initialised exactly once, and a collection-level
    finalizer was called exactly once.  The load fails only in a
    callback: with a finalizer of the right number of arguments, a load
    that raises has stopped at a callback that was called, after all
    the calls before it had returned, and that raised the exception of
    the load.  So with callbacks that return, the load succeeds and the
    log is [full_log]. *)
Theorem load_attr_two_phase (config : value) (attr : string)
    (init : string -> value -> M S unit) (final : option (finalizer S))
    (single : bool) (node_name : option string)
    (children : list (string * value)) (s : S) :
  getitem config attr ≫= items = Ok children ->
  let run := load_attr config attr (logged_init init) (logged_final <$> final)
               single node_name (s, []) in
  run.2.2 `prefix_of` full_log children final single /\
  (run.1 = Ok tt -> run.2.2 = full_log children final single) /\
  (forall e, run.1 = Raise e -> takes_arguments final single = true ->
     exists before c after s0,
       full_log children final single = before ++ completed c ++ after /\
       run.2.2 = before ++ [Call c] /\
       (invoke init final c s0).1 = Raise e) /\
  (takes_arguments final single = true -> returns init final ->
     run.1 = Ok tt /\ run.2.2 = full_log children final single).
Proof.
  intros Hchildren run.
  destruct (load_attr_log_prefix config attr init final single node_name children s
              Hchildren) as [Hprefix Hfull].
  fold run in Hprefix, Hfull.
  assert (forall e, run.1 = Raise e -> takes_arguments final single = true ->
     exists before c after s0,
       full_log children final single = before ++ completed c ++ after /\
       run.2.2 = before ++ [Call c] /\
       (invoke init final c s0).1 = Raise e) as Hraise.
  { subst run. clear Hprefix Hfull. unfold load_attr.
    assert (contains config attr = Ok true) as Hpresent.
    { destruct config; try discriminate. simpl in *. f_equal.
      unfold dict_mem. destruct (dict_get attr d); [|discriminate].
      by apply bool_decide_eq_true_2. }
    rewrite Hpresent, Hchildren. cbv [mbind M_bind lift when negb mret M_ret].
    pose proof (for_each_logged (fun p => Init p.1 p.2) (fun p => init p.1 p.2)
                  (fun '(def_name, def_config) => logged_init init def_name def_config)
                  (fun '(def_name, def_config) => completed (Init def_name def_config))
                  children s []) as Hinits.
    pose proof (fun e => for_each_logged_raise (fun p => Init p.1 p.2)
                  (fun p => init p.1 p.2)
                  (fun '(def_name, def_config) => logged_init init def_name def_config)
                  children s [] e) as Hstop.
    destruct (for_each children _ (s, [])) as [[[]|e'] [s1 log1]] eqn:Hrun.
    2:{ simpl. intros e [= <-] _.
        destruct (Hstop e') as (before & [n c] & after & s0 & -> & Hlog & Hraise);
          [by intros [? ?]|done|].
        simpl in Hlog. subst log1.
        exists (before ≫= fun x => completed (Init x.1 x.2)), (Init n c),
          ((after ≫= fun '(def_name, def_config) => completed (Init def_name def_config))
           ++ match final, single with
              | Some (Final0 _), true => completed FinalizeAll
              | Some (Final2 _), false =>
                  (before ++ (n, c) :: after) ≫= fun '(def_name, def_config) =>
                    completed (Finalize def_name def_config)
              | _, _ => []
              end), s0.
        split; [|split; [reflexivity|done]].
        unfold full_log. rewrite bind_app. cbn [mbind list_bind].
        rewrite <- !app_assoc. f_equal.
        apply list_bind_ext; [by intros [? ?]|done]. }
    destruct Hinits as (t & Hlog & _ & Hok); [by intros [? ?]..|].
    simpl in Hlog, Hok. subst log1. rewrite (Hok eq_refl). clear Hok Hstop.
    destruct final as [final|]; simpl; [|done].
    destruct single.
    - destruct final as [f|f]; [|done]. intros e He _. revert He.
      unfold full_log. simpl. unfold logged.
      destruct (f s1) as [[[]|e'] s2] eqn:Hf; simpl; [done|]. intros [= ->].
      eexists _, FinalizeAll, [], s1.
      split; [reflexivity|]. split; [reflexivity|]. simpl. by rewrite Hf.
    - destruct final as [f|f]; [done|]. intros e He _. revert He.
      simpl.
      set (inits := children ≫= _).
      pose proof (fun e => for_each_logged_raise (fun p => Finalize p.1 p.2)
                    (fun p => f p.1 p.2)
                    (fun '(def_name, def_config) =>
                       logged (Finalize def_name def_config) (f def_name def_config))
                    children s1 inits e) as Hstop.
      intros He. destruct (Hstop e) as (before & [n c] & after & s0 & -> & Hlog & Hraise);
        [by intros [? ?]|done|].
      rewrite Hlog.
      exists (inits ++ (before ≫= fun x => completed (Finalize x.1 x.2))), (Finalize n c),
        (after ≫= fun '(def_name, def_config) => completed (Finalize def_name def_config)),
        s0.
      split; [|split; [by rewrite app_assoc|done]].
      unfold full_log. fold inits. rewrite <- app_assoc. f_equal.
      rewrite bind_app. cbn [mbind list_bind]. f_equal.
      apply list_bind_ext; [by intros [? ?]|done]. }
  split; [done|]. split; [done|]. split; [done|].
  intros Harity Hreturns.
  destruct run.1 as [[]|e] eqn:Hrun; [by split; [|apply Hfull]|].
  destruct (Hraise e eq_refl Harity) as (_ & c & _ & s0 & _ & _ & Hc).
  by rewrite Hreturns in Hc.
Qed.
End load_attr.

(** ** Dictionaries *)

Section dict_facts.
Context {K V : Type} `{EqDecision K}.
Implicit Types (k : K) (v : V) (d : list (K * V)).

Lemma dict_get_cons k k' v d :
  dict_get k ((k', v) :: d) = if bool_decide (k' = k) then Some v else dict_get k d.
Proof. unfold dict_get. simpl. by case_bool_decide. Qed.

Lemma dict_get_set k k' v d :
  dict_get k' (dict_set k v d) = if bool_decide (k = k') then Some v else dict_get k' d.
Proof.
  induction d as [|[k0 v0] d IH]; cbn [dict_set].
  - rewrite dict_get_cons. by case_bool_decide.
  - destruct (decide (k0 = k)) as [->|Hk0].
    + rewrite bool_decide_eq_true_2 by done. rewrite !dict_get_cons.
      by case_bool_decide.
    + rewrite bool_decide_eq_false_2 by done. rewrite !dict_get_cons, IH.
      repeat case_bool_decide; congruence.
Qed.

Lemma dict_get_set_eq k v d : dict_get k (dict_set k v d) = Some v.
Proof. rewrite dict_get_set. by rewrite bool_decide_eq_true_2. Qed.

Lemma dict_get_set_ne k k' v d : k <> k' -> dict_get k' (dict_set k v d) = dict_get k' d.
Proof. intros. rewrite dict_get_set. by rewrite bool_decide_eq_false_2. Qed.

Lemma dict_get_Some_elem k v d : dict_get k d = Some v -> (k, v) ∈ d.
Proof.
  induction d as [|[k0 v0] d IH]; [done|]. rewrite dict_get_cons.
  case_bool_decide; [intros [= ->]; subst; left | right; auto].
Qed.

Lemma dict_get_Some_key k v d : dict_get k d = Some v -> k ∈ dict_keys d.
Proof.
  intros Hget. apply dict_get_Some_elem in Hget.
  unfold dict_keys. apply list_elem_of_fmap. by exists (k, v).
Qed.

Lemma dict_get_None_key k d : dict_get k d = None <-> k ∉ dict_keys d.
Proof.
  unfold dict_keys. induction d as [|[k0 v0] d IH]; simpl.
  - split; [intros _; apply not_elem_of_nil | done].
  - rewrite dict_get_cons, not_elem_of_cons. case_bool_decide; subst.
    + split; [done | intros [? _]; done].
    + rewrite IH. split; [by split; [congruence|] | by intros [_ ?]].
Qed.

Lemma dict_get_is_Some_key k d : is_Some (dict_get k d) <-> k ∈ dict_keys d.
Proof.
  destruct (dict_get k d) eqn:Hget.
  - split; [intros _; by eapply dict_get_Some_key | eauto].
  - apply dict_get_None_key in Hget. split; [by intros [? [=]] | done].
Qed.

Lemma dict_mem_key k d : dict_mem k d = true <-> k ∈ dict_keys d.
Proof. unfold dict_mem. rewrite bool_decide_eq_true. apply dict_get_is_Some_key. Qed.

(** Assigning to a key that is present keeps the keys as they are. *)
Lemma dict_keys_set_present k v d :
  k ∈ dict_keys d -> dict_keys (dict_set k v d) = dict_keys d.
Proof.
  unfold dict_keys. induction d as [|[k0 v0] d IH]; simpl.
  - by intros ?%elem_of_nil.
  - intros [->|Hin]%elem_of_cons.
    + by rewrite bool_decide_eq_true_2.
    + case_bool_decide; simpl; [done | f_equal; by apply IH].
Qed.

Lemma dict_keys_set_absent k v d :
  k ∉ dict_keys d -> dict_keys (dict_set k v d) = dict_keys d ++ [k].
Proof.
  unfold dict_keys. induction d as [|[k0 v0] d IH]; simpl; [done|].
  intros [Hne Hin]%not_elem_of_cons.
  rewrite bool_decide_eq_false_2 by congruence. simpl. f_equal. by apply IH.
Qed.

Lemma dict_keys_set_NoDup k v d :
  NoDup (dict_keys d) -> NoDup (dict_keys (dict_set k v d)).
Proof.
  intros Hd. destruct (decide (k ∈ dict_keys d)) as [Hin|Hin].
  - by rewrite dict_keys_set_present.
  - rewrite dict_keys_set_absent by done. apply NoDup_app. split; [done|].
    split; [|apply NoDup_singleton]. intros x Hx ->%list_elem_of_singleton. done.
Qed.

(** The values after an assignment are the new value and old ones. *)
Lemma dict_values_set_elem k v d x :
  x ∈ dict_values (dict_set k v d) -> x = v \/ x ∈ dict_values d.
Proof.
  unfold dict_values. induction d as [|[k0 v0] d IH]; simpl.
  - intros ->%list_elem_of_singleton. by left.
  - case_bool_decide; simpl.
    + intros [->|Hin]%elem_of_cons; [by left | right; by right].
    + intros [->|Hin]%elem_of_cons; [right; by left |].
      destruct (IH Hin); [by left | right; by right].
Qed.

Lemma dict_values_set_NoDup k v d :
  NoDup (dict_values d) -> v ∉ dict_values d -> NoDup (dict_values (dict_set k v d)).
Proof.
  unfold dict_values. induction d as [|[k0 v0] d IH]; simpl.
  - intros _ _. apply NoDup_singleton.
  - intros [Hv0 Hd]%NoDup_cons [Hne Hv]%not_elem_of_cons.
    case_bool_decide; simpl; apply NoDup_cons.
    + done.
    + split; [|by apply IH]. intros [->|Hin]%dict_values_set_elem; done.
Qed.
End dict_facts.

(** ** Loops *)

(** What every iteration leaves unchanged, the loop leaves unchanged. *)
Lemma for_each_same {S A B} (f : S -> B) (body : A -> M S unit) (l : list A) :
  (forall x s, f (body x s).2 = f s) -> forall s, f (for_each l body s).2 = f s.
Proof.
  intros Hbody. induction l as [|x l IH]; intros s; [done|].
  cbn [for_each]. rewrite bind_run. specialize (Hbody x s).
  destruct (body x s) as [[[]|e] s1]; simpl in *; [by rewrite IH | done].
Qed.

(** Two runs of a loop from related states stay related and end alike,
    if every iteration does. *)
Lemma for_each_related {S A} (Q : S -> S -> Prop) (body : A -> M S unit) (l : list A) :
  (forall x s1 s2, Q s1 s2 ->
     (body x s1).1 = (body x s2).1 /\ Q (body x s1).2 (body x s2).2) ->
  forall s1 s2, Q s1 s2 ->
    (for_each l body s1).1 = (for_each l body s2).1 /\
    Q (for_each l body s1).2 (for_each l body s2).2.
Proof.
  intros Hbody. induction l as [|x l IH]; intros s1 s2 HQ; [done|].
  cbn [for_each]. rewrite !bind_run. destruct (Hbody x s1 s2 HQ) as [Hout Hst].
  destruct (body x s1) as [[[]|e1] s1'], (body x s2) as [[[]|e2] s2'];
    simpl in *; try discriminate; [by apply IH | done].
Qed.


(** ** Related dictionaries *)

Section dict_rel.
Context {K V : Type} `{EqDecision K} (R : V -> V -> Prop).
Implicit Types (d : list (K * V)).

Lemma dict_rel_keys d1 d2 : dict_rel R d1 d2 -> dict_keys d1 = dict_keys d2.
Proof.
  unfold dict_rel, dict_keys. induction 1 as [|[k1 v1] [k2 v2] d1 d2 [Hk _] _ IH];
    simpl in *; [done | by f_equal].
Qed.

Lemma dict_rel_get d1 d2 k :
  dict_rel R d1 d2 -> option_Forall2 R (dict_get k d1) (dict_get k d2).
Proof.
  unfold dict_rel. induction 1 as [|[k1 v1] [k2 v2] d1 d2 [Hk Hv] _ IH];
    simpl in *; subst; [constructor|].
  rewrite !dict_get_cons. case_bool_decide; [by constructor | done].
Qed.

Lemma dict_rel_set d1 d2 k v1 v2 :
  dict_rel R d1 d2 -> R v1 v2 -> dict_rel R (dict_set k v1 d1) (dict_set k v2 d2).
Proof.
  unfold dict_rel. intros Hd Hv.
  induction Hd as [|[k1 w1] [k2 w2] d1 d2 [Hk Hw] Hd IH]; simpl in *; subst.
  - by repeat constructor.
  - case_bool_decide; constructor; done.
Qed.

Lemma dict_rel_set_r d1 d2 k v1 v2 :
  dict_rel R d1 d2 -> dict_get k d1 = Some v1 -> R v1 v2 ->
  dict_rel R d1 (dict_set k v2 d2).
Proof.
  unfold dict_rel. intros Hd Hget Hv.
  induction Hd as [|[k1 w1] [k2 w2] d1 d2 [Hk Hw] Hd IH]; simpl in *; subst; [done|].
  rewrite dict_get_cons in Hget. case_bool_decide; simplify_eq; constructor; auto.
Qed.

Lemma dict_rel_set_l d1 d2 k v1 v2 :
  dict_rel R d1 d2 -> dict_get k d2 = Some v2 -> R v1 v2 ->
  dict_rel R (dict_set k v1 d1) d2.
Proof.
  unfold dict_rel. intros Hd Hget Hv.
  induction Hd as [|[k1 w1] [k2 w2] d1 d2 [Hk Hw] Hd IH]; simpl in *; subst; [done|].
  rewrite dict_get_cons in Hget. case_bool_decide; simplify_eq; constructor; auto.
Qed.
End dict_rel.

(** ** The steps of finalize_layers *)

Section finalize_layers_steps.
Context `{!Runtime}.

(** The first loop only ever replaces the dimensions of the layer it
    is looking at. *)
Lemma scale_layer_effect (local_name : option string) (m : string) (s : ScaffoldConfig) :
  (scale_layer local_name m s).2 = s \/
  exists layer d, dict_get m (layers s) = Some layer /\
    (scale_layer local_name m s).2 =
      set_layers (dict_set m (set_dimensions d layer) (layers s)) s.
Proof.
  unfold scale_layer, self_layer, read_local, raise_format. run_M.
  repeat (case_match; simplify_eq/=; try (by left)); right; eauto.
Qed.

Lemma scale_layer_same {B} (f : ScaffoldConfig -> B) :
  (forall s m layer d, dict_get m (layers s) = Some layer ->
     f (set_layers (dict_set m (set_dimensions d layer) (layers s)) s) = f s) ->
  forall local_name m s, f (scale_layer local_name m s).2 = f s.
Proof.
  intros Hf local_name m s.
  destruct (scale_layer_effect local_name m s) as [->|(layer & d & Hget & ->)]; auto.
Qed.

(** The second loop only ever replaces the height of the origin of a
    layer. *)
Lemma place_layers_same {B} (f : ScaffoldConfig -> B) :
  (forall s m layer y, dict_get m (layers s) = Some layer ->
     f (set_layers (dict_set m (lift_to y layer) (layers s)) s) = f s) ->
  forall names roof s, f (place_layers roof names s).2 = f s.
Proof.
  intros Hf names. induction names as [|m names IH]; intros roof s; [done|].
  cbn [place_layers]. unfold self_layer. run_M.
  destruct (dict_get m (layers s)) as [layer|] eqn:Hlayer; [|done].
  rewrite IH. by apply Hf.
Qed.

Lemma update_stack_layers (stack_id : Z) (g : Stack -> Stack) (s : ScaffoldConfig) :
  layers (update_stack stack_id g s).2 = layers s.
Proof.
  unfold update_stack, self_stack. run_M.
  by destruct (dict_get stack_id (_layer_stacks s)).
Qed.

Lemma place_stack_same {B} (f : ScaffoldConfig -> B) :
  (forall s m layer y, dict_get m (layers s) = Some layer ->
     f (set_layers (dict_set m (lift_to y layer) (layers s)) s) = f s) ->
  (forall s stacks, f (set_layer_stacks stacks s) = f s) ->
  forall stack_id s, f (place_stack stack_id s).2 = f s.
Proof.
  intros Hf Hstacks stack_id s. unfold place_stack, self_stack, update_stack, self_stack.
  run_M.
  destruct (dict_get stack_id (_layer_stacks s)) as [stack|] eqn:Hstack; [|done].
  destruct (bool_decide (stack_position stack = None)); simpl.
  - rewrite Hstack. simpl. rewrite dict_get_set_eq. simpl.
    destruct (sorted (stack_layers stack)); [|apply Hstacks].
    rewrite (place_layers_same f Hf). apply Hstacks.
  - rewrite Hstack. destruct (stack_position stack) as [p|]; simpl; [|done].
    repeat (case_match; simpl; try done). by rewrite (place_layers_same f Hf).
Qed.

Lemma finalize_layers_run (s : ScaffoldConfig) :
  finalize_layers s =
  match for_each (dict_keys (layers s)) (scale_layer None) s with
  | (Ok _, s1) => for_each (dict_keys (_layer_stacks s1)) place_stack s1
  | (Raise e, s1) => (Raise e, s1)
  end.
Proof. reflexivity. Qed.

(** finalize_layers changes the configuration only by giving layers
    new dimensions, giving layers a new height, and giving stacks a
    position. *)
Lemma finalize_layers_same {B} (f : ScaffoldConfig -> B) :
  (forall s m layer d, dict_get m (layers s) = Some layer ->
     f (set_layers (dict_set m (set_dimensions d layer) (layers s)) s) = f s) ->
  (forall s m layer y, dict_get m (layers s) = Some layer ->
     f (set_layers (dict_set m (lift_to y layer) (layers s)) s) = f s) ->
  (forall s stacks, f (set_layer_stacks stacks s) = f s) ->
  forall s, f (finalize_layers s).2 = f s.
Proof.
  intros Hdims Hlift Hstacks s. unfold finalize_layers. rewrite bind_run.
  unfold gets at 1. rewrite bind_run.
  pose proof (for_each_same f (scale_layer None) (dict_keys (layers s))
                (scale_layer_same f Hdims None) s) as Hloop1.
  destruct (for_each (dict_keys (layers s)) (scale_layer None) s) as [[[]|e] s1];
    simpl in Hloop1; [|done].
  rewrite bind_run. unfold gets. rewrite <- Hloop1.
  apply (for_each_same f). intros. by apply place_stack_same.
Qed.

Lemma origin_xz_set_dimensions n s m layer d :
  dict_get m (layers s) = Some layer ->
  origin_xz n (set_layers (dict_set m (set_dimensions d layer) (layers s)) s)
  = origin_xz n s.
Proof.
  intros Hget. unfold origin_xz. simpl. rewrite dict_get_set.
  case_bool_decide; [subst; by rewrite Hget | done].
Qed.

Lemma origin_xz_lift_to n s m layer y :
  dict_get m (layers s) = Some layer ->
  origin_xz n (set_layers (dict_set m (lift_to y layer) (layers s)) s) = origin_xz n s.
Proof.
  intros Hget. unfold origin_xz. simpl. rewrite dict_get_set.
  case_bool_decide; [subst; by rewrite Hget | done].
Qed.

Lemma finalize_layers_origin_xz (n : string) (s : ScaffoldConfig) :
  origin_xz n (finalize_layers s).2 = origin_xz n s.
Proof.
  apply (finalize_layers_same (origin_xz n)).
  - intros. by apply origin_xz_set_dimensions.
  - intros. by apply origin_xz_lift_to.
  - done.
Qed.
End finalize_layers_steps.

(** ** Two runs of finalize_layers on stacks of the same height *)

Section finalize_layers_related.
Context `{!Runtime}.

Lemma scale_layer_related local_name m s1 s2 :
  same_heights s1 s2 ->
  (scale_layer local_name m s1).1 = (scale_layer local_name m s2).1 /\
  same_heights (scale_layer local_name m s1).2 (scale_layer local_name m s2).2.
Proof.
  intros (Hlayers & Hparsed & Hstacks). destruct s1, s2. simpl in *. subst.
  unfold scale_layer, self_layer, read_local, raise_format. run_M. simpl.
  repeat (case_match; simplify_eq/=; try done).
Qed.

Lemma place_layers_related names roof s1 s2 :
  same_heights s1 s2 ->
  (place_layers roof names s1).1 = (place_layers roof names s2).1 /\
  same_heights (place_layers roof names s1).2 (place_layers roof names s2).2.
Proof.
  revert roof s1 s2. induction names as [|m names IH]; intros roof s1 s2 HQ; [done|].
  destruct HQ as (Hlayers & Hparsed & Hstacks).
  cbn [place_layers]. unfold self_layer. run_M. rewrite <- Hlayers.
  destruct (dict_get m (layers s1)) as [layer|]; [|done].
  apply IH. unfold same_heights. simpl. by rewrite Hlayers.
Qed.

Lemma base_default : base (Some (VList [VFloat 0; VFloat 0; VFloat 0])) = base None.
Proof. reflexivity. Qed.

Lemma same_heights_set_stack s1 s2 stack_id stack1 stack2 :
  same_heights s1 s2 -> same_height stack1 stack2 ->
  same_heights (set_layer_stacks (dict_set stack_id stack1 (_layer_stacks s1)) s1)
               (set_layer_stacks (dict_set stack_id stack2 (_layer_stacks s2)) s2).
Proof.
  intros (Hlayers & Hparsed & Hstacks) Hstack. split; [done|]. split; [done|].
  simpl. by apply dict_rel_set.
Qed.

Lemma same_heights_set_stack_r s1 s2 stack_id stack1 stack2 :
  same_heights s1 s2 -> dict_get stack_id (_layer_stacks s1) = Some stack1 ->
  same_height stack1 stack2 ->
  same_heights s1 (set_layer_stacks (dict_set stack_id stack2 (_layer_stacks s2)) s2).
Proof.
  intros (Hlayers & Hparsed & Hstacks) Hget Hstack. split; [done|]. split; [done|].
  simpl. by eapply dict_rel_set_r.
Qed.

Lemma same_heights_set_stack_l s1 s2 stack_id stack1 stack2 :
  same_heights s1 s2 -> dict_get stack_id (_layer_stacks s2) = Some stack2 ->
  same_height stack1 stack2 ->
  same_heights (set_layer_stacks (dict_set stack_id stack1 (_layer_stacks s1)) s1) s2.
Proof.
  intros (Hlayers & Hparsed & Hstacks) Hget Hstack. split; [done|]. split; [done|].
  simpl. by eapply dict_rel_set_l.
Qed.

Lemma place_stack_related stack_id s1 s2 :
  same_heights s1 s2 ->
  (place_stack stack_id s1).1 = (place_stack stack_id s2).1 /\
  same_heights (place_stack stack_id s1).2 (place_stack stack_id s2).2.
Proof.
  intros HQ.
  pose proof (dict_rel_get same_height _ _ stack_id (proj2 (proj2 HQ))) as Hget.
  unfold place_stack, update_stack, self_stack. run_M.
  destruct (dict_get stack_id (_layer_stacks s1)) as [[ls1 p1]|] eqn:Hget1,
           (dict_get stack_id (_layer_stacks s2)) as [[ls p2]|] eqn:Hget2;
    inversion Hget as [? ? [Hst Hbase]|]; [|done].
  simpl in Hst, Hbase. subst.
  destruct p1 as [p1|], p2 as [p2|]; unfold base in Hbase; run_M;
    repeat (progress (simpl; rewrite ?Hget1, ?Hget2, ?dict_get_set_eq));
    rewrite <- ?Hbase; simpl;
    repeat (case_match; simplify_eq/=; try done); try apply place_layers_related;
    try (split; [done|]); simpl.
  all: first [ done
             | by eapply same_heights_set_stack_r
             | by eapply same_heights_set_stack_l
             | by apply same_heights_set_stack ].
Qed.

Lemma finalize_layers_related s1 s2 :
  same_heights s1 s2 ->
  (finalize_layers s1).1 = (finalize_layers s2).1 /\
  same_heights (finalize_layers s1).2 (finalize_layers s2).2.
Proof.
  intros HQ. rewrite !finalize_layers_run.
  assert (dict_keys (layers s1) = dict_keys (layers s2)) as Hkeys
    by (by destruct HQ as (-> & _)).
  rewrite <- Hkeys.
  destruct (for_each_related same_heights (scale_layer None) (dict_keys (layers s1))
              (scale_layer_related None) s1 s2 HQ) as [Hout HQ1].
  destruct (for_each _ _ s1) as [[[]|e1] s1'], (for_each _ _ s2) as [[[]|e2] s2'];
    simpl in *; try discriminate; [|done].
  assert (dict_keys (_layer_stacks s1') = dict_keys (_layer_stacks s2')) as <-.
  { destruct HQ1 as (_ & _ & Hstacks). by eapply dict_rel_keys. }
  by apply (for_each_related same_heights place_stack _ place_stack_related).
Qed.
End finalize_layers_related.

(** ** Stack placement only moves layers up and down *)

(** C10.  finalize_layers leaves the X and Z components of the origin
    of every layer as they were, and the X and Z components of the
    position of a stack have no effect: two configurations that differ
    only in parts of the stack positions that do not decide the height
    of a stack are finalized with the same outcome and the same
    layers. *)
Theorem finalize_layers_moves_only_y `{!Runtime} (s1 s2 : ScaffoldConfig) (n : string) :
  origin_xz n (finalize_layers s1).2 = origin_xz n s1 /\
  (same_heights s1 s2 ->
   (finalize_layers s1).1 = (finalize_layers s2).1 /\
   layers (finalize_layers s1).2 = layers (finalize_layers s2).2).
Proof.
  split; [apply finalize_layers_origin_xz|].
  intros HQ. destruct (finalize_layers_related s1 s2 HQ) as [Hout (Hlayers & _)]. done.
Qed.

Lemma finalize_layers_moves_only_y_witness :
  let s1 := Sample_stack.initialised
              (Sample_stack.based (VList [VInt 1; VInt 5; VInt 2])) in
  let s2 := Sample_stack.moved (VList [VInt 7; VFloat (Qc_of_Z 5); VInt 9]) s1 in
  same_heights s1 s2 /\
  origin_xz "top" (@finalize_layers Sample.runtime s1).2 = origin_xz "top" s1 /\
  (@finalize_layers Sample.runtime s1).1 = (@finalize_layers Sample.runtime s2).1 /\
  layers (@finalize_layers Sample.runtime s1).2
  = layers (@finalize_layers Sample.runtime s2).2.
Proof.
  intros s1 s2.
  assert (same_heights s1 s2) as HQ.
  { repeat split; vm_compute; try reflexivity. repeat constructor. }
  split; [exact HQ|].
  destruct (@finalize_layers_moves_only_y Sample.runtime s1 s2 "top") as [Hxz Hrel].
  split; [exact Hxz|]. exact (Hrel HQ).
Defined.

(** ** Sorting the slots of a stack *)

Lemma insert_sorted_perm x l l' : insert_sorted x l = Ok l' -> l' ≡ₚ x :: l.
Proof.
  revert l'. induction l as [|y l IH]; intros l'; simpl.
  - by intros [= <-].
  - destruct (item_lt x y) as [[]|]; simpl; [by intros [= <-] | | done].
    destruct (insert_sorted x l) as [l''|]; simpl; [|done].
    intros [= <-]. rewrite (IH l'' eq_refl). apply Permutation_swap.
Qed.

Lemma sorted_perm l l' : sorted l = Ok l' -> l' ≡ₚ l.
Proof.
  revert l'. induction l as [|x l IH]; intros l'; simpl.
  - by intros [= <-].
  - destruct (sorted l) as [l''|]; simpl; [|done].
    intros Hins%insert_sorted_perm. by rewrite Hins, (IH l'' eq_refl).
Qed.

Lemma slot_below_trans a b c : slot_below a b -> slot_below b c -> slot_below a c.
Proof.
  intros (x & y & -> & -> & Hxy) (y' & z & [= <-] & -> & Hyz).
  exists x, z. split; [done|]. split; [done|]. by eapply Qclt_trans.
Qed.

Lemma insert_sorted_ascending x l l' :
  numeric x.1 -> Forall (fun y => numeric y.1) l -> x.1 ∉ l.*1 ->
  StronglySorted (fun a b => slot_below a.1 b.1) l ->
  insert_sorted x l = Ok l' ->
  StronglySorted (fun a b => slot_below a.1 b.1) l'.
Proof.
  intros [p Hp]. revert l'.
  induction l as [|y l IH]; intros l' Hnum Hfresh Hsorted; simpl.
  - intros [= <-]. by repeat constructor.
  - apply Forall_cons in Hnum as [[q Hq] Hnum]. simpl in Hfresh.
    apply not_elem_of_cons in Hfresh as [Hxy Hfresh].
    apply StronglySorted_inv in Hsorted as [Hsorted Hy].
    unfold item_lt. rewrite bool_decide_eq_false_2 by done. rewrite Hp, Hq. simpl.
    case_bool_decide as Hlt.
    + intros [= <-]. apply SSorted_cons; [by apply SSorted_cons|].
      assert (slot_below x.1 y.1) as Hxy' by (exists p, q; by rewrite Hp, Hq).
      apply Forall_cons. split; [done|].
      eapply Forall_impl; [exact Hy|]. intros z Hz. simpl in Hz.
      by eapply slot_below_trans.
    + destruct (insert_sorted x l) as [l''|] eqn:Hins; simpl; [|done].
      intros [= <-]. apply SSorted_cons; [by apply IH|].
      rewrite (insert_sorted_perm _ _ _ Hins). apply Forall_cons. split; [|done].
      exists q, p. rewrite Hp, Hq. split; [done|]. split; [done|].
      apply Qcnot_le_lt. intros Hle. apply Hlt.
      destruct (Qcle_lt_or_eq _ _ Hle) as [?|Heq]; [done|].
      exfalso. apply Hxy. rewrite Hp, Hq. by rewrite Heq.
Qed.

(** On numeric slots that are all different, [sorted] returns the items
    in ascending order of their slot. *)
Lemma sorted_ascending l l' :
  Forall (fun y => numeric y.1) l -> NoDup l.*1 -> sorted l = Ok l' ->
  StronglySorted (fun a b => slot_below a.1 b.1) l'.
Proof.
  revert l'. induction l as [|x l IH]; intros l' Hnum Hnodup; simpl.
  - intros [= <-]. constructor.
  - apply Forall_cons in Hnum as [Hx Hnum]. simpl in Hnodup.
    apply NoDup_cons in Hnodup as [Hfresh Hnodup].
    destruct (sorted l) as [l''|] eqn:Hsorted; simpl; [|done].
    pose proof (sorted_perm _ _ Hsorted) as Hperm.
    apply insert_sorted_ascending; [done | by rewrite Hperm | by rewrite Hperm | by apply IH].
Qed.

(** ** Placing the layers of a stack *)

Lemma stacked_ext ls ls' roof names :
  (forall n, n ∈ names -> dict_get n ls' = dict_get n ls) ->
  stacked ls roof names -> stacked ls' roof names.
Proof.
  revert roof. induction names as [|m names IH]; intros roof Hsame; [done|].
  simpl. intros (layer & Hget & Hroof & Hrest). exists layer.
  rewrite Hsame by left. split; [done|]. split; [done|].
  apply IH; [|done]. intros n Hn. apply Hsame. by right.
Qed.

Section placing.
Context `{!Runtime}.

(** Layers placed one after the other are stacked, and nothing else
    moves. *)
Lemma place_layers_stacked names roof s s' :
  NoDup names -> place_layers roof names s = (Ok tt, s') ->
  stacked (layers s') roof names /\
  (forall n, n ∉ names -> dict_get n (layers s') = dict_get n (layers s)).
Proof.
  revert roof s. induction names as [|m names IH]; intros roof s Hnodup.
  - intros [= <-]. done.
  - apply NoDup_cons in Hnodup as [Hm Hnodup].
    cbn [place_layers]. unfold self_layer. run_M.
    destruct (dict_get m (layers s)) as [layer|] eqn:Hlayer; [|done].
    intros Hrest. destruct (IH _ _ Hnodup Hrest) as [Hstacked Hframe].
    simpl in Hframe. split.
    + simpl. exists (lift_to roof layer). rewrite (Hframe m Hm), dict_get_set_eq.
      done.
    + intros n [Hne Hn]%not_elem_of_cons. rewrite (Hframe n Hn).
      by apply dict_get_set_ne.
Qed.

(** What the stack [stack_id] looks like is all that changes in the
    stacks when it is placed, and its layers and height stay. *)
Lemma place_stack_stacks stack_id sid s :
  (stack_layers <$> dict_get sid (_layer_stacks (place_stack stack_id s).2)
   = stack_layers <$> dict_get sid (_layer_stacks s)) /\
  (base ∘ stack_position <$> dict_get sid (_layer_stacks (place_stack stack_id s).2)
   = base ∘ stack_position <$> dict_get sid (_layer_stacks s)).
Proof.
  assert (forall names roof s0,
    _layer_stacks (place_layers roof names s0).2 = _layer_stacks s0) as Hplace.
  { intros. by apply (place_layers_same _layer_stacks). }
  unfold place_stack, update_stack, self_stack. run_M.
  destruct (dict_get stack_id (_layer_stacks s)) as [[ls [p|]]|] eqn:Hstack;
    simpl; rewrite ?Hstack; simpl; rewrite ?dict_get_set_eq; simpl;
    repeat (case_match; simpl; try done); rewrite ?Hplace; simpl; try done;
    rewrite dict_get_set; case_bool_decide; subst; rewrite ?Hstack; done.
Qed.

Lemma place_stack_stacked stack_id s s' stack :
  dict_get stack_id (_layer_stacks s) = Some stack ->
  NoDup (dict_values (stack_layers stack)) ->
  place_stack stack_id s = (Ok tt, s') ->
  exists layers_in_order roof,
    sorted (stack_layers stack) = Ok layers_in_order /\
    base (stack_position stack) = Ok roof /\
    stacked (layers s') roof layers_in_order.*2 /\
    (forall n, n ∉ dict_values (stack_layers stack) ->
       dict_get n (layers s') = dict_get n (layers s)).
Proof.
  intros Hstack Hnodup. unfold place_stack, update_stack, self_stack. run_M.
  rewrite Hstack. destruct stack as [ls [p|]]; simpl in *;
    rewrite ?Hstack; simpl; rewrite ?dict_get_set_eq; simpl.
  - destruct (outcome_bind _ _ _ _) as [roof|] eqn:Hroof; [|done].
    destruct (sorted ls) as [layers_in_order|] eqn:Hsorted; [|done].
    intros Hplace. exists layers_in_order, roof.
    assert (layers_in_order.*2 ≡ₚ dict_values ls) as Hperm.
    { unfold dict_values. by rewrite (sorted_perm _ _ Hsorted). }
    destruct (place_layers_stacked _ _ _ _ (proj2 (NoDup_Permutation_proper _ _ Hperm) Hnodup) Hplace)
      as [Hstacked Hframe].
    repeat split; try done. intros n Hn. apply Hframe. by rewrite Hperm.
  - destruct (sorted ls) as [layers_in_order|] eqn:Hsorted; [|done].
    intros Hplace. exists layers_in_order, 0.
    assert (layers_in_order.*2 ≡ₚ dict_values ls) as Hperm.
    { unfold dict_values. by rewrite (sorted_perm _ _ Hsorted). }
    destruct (place_layers_stacked _ _ _ _ (proj2 (NoDup_Permutation_proper _ _ Hperm) Hnodup) Hplace)
      as [Hstacked Hframe].
    repeat split; try done. intros n Hn. rewrite Hframe by (by rewrite Hperm). done.
Qed.
End placing.

Section placing_stacks.
Context `{!Runtime}.

Lemma place_stack_slots_of stack_id s sid :
  slots_of (_layer_stacks (place_stack stack_id s).2) sid = slots_of (_layer_stacks s) sid.
Proof. apply place_stack_stacks. Qed.

Lemma place_stack_base_of stack_id s sid :
  base_of (_layer_stacks (place_stack stack_id s).2) sid = base_of (_layer_stacks s) sid.
Proof. apply place_stack_stacks. Qed.

Lemma place_stack_wf stack_id s :
  stacks_wf (_layer_stacks s) -> stacks_wf (_layer_stacks (place_stack stack_id s).2).
Proof.
  intros [Hnodup Hdisjoint]. split.
  - intros sid ls. rewrite place_stack_slots_of. apply Hnodup.
  - intros sid sid' ls ls' n. rewrite !place_stack_slots_of. apply Hdisjoint.
Qed.

(** Once all the stacks of [l] are placed, each of them is stacked from
    its base up, and the layers outside them are where they were. *)
Lemma place_stacks_stacked l s s' :
  NoDup l -> stacks_wf (_layer_stacks s) ->
  for_each l place_stack s = (Ok tt, s') ->
  (forall sid ls b, sid ∈ l ->
     slots_of (_layer_stacks s) sid = Some ls ->
     base_of (_layer_stacks s) sid = Some b ->
     exists layers_in_order roof,
       sorted ls = Ok layers_in_order /\ b = Ok roof /\
       stacked (layers s') roof layers_in_order.*2) /\
  (forall n,
     (forall sid ls, sid ∈ l -> slots_of (_layer_stacks s) sid = Some ls ->
                     n ∉ dict_values ls) ->
     dict_get n (layers s') = dict_get n (layers s)).
Proof.
  revert s. induction l as [|sid0 l IH]; intros s Hl Hwf.
  - intros [= <-]. split; [by intros ? ? ? ?%elem_of_nil | done].
  - apply NoDup_cons in Hl as [Hsid0 Hl]. cbn [for_each]. rewrite bind_run.
    destruct (place_stack sid0 s) as [[[]|e] s_mid] eqn:Hplace; [|done].
    intros Hrest.
    pose proof (place_stack_wf sid0 s Hwf) as Hwf_mid.
    pose proof (place_stack_slots_of sid0 s) as Hslots.
    pose proof (place_stack_base_of sid0 s) as Hbase.
    rewrite Hplace in Hwf_mid, Hslots, Hbase. simpl in Hwf_mid, Hslots, Hbase.
    destruct (IH s_mid Hl Hwf_mid Hrest) as [IHstacked IHframe].
    destruct (dict_get sid0 (_layer_stacks s)) as [stack0|] eqn:Hstack0.
    2:{ unfold place_stack, self_stack in Hplace. run_M. by rewrite Hstack0 in Hplace. }
    destruct Hwf as [Hnodup Hdisjoint].
    assert (slots_of (_layer_stacks s) sid0 = Some (stack_layers stack0)) as Hslots0
      by (unfold slots_of; by rewrite Hstack0).
    destruct (place_stack_stacked sid0 s s_mid stack0 Hstack0
                (proj2 (Hnodup _ _ Hslots0)) Hplace)
      as (items0 & roof0 & Hsorted0 & Hroof0 & Hstacked0 & Hframe0).
    split.
    + intros sid ls b [->|Hsid]%elem_of_cons Hls Hb.
      * rewrite Hslots0 in Hls. injection Hls as <-.
        unfold base_of in Hb. rewrite Hstack0 in Hb. injection Hb as <-.
        exists items0, roof0. split; [done|]. split; [done|].
        eapply stacked_ext; [|exact Hstacked0].
        intros n Hn. apply IHframe. intros sid ls Hsid Hls Hn'.
        rewrite Hslots in Hls.
        assert (n ∈ dict_values (stack_layers stack0)) as Hn0.
        { unfold dict_values. by rewrite <- (sorted_perm _ _ Hsorted0). }
        pose proof (Hdisjoint _ _ _ _ _ Hls Hslots0 Hn' Hn0). by subst.
      * apply (IHstacked sid); [done | by rewrite Hslots | by rewrite Hbase].
    + intros n Hn. rewrite IHframe.
      * apply Hframe0. apply (Hn sid0); [by left | done].
      * intros sid ls Hsid Hls. rewrite Hslots in Hls. apply (Hn sid); [by right | done].
Qed.
End placing_stacks.

(** ** The steps of init_layer *)

Lemma dict_set_set {K V} `{EqDecision K} (k : K) (v v' : V) (d : list (K * V)) :
  dict_set k v' (dict_set k v d) = dict_set k v' d.
Proof.
  induction d as [|[k0 v0] d IH]; simpl.
  - by rewrite bool_decide_eq_true_2.
  - case_bool_decide; simpl.
    + by rewrite bool_decide_eq_true_2.
    + rewrite bool_decide_eq_false_2 by done. by rewrite IH.
Qed.

Lemma dict_mem_get {K V} `{EqDecision K} (k : K) (d : list (K * V)) :
  dict_mem k d = bool_decide (is_Some (dict_get k d)).
Proof. reflexivity. Qed.

Section init_layer_steps.
Context `{!Runtime}.

(** A stack block that is accepted registers what it declares, and it
    gives the stack a position only if the stack had none. *)
Lemma init_layer_stack_effect name config s s' :
  contains config "stack" = Ok true ->
  init_layer_stack name config s = (Ok tt, s') ->
  exists stack_id position_in_stack position,
    stack_declaration config = Ok (Some (stack_id, position_in_stack, position)) /\
    s' = set_layer_stacks
           (register name stack_id position_in_stack position (_layer_stacks s)) s /\
    (is_Some position ->
     dict_get stack_id (_layer_stacks s) ≫= stack_position = None).
Proof.
  intros Hhas. unfold stack_declaration. rewrite Hhas.
  unfold init_layer_stack, update_stack, self_stack, register. run_M. simpl.
  destruct (getitem config "stack") as [stack_config|]; simpl; [|done].
  destruct (contains stack_config "stack_id") as [[]|]; simpl; [|done..].
  destruct (outcome_bind _ _ int _) as [stack_id|]; simpl; [|done].
  destruct (contains stack_config "position_in_stack") as [[]|]; simpl.
  2:{ by destruct (negb _). }
  2:{ by destruct (negb _). }
  destruct (outcome_bind _ _ hash_key _) as [position_in_stack|]; simpl.
  2:{ by destruct (negb _). }
  rewrite dict_mem_get.
  destruct (dict_get stack_id (_layer_stacks s)) as [stack|] eqn:Hstack;
    repeat (progress (simpl; rewrite ?Hstack, ?dict_get_set_eq, ?dict_set_set));
    destruct (contains stack_config "position") as [[]|];
    repeat (progress (simpl; rewrite ?Hstack, ?dict_get_set_eq, ?dict_set_set));
    try done.
  - destruct stack as [ls [p|]]; simpl; [done|].
    destruct (getitem stack_config "position") as [position|]; simpl; [|done].
    repeat (progress (simpl; rewrite ?Hstack, ?dict_get_set_eq, ?dict_set_set)).
    intros [= <-]. exists stack_id, position_in_stack, (Some position).
    by rewrite Hstack.
  - intros [= <-]. exists stack_id, position_in_stack, None. rewrite Hstack.
    split; [done|]. split; [done|]. by intros [? [=]].
  - destruct (getitem stack_config "position") as [position|]; simpl; [|done].
    repeat (progress (simpl; rewrite ?Hstack, ?dict_get_set_eq, ?dict_set_set)).
    intros [= <-]. exists stack_id, position_in_stack, (Some position).
    by rewrite Hstack.
  - intros [= <-]. exists stack_id, position_in_stack, None. by rewrite Hstack.
Qed.

Lemma init_layer_xz_scale_stacks name config s :
  _layer_stacks (init_layer_xz_scale name config s).2 = _layer_stacks s.
Proof.
  unfold init_layer_xz_scale, raise_format. run_M.
  repeat (case_match; simplify_eq/=; try done).
Qed.

Lemma init_layer_xz_scale_layers name config s :
  layers (init_layer_xz_scale name config s).2 = layers s.
Proof.
  unfold init_layer_xz_scale, raise_format. run_M.
  repeat (case_match; simplify_eq/=; try done).
Qed.

(** What initialising a layer does to the stacks and to the layers:
    it registers what the section declares about a stack, and it adds
    the layer under its name. *)
Lemma init_layer_effect name config s layer s' :
  init_layer name config s = (Ok layer, s') ->
  exists declaration, stack_declaration config = Ok declaration /\
    _layer_stacks s' =
      match declaration with
      | Some (stack_id, position_in_stack, position) =>
          register name stack_id position_in_stack position (_layer_stacks s)
      | None => _layer_stacks s
      end /\
    (forall stack_id position_in_stack p,
       declaration = Some (stack_id, position_in_stack, Some p) ->
       dict_get stack_id (_layer_stacks s) ≫= stack_position = None) /\
    layers s' = dict_set name layer (layers s).
Proof.
  unfold init_layer, add_layer. intros Hrun.
  apply bind_ok in Hrun as (has_thickness & ? & [_ ->]%lift_ok & Hrun).
  apply bind_ok in Hrun as (has_volume_scale & ? & [_ ->]%lift_ok & Hrun).
  apply bind_ok in Hrun as ([] & s0 & Hwhen & Hrun).
  assert (s0 = s) as ->.
  { apply when_ok in Hwhen as [[_ []%raise_format_not_ok]|[_ ->]]. done. }
  clear Hwhen.
  apply bind_ok in Hrun as (thickness & s0 & Hthickness & Hrun).
  assert (s0 = s) as ->.
  { destruct has_thickness;
      [by apply lift_ok in Hthickness as [_ ->] | by injection Hthickness]. }
  clear Hthickness.
  apply bind_ok in Hrun as (has_position & ? & [_ ->]%lift_ok & Hrun).
  apply bind_ok in Hrun as (origin & s0 & Horigin & Hrun).
  assert (s0 = s) as ->.
  { destruct (negb has_position); [by injection Horigin|].
    apply bind_ok in Horigin as (? & ? & [_ ->]%lift_ok & Horigin).
    apply bind_ok in Horigin as (l & ? & [_ ->]%lift_ok & Horigin).
    destruct l as [|? [|? [|? [|]]]];
      try (by apply raise_format_not_ok in Horigin). by injection Horigin. }
  clear Horigin.
  apply bind_ok in Hrun as (has_stack & ? & [Hhas ->]%lift_ok & Hrun).
  apply bind_ok in Hrun as ([] & s1 & Hstack & Hrun).
  apply bind_ok in Hrun as ([xz0 xz1] & s2 & Hxz & Hrun).
  pose proof (init_layer_xz_scale_stacks name config s1) as Hxz_stacks.
  pose proof (init_layer_xz_scale_layers name config s1) as Hxz_layers.
  rewrite Hxz in Hxz_stacks, Hxz_layers. simpl in Hxz_stacks, Hxz_layers.
  repeat (apply bind_ok in Hrun as (? & ? & [= <- <-] & Hrun)).
  apply bind_ok in Hrun as (has_center & ? & [_ ->]%lift_ok & Hrun).
  apply bind_ok in Hrun as (centered & s3 & Hcentered & Hrun).
  assert (s3 = s2) as ->.
  { destruct has_center; [|by injection Hcentered].
    unfold fmap, M_fmap, lift in Hcentered.
    destruct (getitem config "xz_center"); by injection Hcentered. }
  clear Hcentered. run_M. injection Hrun as <- <-. simpl.
  rewrite Hxz_stacks, Hxz_layers. unfold stack_declaration. rewrite Hhas. simpl.
  apply when_ok in Hstack as [[-> Hstack]|[-> ->]].
  - destruct (init_layer_stack_effect _ _ _ _ Hhas Hstack)
      as (stack_id & position_in_stack & position & Hdecl & -> & Hfresh).
    unfold stack_declaration in Hdecl. rewrite Hhas in Hdecl.
    exists (Some (stack_id, position_in_stack, position)). split; [done|].
    split; [done|]. split; [|done]. intros ? ? p [= -> -> ->]. by apply Hfresh.
  - exists None. split; [done|]. split; [done|]. split; [|done]. by intros.
Qed.
End init_layer_steps.

(** ** Registering a layer in a stack *)

Lemma slots_of_register name stack_id position_in_stack position stacks sid :
  slots_of (register name stack_id position_in_stack position stacks) sid =
  if bool_decide (stack_id = sid)
  then Some (dict_set position_in_stack name
               (default [] (slots_of stacks stack_id)))
  else slots_of stacks sid.
Proof.
  unfold slots_of, register. rewrite dict_get_set. case_bool_decide; [|done].
  simpl. by destruct (dict_get stack_id stacks).
Qed.

Lemma layer_in_slot_register name stack_id position_in_stack position stacks sid k :
  layer_in_slot (register name stack_id position_in_stack position stacks) sid k =
  if bool_decide (stack_id = sid /\ position_in_stack = k) then Some name
  else layer_in_slot stacks sid k.
Proof.
  unfold layer_in_slot, register. rewrite dict_get_set.
  destruct (decide (stack_id = sid)) as [->|Hsid].
  - rewrite bool_decide_eq_true_2 by done. simpl. rewrite dict_get_set.
    destruct (decide (position_in_stack = k)) as [->|Hk].
    + by rewrite !bool_decide_eq_true_2.
    + rewrite !bool_decide_eq_false_2 by (intros ?; destruct_and?; congruence).
      by destruct (dict_get sid stacks).
  - rewrite !bool_decide_eq_false_2 by (intros ?; destruct_and?; congruence). done.
Qed.

Lemma position_register name stack_id position_in_stack position stacks sid :
  dict_get sid (register name stack_id position_in_stack position stacks) ≫= stack_position =
  if bool_decide (stack_id = sid) then
    match position with
    | Some p => Some p
    | None => dict_get sid stacks ≫= stack_position
    end
  else dict_get sid stacks ≫= stack_position.
Proof.
  unfold register. rewrite dict_get_set. case_bool_decide; [subst|done]. simpl.
  destruct position; [done|]. by destruct (dict_get sid stacks).
Qed.

(** Registering a layer that is in no stack yet keeps the stacks well
    formed. *)
Lemma register_wf name stack_id position_in_stack position stacks :
  stacks_wf stacks ->
  (forall sid ls, slots_of stacks sid = Some ls -> name ∉ dict_values ls) ->
  stacks_wf (register name stack_id position_in_stack position stacks).
Proof.
  intros [Hnodup Hdisjoint] Hfresh.
  assert (NoDup (dict_keys (default [] (slots_of stacks stack_id))) /\
          NoDup (dict_values (default [] (slots_of stacks stack_id))) /\
          name ∉ dict_values (default [] (slots_of stacks stack_id))) as (Hk & Hv & Hn).
  { destruct (slots_of stacks stack_id) as [ls|] eqn:Hls; simpl.
    - destruct (Hnodup _ _ Hls). eauto.
    - repeat split; try apply NoDup_nil_2. apply not_elem_of_nil. }
  split.
  - intros sid ls. rewrite slots_of_register. case_bool_decide; [|apply Hnodup].
    intros [= <-]. split; [by apply dict_keys_set_NoDup | by apply dict_values_set_NoDup].
  - intros sid sid' ls ls' n. rewrite !slots_of_register.
    repeat case_bool_decide; subst; try done.
    + intros [= <-] Hls' [->|Hin]%dict_values_set_elem Hin'.
      * by destruct (Hfresh _ _ Hls').
      * destruct (slots_of stacks sid) as [ls|] eqn:Hls; simpl in Hin.
        -- by eapply Hdisjoint.
        -- by apply elem_of_nil in Hin.
    + intros Hls [= <-] Hin [->|Hin']%dict_values_set_elem.
      * by destruct (Hfresh _ _ Hls).
      * destruct (slots_of stacks sid') as [ls'|] eqn:Hls'; simpl in Hin'.
        -- by eapply Hdisjoint.
        -- by apply elem_of_nil in Hin'.
    + apply Hdisjoint.
Qed.

Lemma register_names name stack_id position_in_stack position stacks sid ls n :
  slots_of (register name stack_id position_in_stack position stacks) sid = Some ls ->
  n ∈ dict_values ls ->
  n = name \/ exists ls', slots_of stacks sid = Some ls' /\ n ∈ dict_values ls'.
Proof.
  rewrite slots_of_register. case_bool_decide; subst.
  - intros [= <-] [->|Hin]%dict_values_set_elem; [by left|]. right.
    destruct (slots_of stacks sid) as [ls'|]; simpl in Hin; [eauto|].
    by apply elem_of_nil in Hin.
  - intros Hls Hin. right. eauto.
Qed.

(** ** The first phase: all layers initialised *)

Section init_layers.
Context `{!Runtime}.

Lemma init_body_ok name config s s' :
  (init_layer name config;; mret tt) s = (Ok tt, s') ->
  exists layer, init_layer name config s = (Ok layer, s').
Proof.
  rewrite bind_run. destruct (init_layer name config s) as [[layer|] s1]; [|done].
  intros [= <-]. eauto.
Qed.

(** The stacks stay well formed while layers with fresh names are
    initialised, and they only hold layers that were initialised. *)
Lemma init_loop_wf children (seen : list string) s s' :
  NoDup children.*1 -> (forall n, n ∈ children.*1 -> n ∉ seen) ->
  stacks_wf (_layer_stacks s) ->
  (forall sid ls n, slots_of (_layer_stacks s) sid = Some ls ->
                    n ∈ dict_values ls -> n ∈ seen) ->
  for_each children (fun '(name, config) => init_layer name config;; mret tt) s
    = (Ok tt, s') ->
  stacks_wf (_layer_stacks s') /\
  (forall sid ls n, slots_of (_layer_stacks s') sid = Some ls ->
                    n ∈ dict_values ls -> n ∈ seen \/ n ∈ children.*1).
Proof.
  revert seen s. induction children as [|[name config] children IH];
    intros seen s Hnodup Hfresh Hwf Hseen.
  - intros [= <-]. split; [done|]. intros. left. eauto.
  - cbn [for_each]. rewrite bind_run.
    destruct ((init_layer name config;; mret tt) s) as [[[]|e] s1] eqn:Hinit; [|done].
    intros Hrest. apply init_body_ok in Hinit as [layer Hinit].
    destruct (init_layer_effect _ _ _ _ _ Hinit)
      as (declaration & _ & Hstacks & _ & _).
    simpl in Hnodup. apply NoDup_cons in Hnodup as [Hname Hnodup].
    assert (name ∉ seen) as Hname' by (apply Hfresh; by left).
    assert (stacks_wf (_layer_stacks s1) /\
            forall sid ls n, slots_of (_layer_stacks s1) sid = Some ls ->
                             n ∈ dict_values ls -> n ∈ seen ++ [name]) as [Hwf1 Hseen1].
    { rewrite Hstacks. destruct declaration as [[[stack_id k] position]|].
      - split.
        + apply register_wf; [done|]. intros sid ls Hls Hin.
          apply Hname'. by eapply Hseen.
        + intros sid ls n Hls Hin. apply elem_of_app.
          destruct (register_names _ _ _ _ _ _ _ _ Hls Hin) as [->|(ls' & Hls' & Hin')].
          * right. by left.
          * left. by eapply Hseen.
      - split; [done|]. intros sid ls n Hls Hin. apply elem_of_app. left.
        by eapply Hseen. }
    destruct (IH (seen ++ [name]) s1 Hnodup) as [Hwf' Hseen']; try done.
    { intros n Hn [Hin|Hin%list_elem_of_singleton]%elem_of_app; [|by subst].
      revert Hin. apply Hfresh. by right. }
    split; [done|]. intros sid ls n Hls Hin.
    destruct (Hseen' _ _ _ Hls Hin) as [[?|Heq%list_elem_of_singleton]%elem_of_app|?].
    + by left.
    + right. subst. by left.
    + right. by right.
Qed.

Lemma claimants_cons name config children stack_id k :
  claimants ((name, config) :: children) stack_id k =
  match stack_declaration config with
  | Ok (Some (stack_id', k', _)) =>
      if bool_decide (stack_id' = stack_id /\ k' = k)
      then name :: claimants children stack_id k else claimants children stack_id k
  | _ => claimants children stack_id k
  end.
Proof.
  unfold claimants. simpl.
  destruct (stack_declaration config) as [[[[? ?] ?]|]|]; try done.
  by case_bool_decide.
Qed.

Lemma positioners_cons name config children stack_id :
  positioners ((name, config) :: children) stack_id =
  match stack_declaration config with
  | Ok (Some (stack_id', _, Some _)) =>
      if bool_decide (stack_id' = stack_id)
      then name :: positioners children stack_id else positioners children stack_id
  | _ => positioners children stack_id
  end.
Proof.
  unfold positioners. simpl.
  destruct (stack_declaration config) as [[[[? ?] [?|]]|]|]; try done.
  by case_bool_decide.
Qed.

(** After the first phase a slot holds the last layer, in document
    order, that claimed it. *)
Lemma init_loop_slots children s s' stack_id k :
  for_each children (fun '(name, config) => init_layer name config;; mret tt) s
    = (Ok tt, s') ->
  layer_in_slot (_layer_stacks s') stack_id k =
  match last (claimants children stack_id k) with
  | Some name => Some name
  | None => layer_in_slot (_layer_stacks s) stack_id k
  end.
Proof.
  revert s. induction children as [|[name config] children IH]; intros s.
  - by intros [= <-].
  - cbn [for_each]. rewrite bind_run.
    destruct ((init_layer name config;; mret tt) s) as [[[]|e] s1] eqn:Hinit; [|done].
    intros Hrest. apply init_body_ok in Hinit as [layer Hinit].
    destruct (init_layer_effect _ _ _ _ _ Hinit)
      as (declaration & Hdecl & Hstacks & _ & _).
    rewrite (IH _ Hrest), Hstacks, claimants_cons, Hdecl.
    destruct declaration as [[[sid k'] position]|]; [|done].
    rewrite layer_in_slot_register. case_bool_decide; [|done].
    rewrite last_cons. by destruct (last (claimants children stack_id k)).
Qed.

(** A first phase that succeeds has seen at most one position for a
    stack, and none for a stack that already had one. *)
Lemma init_loop_positions children s s' stack_id :
  for_each children (fun '(name, config) => init_layer name config;; mret tt) s
    = (Ok tt, s') ->
  (List.length (positioners children stack_id) <= 1)%nat /\
  (is_Some (dict_get stack_id (_layer_stacks s) ≫= stack_position) ->
   positioners children stack_id = []).
Proof.
  revert s. induction children as [|[name config] children IH]; intros s.
  - intros _. simpl. split; [lia|done].
  - cbn [for_each]. rewrite bind_run.
    destruct ((init_layer name config;; mret tt) s) as [[[]|e] s1] eqn:Hinit; [|done].
    intros Hrest. apply init_body_ok in Hinit as [layer Hinit].
    destruct (init_layer_effect _ _ _ _ _ Hinit)
      as (declaration & Hdecl & Hstacks & Hfresh & _).
    destruct (IH _ Hrest) as [Hlen Hnone].
    rewrite Hstacks in Hnone. rewrite positioners_cons, Hdecl.
    destruct declaration as [[[sid k] [p|]]|]; try rewrite position_register in Hnone.
    + case_bool_decide; subst.
      * rewrite Hnone by eauto. simpl. split; [lia|].
        rewrite (Hfresh _ _ _ eq_refl). by intros [? [=]].
      * done.
    + split; [done|]. intros Hsome. apply Hnone. by case_bool_decide.
    + done.
Qed.
End init_layers.

(** ** Stacks after finalize_layers *)

Lemma Qcle_plus_nonneg (x t : Qc) : 0 <= t -> x <= x + t.
Proof.
  intros Ht. rewrite <- (Qcplus_0_r x) at 1. apply Qcplus_le_mono_l. done.
Qed.

Lemma stacked_heights ls roof names :
  stacked ls roof names -> no_negative_thickness ls names ->
  StronglySorted Qcle (heights ls names) /\ Forall (Qcle roof) (heights ls names).
Proof.
  revert roof. induction names as [|n names IH]; intros roof; simpl.
  - intros _ _. split; constructor.
  - intros (layer & Hget & Hroof & Hrest) [Hn Hnames]%Forall_cons.
    destruct (IH _ Hrest Hnames) as [Hsorted Hall].
    unfold heights. simpl. rewrite Hget. simpl. fold (heights ls names).
    assert (Forall (Qcle roof) (heights ls names)) as Hall'.
    { eapply Forall_impl; [exact Hall|]. intros y Hy. simpl in Hy.
      eapply Qcle_trans; [|exact Hy]. rewrite Hroof.
      apply Qcle_plus_nonneg. by apply Hn. }
    split.
    + apply SSorted_cons; [done|]. by rewrite Hroof.
    + apply Forall_cons. split; [rewrite Hroof; apply Qcle_refl | done].
Qed.

Section load_layers.
Context `{!Runtime}.

Lemma getitem_contains config attr v :
  getitem config attr = Ok v -> contains config attr = Ok true.
Proof.
  destruct config; try done. simpl. unfold dict_mem.
  destruct (dict_get attr d); [|done]. intros _. f_equal.
Qed.

(** Loading the layers is initialising all of them and then finalizing
    them. *)
Lemma load_layers_run s children :
  getitem (_parsed_config s) "layers" ≫= items = Ok children ->
  load_layers s = (init_layers children;; finalize_layers) s.
Proof.
  intros Hchildren. unfold load_layers, load_attr, init_layers.
  destruct (getitem (_parsed_config s) "layers") as [section|] eqn:Hsection; [|done].
  pose proof (getitem_contains _ _ _ Hsection) as Hcontains.
  run_M. simpl. rewrite Hcontains, Hsection. simpl in *. rewrite Hchildren. simpl.
  by destruct (for_each _ _ _) as [[[]|] ?].
Qed.

Lemma init_loop_stack_ids children s s' :
  NoDup (dict_keys (_layer_stacks s)) ->
  for_each children (fun '(name, config) => init_layer name config;; mret tt) s
    = (Ok tt, s') ->
  NoDup (dict_keys (_layer_stacks s')).
Proof.
  revert s. induction children as [|[name config] children IH]; intros s Hnodup.
  - by intros [= <-].
  - cbn [for_each]. rewrite bind_run.
    destruct ((init_layer name config;; mret tt) s) as [[[]|e] s1] eqn:Hinit; [|done].
    apply init_body_ok in Hinit as [layer Hinit].
    destruct (init_layer_effect _ _ _ _ _ Hinit) as (declaration & _ & Hstacks & _).
    apply IH. rewrite Hstacks. destruct declaration as [[[? ?] ?]|]; [|done].
    by apply dict_keys_set_NoDup.
Qed.

Lemma init_layers_run children s :
  init_layers children s =
  for_each children (fun '(name, config) => init_layer name config;; mret tt)
    (set_layer_stacks [] s).
Proof. reflexivity. Qed.

Lemma loaded_layers s s' children :
  getitem (_parsed_config s) "layers" ≫= items = Ok children ->
  load_layers s = (Ok tt, s') ->
  exists s1 s2,
    for_each children (fun '(name, config) => init_layer name config;; mret tt)
      (set_layer_stacks [] s) = (Ok tt, s1) /\
    (init_layers children s).2 = s1 /\
    for_each (dict_keys (layers s1)) (scale_layer None) s1 = (Ok tt, s2) /\
    _layer_stacks s2 = _layer_stacks s1 /\
    for_each (dict_keys (_layer_stacks s2)) place_stack s2 = (Ok tt, s').
Proof.
  intros Hchildren. rewrite (load_layers_run _ _ Hchildren).
  rewrite bind_run, init_layers_run.
  destruct (for_each children _ (set_layer_stacks [] s)) as [[[]|] s1] eqn:Hinit;
    [|done].
  rewrite finalize_layers_run.
  pose proof (for_each_same _layer_stacks (scale_layer None) (dict_keys (layers s1))
                (scale_layer_same _layer_stacks (fun _ _ _ _ _ => eq_refl) None) s1)
    as Hstacks.
  destruct (for_each (dict_keys (layers s1)) _ s1) as [[[]|] s2] eqn:Hscale; [|done].
  intros Hplace. by exists s1, s2.
Qed.

(** C1.  Load the layers of a document whose layer names are
    all different, and take any stack as the layers declared it.  Sorting
    its slots succeeds, in ascending order if the slots are numbers.
    In that order the layers are stacked: the first one starts at the
    height of the position of the stack, 0 when no position was given,
    and each next one starts exactly at the top of the one below it.  If
    no layer of the stack has a negative thickness, the heights of their
    origins are non-decreasing. *)
Theorem stacks_are_stacked (s s' : ScaffoldConfig) (children : list (string * value)) :
  getitem (_parsed_config s) "layers" ≫= items = Ok children ->
  NoDup children.*1 ->
  load_layers s = (Ok tt, s') ->
  forall stack_id stack,
    dict_get stack_id (_layer_stacks (init_layers children s).2) = Some stack ->
    exists layers_in_order roof,
      sorted (stack_layers stack) = Ok layers_in_order /\
      (Forall (fun item => numeric item.1) (stack_layers stack) ->
       StronglySorted (fun a b => slot_below a.1 b.1) layers_in_order) /\
      base (stack_position stack) = Ok roof /\
      stacked (layers s') roof layers_in_order.*2 /\
      (no_negative_thickness (layers s') layers_in_order.*2 ->
       StronglySorted Qcle (heights (layers s') layers_in_order.*2)).
Proof.
  intros Hchildren Hnodup Hload stack_id stack.
  destruct (loaded_layers _ _ _ Hchildren Hload)
    as (s1 & s2 & Hinit & -> & Hscale & Hstacks & Hplace).
  intros Hstack.
  assert (stacks_wf (_layer_stacks s1)) as Hwf.
  { eapply (init_loop_wf children [] _ _ Hnodup); [| | |exact Hinit].
    - intros n _. apply not_elem_of_nil.
    - split; [by intros ? ? [=] | by intros ? ? ? ? ? [=]].
    - by intros ? ? ? [=]. }
  assert (NoDup (dict_keys (_layer_stacks s1))) as Hids.
  { eapply init_loop_stack_ids; [|exact Hinit]. apply NoDup_nil_2. }
  rewrite <- Hstacks in Hwf, Hids, Hstack.
  destruct (place_stacks_stacked _ _ _ Hids Hwf Hplace) as [Hstacked _].
  destruct (Hstacked stack_id (stack_layers stack) (base (stack_position stack)))
    as (layers_in_order & roof & Hsorted & Hroof & Hplaced).
  { by eapply dict_get_Some_key. }
  { unfold slots_of. by rewrite Hstack. }
  { unfold base_of. by rewrite Hstack. }
  exists layers_in_order, roof. split; [done|]. split.
  { intros Hnumeric. eapply sorted_ascending; [done| |done].
    destruct Hwf as [Hslots _]. eapply (Hslots stack_id). unfold slots_of.
    by rewrite Hstack. }
  split; [done|]. split; [done|]. intros Hthick.
  by apply (stacked_heights _ roof).
Qed.

(** C7.  In a configuration whose layers were loaded, a slot
    of a stack holds the last layer, in document order, that claimed
    it, and no layer if none did: a layer is in the slot it claimed
    unless a later layer claimed the same slot of the same stack.  At
    most one layer gave a position for a stack, because a second
    position for the same stack fails the load. *)
Theorem slots_hold_last_claimant (s s' : ScaffoldConfig)
    (children : list (string * value)) :
  getitem (_parsed_config s) "layers" ≫= items = Ok children ->
  load_layers s = (Ok tt, s') ->
  (forall stack_id k,
     layer_in_slot (_layer_stacks s') stack_id k = last (claimants children stack_id k)) /\
  (forall stack_id, (List.length (positioners children stack_id) <= 1)%nat).
Proof.
  intros Hchildren Hload.
  destruct (loaded_layers _ _ _ Hchildren Hload)
    as (s1 & s2 & Hinit & _ & Hscale & Hstacks & Hplace).
  split.
  - intros stack_id k.
    assert (slots_of (_layer_stacks s') stack_id = slots_of (_layer_stacks s2) stack_id)
      as Hslots.
    { pose proof (for_each_same (fun s => slots_of (_layer_stacks s) stack_id)
                    place_stack (dict_keys (_layer_stacks s2))
                    (fun x s => place_stack_slots_of x s stack_id) s2) as Hsame.
      by rewrite Hplace in Hsame. }
    transitivity (layer_in_slot (_layer_stacks s1) stack_id k).
    + unfold slots_of in Hslots. rewrite Hstacks in Hslots. unfold layer_in_slot.
      destruct (dict_get stack_id (_layer_stacks s')),
               (dict_get stack_id (_layer_stacks s1)); simplify_eq/=; try done.
      by rewrite Hslots.
    + rewrite (init_loop_slots _ _ _ stack_id k Hinit). simpl.
      by destruct (last _).
  - intros stack_id. by destruct (init_loop_positions _ _ _ stack_id Hinit).
Qed.
End load_layers.

Lemma run_ok {S A} (r : outcome A * S) (a : A) : r.1 = Ok a -> r = (Ok a, r.2).
Proof. destruct r as [o s]. simpl. by intros ->. Qed.

Lemma stacks_are_stacked_witness :
  let s := Sample.config Sample.two_stacked in
  let children := Sample.layer_sections Sample.two_stacked in
  dict_get 1%Z (_layer_stacks (@init_layers Sample.runtime children s).2)
    = Some two_stacked_stack /\
  exists layers_in_order roof,
    sorted (stack_layers two_stacked_stack) = Ok layers_in_order /\
    (Forall (fun item => numeric item.1) (stack_layers two_stacked_stack) ->
     StronglySorted (fun a b => slot_below a.1 b.1) layers_in_order) /\
    base (stack_position two_stacked_stack) = Ok roof /\
    stacked (layers (@load_layers Sample.runtime s).2) roof layers_in_order.*2 /\
    (no_negative_thickness (layers (@load_layers Sample.runtime s).2)
       layers_in_order.*2 ->
     StronglySorted Qcle
       (heights (layers (@load_layers Sample.runtime s).2) layers_in_order.*2)).
Proof.
  intros s children. split; [vm_compute; reflexivity|].
  apply (@stacks_are_stacked Sample.runtime s (@load_layers Sample.runtime s).2 children)
    with (stack_id := 1%Z).
  - reflexivity.
  - apply (bool_decide_unpack _). vm_compute. exact I.
  - apply run_ok. vm_compute. reflexivity.
  - vm_compute. reflexivity.
Defined.

(** A stack whose lower layer has a negative thickness: the load
    succeeds, layer "a" is in slot 0 and layer "b" in slot 1 of stack 0,
    and "b" ends up below "a". *)
Lemma sunken_stack_descends :
  let s' := (@load_layers Sample.runtime (Sample.config Sample.sunken)).2 in
  (@load_layers Sample.runtime (Sample.config Sample.sunken)).1 = Ok tt /\
  (slots_of (_layer_stacks s') 0 ≫= fun ls =>
     match sorted ls with Ok l => Some l.*2 | Raise _ => None end) = Some ["a"; "b"] /\
  exists a b, dict_get "a" (layers s') = Some a /\ dict_get "b" (layers s') = Some b /\
    vy (origin b) < vy (origin a).
Proof.
  split; [vm_compute; reflexivity|]. split; [vm_compute; reflexivity|].
  eexists. eexists. split; [vm_compute; reflexivity|]. split; [vm_compute; reflexivity|].
  vm_compute. reflexivity.
Qed.

Lemma slots_hold_last_claimant_witness :
  let s := Sample.config Sample.two_stacked in
  let children := Sample.layer_sections Sample.two_stacked in
  (forall stack_id k,
     layer_in_slot (_layer_stacks (@load_layers Sample.runtime s).2) stack_id k
     = last (@claimants Sample.runtime children stack_id k)) /\
  (forall stack_id,
     (List.length (@positioners Sample.runtime children stack_id) <= 1)%nat).
Proof.
  intros s children.
  apply (@slots_hold_last_claimant Sample.runtime s (@load_layers Sample.runtime s).2
           children).
  - reflexivity.
  - apply run_ok. vm_compute. reflexivity.
Defined.

(** Two layers claim slot 0 of stack 0: the load succeeds, and the slot
    that layer "a" claimed holds layer "b". *)
Lemma overwritten_slot :
  let s := Sample.config Sample.same_slot in
  (@load_layers Sample.runtime s).1 = Ok tt /\
  (dict_get "a" (Sample.layer_sections Sample.same_slot)
     ≫= fun config => match @stack_declaration Sample.runtime config with
                      | Ok declaration => declaration
                      | Raise _ => None
                      end) = Some (0%Z, SNum (Qc_of_Z 0), None) /\
  layer_in_slot (_layer_stacks (@load_layers Sample.runtime s).2) 0 (SNum (Qc_of_Z 0))
    = Some "b".
Proof. repeat split; vm_compute; reflexivity. Qed.

(** ** A volume scale without reference layers *)

Section missing_reference.
Context `{!Runtime}.

(** The first loop reaches a layer whose section has a volume scale
    and no [scale_from_layers]: it raises [UnboundLocalError] for the
    local variable [name] that the error message is formatted with,
    and leaves the configuration as it is. *)
Lemma scale_layer_missing_reference (layer_name : string) (layer : Layer)
    (config : value) (s : ScaffoldConfig) :
  dict_get layer_name (layers s) = Some layer ->
  getitem (_parsed_config s) "layers" ≫= (fun ls => getitem ls (name layer)) = Ok config ->
  contains config "volume_scale" = Ok true ->
  contains config "scale_from_layers" = Ok false ->
  scale_layer None layer_name s = (Raise (UnboundLocalError "name"), s).
Proof.
  intros Hlayer Hconfig Hscale Hreference. unfold scale_layer, self_layer. run_M.
  rewrite Hlayer. simpl. unfold mbind in Hconfig. rewrite Hconfig. simpl.
  rewrite Hscale. simpl.
  assert (exists v, getitem config "volume_scale" = Ok v) as [v ->].
  { destruct config; try done. simpl in *. unfold dict_mem in Hscale.
    destruct (dict_get "volume_scale" d); [eauto|done]. }
  simpl. by rewrite Hreference.
Qed.
End missing_reference.

(** C8.  A layer section that declares [volume_scale] and omits
    [scale_from_layers]: the load fails during layer finalization, yet
    not with the ConfigurationException that line 857 means to raise but
    with an UnboundLocalError for [name]. *)
Theorem volume_scale_without_reference :
  (@load_layers Sample.runtime (Sample.config Sample.no_reference)).1
  = Raise (UnboundLocalError "name").
Proof. vm_compute. reflexivity. Qed.

(** ** Connection types that refer to unknown cell types *)

Section unknown_cell_types.
Context `{!Runtime}.

(** The message for an unknown source cell type is built from the node
    name that the loop is given; finalize_connection gives it the
    unformatted ["connection_types.{}"] for every connection type. *)
Lemma resolve_unknown_cell_type known node_name default_compartment i
    connected_cell rest type_name :
  getitem connected_cell "type" = Ok (VStr type_name) ->
  dict_mem type_name known = false ->
  resolve_cell_types known node_name "from_cell_types" default_compartment i
    (connected_cell :: rest)
  = Raise (Exception ("Unknown cell type '" +:+ type_name +:+ "' in '" +:+ node_name
                      +:+ ".from_cell_types'")).
Proof.
  intros Htype Hunknown. cbn [resolve_cell_types]. unfold assert_attr.
  rewrite (getitem_contains _ _ _ Htype).
  cbv beta iota delta [mbind outcome_bind]. rewrite Htype.
  cbv beta iota delta [hash_key]. rewrite Hunknown.
  vm_compute. reflexivity.
Qed.
End unknown_cell_types.

(** C5.  A connection type [a_to_ghost] whose [from_cell_types] refers
    to the undeclared cell type [ghost]: the load fails when the
    connection type is finalized, with a plain Exception whose message
    names the unknown cell type but, instead of the path
    [connection_types.a_to_ghost], the unformatted text
    [connection_types.{}]. *)
Theorem unknown_cell_type_message :
  let run := @load_connection_types Sample.runtime
               (Sample.with_cell_type "a" (Sample.config Sample.ghost_connection)) in
  run.1 = Raise (Exception
            "Unknown cell type 'ghost' in 'connection_types.{}.from_cell_types'") /\
  forall msg, run.1 = Raise (Exception msg) ->
    occurs_in "ghost" msg = true /\ occurs_in "connection_types.a_to_ghost" msg = false.
Proof.
  intros run.
  assert (run.1 = Raise (Exception
            "Unknown cell type 'ghost' in 'connection_types.{}.from_cell_types'")) as Hrun
    by (vm_compute; reflexivity).
  split; [exact Hrun|]. intros msg. rewrite Hrun. intros [= <-].
  split; vm_compute; reflexivity.
Qed.

Lemma resize_idempotent_witness :
  let c := Sample_stack.initialised Sample.two_stacked in
  let X' := Some (Qc_of_Z 100) in
  let Z' : option Qc := None in
  X' <> Some 0 /\ Z' <> Some 0 /\
  ((resize X' Z';; resize X' Z') c).2 = (resize X' Z' c).2 /\
  (resize X' Z';; resize X' Z') c = resize X' Z' c.
Proof.
  intros c X' Z'.
  assert (X' <> Some 0) as HX by (apply (bool_decide_unpack _); vm_compute; exact I).
  assert (Z' <> Some 0) as HZ by done.
  destruct (resize_idempotent c X' Z') as [Hstate Hrun].
  split; [exact HX|]. split; [exact HZ|]. split; [exact Hstate|]. exact (Hrun HX HZ).
Defined.

Lemma load_attr_two_phase_witness :
  let config := Sample.two_stacked in
  let children := Sample.layer_sections Sample.two_stacked in
  let init := fun name section => @init_layer Sample.runtime name section;; mret tt in
  let final := Some (Final0 (@finalize_layers Sample.runtime)) in
  let run := load_attr config "layers" (logged_init init) (logged_final <$> final)
               true None (Sample.config config, []) in
  getitem config "layers" ≫= items = Ok children /\
  run.1 = Ok tt /\
  exists bottom top,
    children = [("bottom", bottom); ("top", top)] /\
    run.2.2 = [Call (Init "bottom" bottom); Return (Init "bottom" bottom);
               Call (Init "top" top); Return (Init "top" top);
               Call FinalizeAll; Return FinalizeAll].
Proof.
  cbv zeta.
  destruct (load_attr_two_phase Sample.two_stacked "layers"
              (fun name section => @init_layer Sample.runtime name section;; mret tt)
              (Some (Final0 (@finalize_layers Sample.runtime))) true None
              (Sample.layer_sections Sample.two_stacked)
              (Sample.config Sample.two_stacked) eq_refl)
    as (_ & Hfull & _ & _).
  split; [reflexivity|].
  assert ((load_attr Sample.two_stacked "layers"
             (logged_init
                (fun name section => @init_layer Sample.runtime name section;; mret tt))
             (logged_final <$> Some (Final0 (@finalize_layers Sample.runtime)))
             true None (Sample.config Sample.two_stacked, [])).1 = Ok tt) as Hrun
    by (vm_compute; reflexivity).
  split; [exact Hrun|].
  eexists _, _. split; [reflexivity|].
  rewrite (Hfull Hrun). reflexivity.
Defined.

(** ** Placement sections *)

Lemma setattr_get k k' a obj :
  dict_get k (__dict__ (setattr k' a obj)) =
  if bool_decide (k' = k) then Some a else dict_get k (__dict__ obj).
Proof. apply dict_get_set. Qed.

(** What the attribute copier leaves under a key: the value of the
    section unless the key is excluded or absent from the section. *)
Lemma fill_configurable_class_get obj d excluded obj' k :
  NoDup (dict_keys d) ->
  fill_configurable_class obj (VDict d) excluded = Ok obj' ->
  dict_get k (__dict__ obj') =
  if bool_decide (k ∈ excluded) then dict_get k (__dict__ obj)
  else match dict_get k d with
       | Some v => Some (Val v)
       | None => dict_get k (__dict__ obj)
       end.
Proof.
  unfold fill_configurable_class. simpl. intros Hnodup [= <-]. revert obj Hnodup.
  induction d as [|[name prop] d IH]; intros obj Hnodup; simpl.
  - by case_bool_decide.
  - apply NoDup_cons in Hnodup as [Hname Hnodup]. simpl in Hname.
    rewrite (IH _ Hnodup).
    rewrite dict_get_cons.
    destruct (decide (name = k)) as [->|Hne].
    + rewrite (bool_decide_eq_true_2 (k = k)) by done.
      apply dict_get_None_key in Hname. rewrite Hname.
      destruct (decide (k ∈ excluded)).
      * by rewrite !bool_decide_eq_true_2 by done.
      * rewrite !bool_decide_eq_false_2 by done. rewrite setattr_get.
        by rewrite (bool_decide_eq_true_2 (k = k)) by done.
    + rewrite (bool_decide_eq_false_2 (name = k)) by done.
      destruct (bool_decide (name ∈ excluded)); [done|]. rewrite setattr_get.
      by rewrite (bool_decide_eq_false_2 (name = k)) by done.
Qed.

Lemma assert_strictly_one_ok d attrs section_name attr v :
  assert_strictly_one (VDict d) attrs section_name = Ok (attr, v) ->
  filter (fun a => dict_mem a d) attrs = [attr] /\ dict_get attr d = Some v.
Proof.
  unfold assert_strictly_one. simpl.
  destruct (filter _ attrs) as [|a [|]] eqn:Hfilter; simpl; try done;
    try (by destruct (format _ _)).
  destruct (dict_get a d) as [v'|] eqn:Hget; simpl; [|done]. by intros [= <- <-].
Qed.

Section placement_facts.
Context `{!Runtime}.

(** C9.  In a placement that was loaded, the attribute of the density
    mode of the section is the float that validation produced, except
    for [count]: the attribute copier runs afterwards and does not
    exclude [count], so the [count] attribute is the raw value of the
    section. *)
Theorem placement_count_is_raw (d : list (string * value)) (cell_type_name : string)
    (s s' : ScaffoldConfig) (placement : Instance) (density_attr : string)
    (raw : value) :
  NoDup (dict_keys d) ->
  init_placement (VDict d) cell_type_name s = (Ok placement, s') ->
  density_attr ∈ density_attrs ->
  dict_get density_attr d = Some raw ->
  if bool_decide (density_attr = "count")
  then dict_get "count" (__dict__ placement) = Some (Val raw)
  else exists x, float raw = Ok x /\
         dict_get density_attr (__dict__ placement) = Some (Val (VFloat x)).
Proof.
  intros Hnodup Hrun Hattr Hraw. unfold init_placement in Hrun.
  apply bind_ok in Hrun as (node_name & ? & [_ ->]%lift_ok & Hrun).
  apply bind_ok in Hrun as (placement_class & ? & [_ ->]%lift_ok & Hrun).
  apply bind_ok in Hrun as (placement0 & s0 & _ & Hrun).
  apply bind_ok in Hrun as (layer & ? & [_ ->]%lift_ok & Hrun).
  apply bind_ok in Hrun as (placement1 & s1 & _ & Hrun).
  apply bind_ok in Hrun as ([attr value] & ? & [Hone ->]%lift_ok & Hrun).
  apply bind_ok in Hrun as (section_name & ? & [_ ->]%lift_ok & Hrun).
  apply bind_ok in Hrun as (x & ? & [Hfloat ->]%lift_ok & Hrun).
  apply bind_ok in Hrun as (placement2 & s2 & Hrelation & Hrun).
  apply bind_ok in Hrun as (placement3 & ? & [Hfill ->]%lift_ok & Hrun).
  apply bind_ok in Hrun as ([] & s3 & _ & [= <- <-]).
  apply assert_strictly_one_ok in Hone as [Hfilter Hvalue].
  assert (density_attr = attr) as ->.
  { assert (density_attr ∈ filter (fun a => dict_mem a d) density_attrs) as Hin.
    { apply list_elem_of_filter. split; [|done]. apply Is_true_true, dict_mem_key.
      by eapply dict_get_Some_key. }
    rewrite Hfilter in Hin. by apply list_elem_of_singleton in Hin. }
  rewrite Hraw in Hvalue. injection Hvalue as <-.
  rewrite (fill_configurable_class_get _ _ _ _ _ Hnodup Hfill).
  assert (dict_get attr (__dict__ placement2) = Some (Val (VFloat x))) as Hdensity.
  { destruct (bool_decide (attr ∈ _)) eqn:Hratio in Hrelation.
    - apply bind_ok in Hrelation as (relation & ? & [_ ->]%lift_ok & [= <- <-]).
      rewrite setattr_get. apply bool_decide_eq_true in Hratio.
      rewrite bool_decide_eq_false_2.
      + rewrite setattr_get. by rewrite bool_decide_eq_true_2.
      + intros <-. apply elem_of_cons in Hratio as [[=]|Hratio].
        apply elem_of_cons in Hratio as [[=]|Hratio]. by apply elem_of_nil in Hratio.
    - injection Hrelation as <- <-. rewrite setattr_get.
      by rewrite bool_decide_eq_true_2. }
  assert (float raw = Ok x) as Hcast.
  { unfold assert_float in Hfloat. destruct (float raw); [by injection Hfloat as ->|].
    by destruct (format _ _). }
  unfold density_attrs in Hattr.
  repeat (apply elem_of_cons in Hattr as [->|Hattr]); try by apply elem_of_nil in Hattr.
  all: simpl; rewrite ?Hraw; try done.
  all: exists x; split; [done|].
  all: rewrite (fill_configurable_class_get _ _ _ _ _ Hnodup Hfill).
  all: by rewrite bool_decide_eq_true_2 by (by apply (bool_decide_unpack _)).
Qed.
End placement_facts.

Lemma bind_lift_ok {S A B} (r : outcome A) (a : A) (f : A -> M S B) (s : S) :
  r = Ok a -> (lift r ≫= f) s = f a s.
Proof. by intros ->. Qed.

Lemma bind_lift_raise {S A B} (r : outcome A) (e : exn) (f : A -> M S B) (s : S) :
  r = Raise e -> (lift r ≫= f) s = (Raise e, s).
Proof. by intros ->. Qed.

Lemma assert_attr_present d attr section_name v :
  dict_get attr d = Some v -> assert_attr (VDict d) attr section_name = Ok v.
Proof.
  intros Hget. unfold assert_attr, contains, getitem, dict_mem. rewrite Hget.
  rewrite bool_decide_eq_true_2 by eauto. reflexivity.
Qed.

Lemma is_ok_true {A} (r : outcome A) : is_ok r = true -> exists a, r = Ok a.
Proof. destruct r; [eauto | done]. Qed.

Section density_modes.
Context `{!Runtime}.

Lemma assert_float_ok v section_name x :
  float v = Ok x -> assert_float v section_name = Ok x.
Proof. unfold assert_float. by intros ->. Qed.

(** C4.  For a placement section that satisfies every other
    requirement, loading it fails with a configuration error exactly
    when the number of the keys [density], [planar_density], [count],
    [placement_count_ratio] and [density_ratio] it gives is not one,
    and succeeds when it is one. *)
Theorem placement_density_modes (d : list (string * value)) (cell_type_name : string)
    (s : ScaffoldConfig) :
  other_requirements_met d ->
  let run := init_placement (VDict d) cell_type_name s in
  (density_modes d = 1%nat -> is_ok run.1 = true) /\
  ((exists msg, run.1 = Raise (ConfigurationException msg)) <-> density_modes d <> 1%nat).
Proof.
  intros (Hnodup & (qualified & class_ref & Hclass & Himport & Hbase & Hsoma)
          & [layer Hlayer] & Hnumeric & Hrelation & Hname) run.
  assert (exists node_name, format "cell_types.{}.placement" [cell_type_name] = Ok node_name)
    as [node_name Hnode] by (eexists; vm_compute; reflexivity).
  (* the section up to the density mode *)
  assert (exists placement1,
    dict_get "name" (__dict__ placement1)
      = Some (Val (VStr (cell_type_name +:+ "_placement"))) /\
    run =
    ('(density_attr, density_value) ←
       lift (assert_strictly_one (VDict d) density_attrs node_name);
     section_name ← lift (format "{}.{}" [node_name; density_attr]);
     density_value ← lift (assert_float density_value section_name);
     let placement := setattr density_attr (Val (VFloat density_value)) placement1 in
     let ratio_attrs := ["placement_count_ratio"; "density_ratio"] in
     placement ←
       (if bool_decide (density_attr ∈ ratio_attrs) then
          relation ← lift (assert_attr (VDict d) "placement_relative_to" node_name);
          mret (setattr "placement_relative_to" (Val relation) placement)
        else mret placement);
     placement ← lift (fill_configurable_class placement (VDict d)
       ["class"; "layer"; "soma_radius"; "density"; "planar_density";
        "placement_count_ratio"; "density_ratio"]);
     add_placement_strategy placement;;
     mret placement) s) as (placement1 & Hname1 & ->).
  { subst run. unfold init_placement.
    rewrite (bind_lift_ok _ _ _ _ Hnode).
    rewrite (bind_lift_ok _ _ _ _ (assert_attr_present _ _ _ _ Hclass)).
    unfold load_configurable_class. rewrite Himport.
    rewrite bool_decide_eq_true_2 by done.
    rewrite (bind_lift_ok _ _ _ _ eq_refl).
    rewrite (bind_lift_ok _ _ _ _ (assert_attr_present _ _ _ _ Hlayer)).
    cbn [instance_class setattr].
    destruct (class_is_entities class_ref) eqn:Hentities; cbn [negb].
    - eexists. split; [|rewrite bind_run; reflexivity].
      rewrite !setattr_get. simpl. done.
    - destruct (Hsoma eq_refl) as (v & Hv & [x Hx]%is_ok_true).
      unfold assert_attr_float. rewrite (assert_attr_present _ _ _ _ Hv).
      cbn [mbind outcome_bind]. rewrite (assert_float_ok _ _ _ Hx).
      eexists. split; [|rewrite !bind_run; reflexivity].
      rewrite !setattr_get. simpl. done. }
  unfold density_modes.
  destruct (filter (fun a => dict_mem a d) density_attrs) as [|attr [|attr' rest]]
    eqn:Hfilter.
  - (* no density mode *)
    split; [done|]. split; [done|]. intros _.
    unfold assert_strictly_one, items. cbn [mbind outcome_bind]. rewrite Hfilter.
    assert (exists msg, format "Strictly one of the following attributes is expected in {}."
                          [node_name] = Ok msg) as [msg ->]
      by (eexists; vm_compute; reflexivity).
    exists msg. reflexivity.
  - (* exactly one *)
    assert (attr ∈ density_attrs /\ dict_mem attr d = true) as [Hattr Hmem].
    { assert (attr ∈ filter (fun a => dict_mem a d) density_attrs) as Hin
        by (rewrite Hfilter; by left).
      apply list_elem_of_filter in Hin as [Hmem Hin]. split; [done|].
      by apply Is_true_true. }
    destruct (dict_get attr d) as [v|] eqn:Hv.
    2:{ apply dict_mem_key, dict_get_is_Some_key in Hmem. rewrite Hv in Hmem.
        by destruct Hmem. }
    destruct (is_ok_true _ (Hnumeric _ _ Hattr Hv)) as [x Hx].
    assert (assert_strictly_one (VDict d) density_attrs node_name = Ok (attr, v)) as Hone.
    { unfold assert_strictly_one, items. cbn [mbind outcome_bind]. rewrite Hfilter.
      simpl. by rewrite Hv. }
    assert (exists section_name, format "{}.{}" [node_name; attr] = Ok section_name)
      as [section_name Hsection] by (eexists; vm_compute; reflexivity).
    assert (attr <> "name") as Hattr_name.
    { intros ->. exact (bool_decide_unpack ("name" ∉ density_attrs) I Hattr). }
    assert (exists placement2,
      dict_get "name" (__dict__ placement2)
        = Some (Val (VStr (cell_type_name +:+ "_placement"))) /\
      forall s0 : ScaffoldConfig,
      ((if bool_decide (attr ∈ ["placement_count_ratio"; "density_ratio"]) then
          relation ← lift (assert_attr (VDict d) "placement_relative_to" node_name);
          mret (setattr "placement_relative_to" (Val relation)
                  (setattr attr (Val (VFloat x)) placement1))
        else mret (setattr attr (Val (VFloat x)) placement1))
       : M ScaffoldConfig Instance) s0
      = (Ok placement2, s0)) as (placement2 & Hname2 & Hratio).
    { case_bool_decide as Hratio.
      - destruct Hrelation as [relation Hrel].
        { apply elem_of_cons in Hratio as [->|Hratio]; [by rewrite Hmem|].
          apply elem_of_cons in Hratio as [->|Hratio]; [|by apply elem_of_nil in Hratio].
          rewrite Hmem. apply orb_true_r. }
        eexists. split; [|intros s0;
          rewrite (bind_lift_ok _ _ _ _ (assert_attr_present _ _ _ _ Hrel));
          reflexivity].
        rewrite !setattr_get, Hname1.
        rewrite (bool_decide_eq_false_2 (attr = "name")) by done. done.
      - eexists. split; [|reflexivity]. rewrite setattr_get, Hname1.
        by rewrite (bool_decide_eq_false_2 (attr = "name")) by done. }
    pose (placement3 :=
      foldl (fun obj '(name, prop) =>
               if bool_decide (name ∈ ["class"; "layer"; "soma_radius"; "density";
                                       "planar_density"; "placement_count_ratio";
                                       "density_ratio"])
               then obj else setattr name (Val prop) obj) placement2 d).
    assert (fill_configurable_class placement2 (VDict d)
              ["class"; "layer"; "soma_radius"; "density"; "planar_density";
               "placement_count_ratio"; "density_ratio"] = Ok placement3) as Hfill
      by reflexivity.
    assert (exists key, instance_name placement3 = Ok key) as [key Hkey].
    { unfold instance_name.
      rewrite (fill_configurable_class_get _ _ _ _ "name" Hnodup Hfill).
      rewrite bool_decide_eq_false_2
        by exact (bool_decide_unpack
                    ("name" ∉ ["class"; "layer"; "soma_radius"; "density";
                               "planar_density"; "placement_count_ratio";
                               "density_ratio"]) I).
      destruct (dict_get "name" d) as [v'|] eqn:Hv'.
      - destruct (is_ok_true _ (Hname _ eq_refl)) as [key ->]. eauto.
      - rewrite Hname2. simpl. eauto. }
    match goal with |- context [?m s] =>
      assert (exists s', m s = (Ok placement3, s')) as [s' ->]
    end.
    { eexists. rewrite (bind_lift_ok _ _ _ _ Hone). cbv beta iota.
      rewrite (bind_lift_ok _ _ _ _ Hsection).
      rewrite (bind_lift_ok _ _ _ _ (assert_float_ok _ _ _ Hx)).
      cbv zeta. rewrite bind_run, Hratio.
      rewrite (bind_lift_ok _ _ _ _ Hfill).
      unfold add_placement_strategy. rewrite bind_run.
      rewrite (bind_lift_ok _ _ _ _ Hkey). reflexivity. }
    simpl. split; [done|]. split; [by intros [? [=]] | done].
  - (* two or more *)
    split; [done|]. split; [simpl; lia|]. intros _.
    unfold assert_strictly_one, items. cbn [mbind outcome_bind]. rewrite Hfilter.
    assert (exists msg, format "Strictly one of the following attributes is expected in {}."
                          [node_name] = Ok msg) as [msg ->]
      by (eexists; vm_compute; reflexivity).
    exists msg. reflexivity.
Qed.
End density_modes.

(** The sample section gives [count] only and names a placement class
    that exists, so it loads. *)
Lemma placement_density_modes_witness :
  let d := Sample_placement.section_of Sample.count_as_string in
  @other_requirements_met Sample.runtime d /\
  density_modes d = 1%nat /\
  is_ok (@init_placement Sample.runtime (VDict d) "granule" (Sample.config VNone)).1 = true.
Proof.
  intros d.
  assert (@other_requirements_met Sample.runtime d) as Hmet.
  { split; [exact (bool_decide_unpack (NoDup (dict_keys d)) I)|].
    split.
    { exists "scaffold.placement.ParticlePlacement".
      eexists. split; [reflexivity|]. split; [reflexivity|].
      split; [by apply list_elem_of_singleton|].
      intros _. eexists. split; reflexivity. }
    split; [by eexists|].
    split.
    { intros a v Hin. vm_compute in Hin.
      repeat (apply elem_of_cons in Hin as [->|Hin]; [by intros [= <-]|]).
      by apply elem_of_nil in Hin. }
    split; [done|]. done. }
  split; [exact Hmet|]. split; [reflexivity|].
  by apply (@placement_density_modes Sample.runtime d "granule" (Sample.config VNone) Hmet).
Defined.

(** A count given as the string [10] stays that string in the placement. *)
Lemma placement_count_is_raw_witness :
  let d := Sample_placement.section_of Sample.count_as_string in
  NoDup (dict_keys d) /\
  dict_get "count" (__dict__ (Sample_placement.loaded (VDict d))) = Some (Val (VStr "10")).
Proof.
  intros d.
  assert (NoDup (dict_keys d)) as Hnodup
    by exact (bool_decide_unpack (NoDup (dict_keys d)) I).
  split; [exact Hnodup|].
  refine (@placement_count_is_raw Sample.runtime d "granule" (Sample.config VNone)
            (@init_placement Sample.runtime (VDict d) "granule" (Sample.config VNone)).2
            (Sample_placement.loaded (VDict d)) "count" (VStr "10")
            Hnodup _ _ eq_refl).
  - apply run_ok. vm_compute. reflexivity.
  - exact (bool_decide_unpack ("count" ∈ density_attrs) I).
Defined.

(** ** Volume-scale constraints *)




Lemma sum_singleton (V : Qc) : sum [V] = V.
Proof. unfold sum. simpl. ring. Qed.
Lemma outcome_bind_run {A B} (r : outcome A) (a : A) (f : A -> outcome B) :
  r = Ok a -> r ≫= f = f a.
Proof. by intros ->. Qed.

Lemma map_outcome_ok {A B} (f : A -> outcome B) (l : list A) (ys : list B) :
  map_outcome f l = Ok ys -> Forall2 (fun x y => f x = Ok y) l ys.
Proof.
  revert ys. induction l as [|x l IH]; intros ys; simpl.
  - intros [= <-]. constructor.
  - intros (y & Hy & (ys' & Hys & [= <-])%outcome_bind_ok)%outcome_bind_ok.
    constructor; auto.
Qed.

Lemma map_outcome_number_three (l : list value) (rx ry rz : Qc) :
  map_outcome number l = Ok [rx; ry; rz] ->
  exists v0 v1 v2, l = [v0; v1; v2] /\ number v1 = Ok ry.
Proof.
  intros Hl%map_outcome_ok.
  apply Forall2_cons_inv_r in Hl as (v0 & l0 & _ & Hl & ->).
  apply Forall2_cons_inv_r in Hl as (v1 & l1 & Hv1 & Hl & ->).
  apply Forall2_cons_inv_r in Hl as (v2 & l2 & _ & Hl & ->).
  apply Forall2_nil_inv_r in Hl as ->. eauto 6.
Qed.


Section scale_layer_facts.
Context `{!Runtime}.


End scale_layer_facts.

Section first_loop_frames.
Context `{!Runtime}.





End first_loop_frames.
Section volume_scale_theorem.
Context `{!Runtime}.

End volume_scale_theorem.



(** ** The registries of layers and cell types *)

Lemma dict_set_absent {K V} `{EqDecision K} (k : K) (v : V) (d : list (K * V)) :
  k ∉ dict_keys d -> dict_set k v d = d ++ [(k, v)].
Proof.
  unfold dict_keys. induction d as [|[k0 v0] d IH]; simpl; [done|].
  intros [Hne Hnotin]%not_elem_of_cons.
  rewrite bool_decide_eq_false_2 by congruence. by rewrite IH.
Qed.

Lemma dict_set_present {K V} `{EqDecision K} (k : K) (v : V) (d : list (K * V)) :
  k ∈ dict_keys d -> List.length (dict_set k v d) = List.length d.
Proof.
  intros Hin. rewrite <- (length_fmap fst (dict_set k v d)), <- (length_fmap fst d).
  fold (dict_keys (dict_set k v d)). fold (dict_keys d).
  by rewrite dict_keys_set_present.
Qed.

Lemma dict_get_elem_NoDup {K V} `{EqDecision K} (k : K) (v : V) (d : list (K * V)) :
  NoDup (dict_keys d) -> (k, v) ∈ d -> dict_get k d = Some v.
Proof.
  unfold dict_keys. induction d as [|[k0 v0] d IH]; simpl; [by intros _ ?%elem_of_nil|].
  intros [Hk0 Hnodup]%NoDup_cons [[= -> ->]|Hin]%elem_of_cons; rewrite dict_get_cons.
  - by rewrite bool_decide_eq_true_2.
  - rewrite bool_decide_eq_false_2; [by apply IH|].
    intros ->. apply Hk0. apply list_elem_of_fmap. by exists (k, v).
Qed.

Lemma list_index_lookup {A} (l : list A) (i : nat) (a : A) :
  l !! i = Some a -> list_index l (Z.of_nat i) = Ok a.
Proof.
  intros Hi. unfold list_index.
  rewrite (bool_decide_eq_false_2 (Z.of_nat i < 0)%Z) by lia.
  rewrite (bool_decide_eq_false_2 (Z.of_nat i < 0)%Z) by lia.
  by rewrite Nat2Z.id, Hi.
Qed.

Lemma list_index_from_end {A} (l : list A) (i : nat) (a : A) :
  l !! i = Some a -> list_index l (Z.of_nat i - Z.of_nat (List.length l)) = Ok a.
Proof.
  intros Hi. pose proof (lookup_lt_Some _ _ _ Hi) as Hlt. unfold list_index.
  rewrite (bool_decide_eq_true_2 (Z.of_nat i - Z.of_nat (List.length l) < 0)%Z) by lia.
  replace (Z.of_nat i - Z.of_nat (List.length l) + Z.of_nat (List.length l))%Z
    with (Z.of_nat i) by lia.
  rewrite (bool_decide_eq_false_2 (Z.of_nat i < 0)%Z) by lia.
  by rewrite Nat2Z.id, Hi.
Qed.

Lemma list_index_out_of_range {A} (l : list A) (i : Z) :
  (Z.of_nat (List.length l) <= i \/ i < - Z.of_nat (List.length l))%Z ->
  list_index l i = Raise IndexError.
Proof.
  intros Hi. unfold list_index. case_bool_decide; case_bool_decide; try done; try lia.
  all: rewrite lookup_ge_None_2; [done | lia].
Qed.

Lemma add_layer_run (layer : Layer) (c : ScaffoldConfig) :
  add_layer layer c =
  (Ok tt, set_layer_map (layer_map c ++ [name layer])
            (set_layers (dict_set (name layer) layer (layers c)) c)).
Proof. reflexivity. Qed.

Lemma with_layers_cons (layer : Layer) (ls : list Layer) (c : ScaffoldConfig) :
  with_layers (layer :: ls) c = with_layers ls (add_layer layer c).2.
Proof. unfold with_layers. cbn [for_each]. rewrite bind_run, add_layer_run. done. Qed.

(** Adding layers whose names are new appends them, to the dictionary
    and to the map of ids. *)
Lemma with_layers_fresh (ls : list Layer) (c : ScaffoldConfig) :
  NoDup (name <$> ls) ->
  (forall layer, layer ∈ ls -> name layer ∉ dict_keys (layers c)) ->
  layers (with_layers ls c) = layers c ++ ((fun layer => (name layer, layer)) <$> ls) /\
  layer_map (with_layers ls c) = layer_map c ++ (name <$> ls).
Proof.
  revert c. induction ls as [|layer ls IH]; intros c Hnodup Hfresh.
  - unfold with_layers. simpl. by rewrite !app_nil_r.
  - rewrite with_layers_cons, add_layer_run. cbn [snd].
    rewrite fmap_cons in Hnodup. apply NoDup_cons in Hnodup as [Hlayer Hnodup].
    destruct (IH (set_layer_map (layer_map c ++ [name layer])
                    (set_layers (dict_set (name layer) layer (layers c)) c)) Hnodup)
      as [-> ->].
    + intros layer' Hin. simpl. rewrite dict_set_absent by (apply Hfresh; left).
      unfold dict_keys. rewrite fmap_app. simpl. rewrite elem_of_app.
      intros [Hold|Hnew%list_elem_of_singleton].
      * by apply (Hfresh layer'); [right|].
      * apply Hlayer. rewrite <- Hnew. by apply list_elem_of_fmap_2.
    + simpl. rewrite dict_set_absent by (apply Hfresh; left).
      by rewrite <- !app_assoc.
Qed.

(** X1.  Layers with different names that are added to a configuration
    without layers get the ids 0, 1, ... in the order they were added:
    [get_layer_id] of a name is its position, [get_layer] finds the same
    layer under that id (whatever name is passed along) and under its
    name, and [get_layer_list] is the list of the layers as added. *)
Theorem layer_ids_follow_insertion (ls : list Layer) (c : ScaffoldConfig) :
  layers c = [] -> layer_map c = [] -> NoDup (name <$> ls) ->
  get_layer_list (with_layers ls c) = ls /\
  forall (i : nat) (layer : Layer),
    ls !! i = Some layer ->
    get_layer_id (name layer) (with_layers ls c) = Ok i /\
    (forall n, get_layer n (Z.of_nat i) (with_layers ls c) = Returned layer) /\
    (name layer <> "" -> get_layer (name layer) (-1) (with_layers ls c) = Returned layer).
Proof.
  intros Hlayers Hmap Hnodup.
  destruct (with_layers_fresh ls c Hnodup) as [Hls Hnames].
  { intros layer _. rewrite Hlayers. apply not_elem_of_nil. }
  rewrite Hlayers in Hls. rewrite Hmap in Hnames. simpl in Hls, Hnames.
  assert (dict_values (layers (with_layers ls c)) = ls) as Hvalues.
  { rewrite Hls. unfold dict_values. rewrite <- list_fmap_compose.
    rewrite <- (list_fmap_id ls) at 2. done. }
  split; [done|]. intros i layer Hi. split; [|split].
  - unfold get_layer_id. rewrite Hnames.
    destruct (list_find (fun n => n = name layer) (name <$> ls)) as [[j n]|] eqn:Hfind.
    + apply list_find_Some in Hfind as (Hj & -> & _).
      f_equal. eapply NoDup_lookup; [done..|]. by rewrite list_lookup_fmap, Hi.
    + apply list_find_None in Hfind. rewrite Forall_forall in Hfind.
      destruct (Hfind (name layer)); [|done]. apply list_elem_of_fmap_2.
      by eapply list_elem_of_lookup_2.
  - intros n. unfold get_layer. rewrite bool_decide_eq_true_2 by lia.
    rewrite Hnames, length_fmap. pose proof (lookup_lt_Some _ _ _ Hi).
    rewrite bool_decide_eq_false_2 by lia.
    by rewrite Hvalues, (list_index_lookup _ _ _ Hi).
  - intros Hname. unfold get_layer. rewrite bool_decide_eq_false_2 by lia.
    rewrite bool_decide_eq_true_2 by done.
    assert (dict_get (name layer) (layers (with_layers ls c)) = Some layer) as Hget.
    { apply dict_get_elem_NoDup.
      - rewrite Hls. unfold dict_keys. by rewrite <- list_fmap_compose.
      - rewrite Hls. apply list_elem_of_fmap. exists layer. split; [done|].
        by eapply list_elem_of_lookup_2. }
    unfold dict_mem. rewrite Hget. by rewrite bool_decide_eq_true_2 by eauto.
Qed.

Lemma layer_ids_follow_insertion_witness :
  let ls := [new_Layer "a" (Vec3 0 0 0) (Vec3 1 1 1); new_Layer "b" (Vec3 0 1 0) (Vec3 1 1 1)] in
  let c := new_config VNone in
  NoDup (name <$> ls) /\
  get_layer_list (with_layers ls c) = ls /\
  get_layer "a" 1 (with_layers ls c) = Returned (new_Layer "b" (Vec3 0 1 0) (Vec3 1 1 1)).
Proof.
  intros ls c.
  assert (NoDup (name <$> ls)) as Hnodup
    by exact (bool_decide_unpack (NoDup (name <$> ls)) I).
  destruct (layer_ids_follow_insertion ls c eq_refl eq_refl Hnodup) as [Hlist Hids].
  split; [exact Hnodup|]. split; [exact Hlist|].
  exact (proj1 (proj2 (Hids 1%nat _ eq_refl)) "a").
Defined.
Lemma with_layers_app (ls ls' : list Layer) (c : ScaffoldConfig) :
  with_layers (ls ++ ls') c = with_layers ls' (with_layers ls c).
Proof.
  revert c. induction ls as [|layer ls IH]; intros c; [done|].
  rewrite <- app_comm_cons, !with_layers_cons. apply IH.
Qed.

(** X2.  Adding a layer under a name that is taken replaces the layer
    in the dictionary and still appends the name to the map of ids.
    The dictionary then has fewer layers than the map has ids: the id
    one past the last layer passes the bound check of [get_layer], which
    raises [IndexError] for it instead of its own exception.  The name
    keeps its first id and leads to the new layer. *)
Theorem readded_layer_shifts_ids (ls : list Layer) (layer old : Layer) (i : nat)
    (c : ScaffoldConfig) :
  layers c = [] -> layer_map c = [] -> NoDup (name <$> ls) ->
  ls !! i = Some old -> name old = name layer ->
  let c' := with_layers (ls ++ [layer]) c in
  List.length (get_layer_list c') = List.length ls /\
  List.length (layer_map c') = S (List.length ls) /\
  (forall n, get_layer n (Z.of_nat (List.length ls)) c' = Raised IndexError) /\
  get_layer_id (name layer) c' = Ok i /\
  (name layer <> "" -> get_layer (name layer) (-1) c' = Returned layer).
Proof.
  intros Hlayers Hmap Hnodup Hi Hname c'.
  destruct (with_layers_fresh ls c Hnodup) as [Hls Hnames].
  { intros layer' _. rewrite Hlayers. apply not_elem_of_nil. }
  rewrite Hlayers in Hls. rewrite Hmap in Hnames. simpl in Hls, Hnames.
  assert (name layer ∈ dict_keys (layers (with_layers ls c))) as Hin.
  { rewrite Hls. unfold dict_keys. rewrite <- list_fmap_compose, <- Hname.
    apply list_elem_of_fmap_2. by eapply list_elem_of_lookup_2. }
  assert (layers c' = dict_set (name layer) layer (layers (with_layers ls c)) /\
          layer_map c' = layer_map (with_layers ls c) ++ [name layer]) as [Hls' Hnames'].
  { unfold c'. by rewrite with_layers_app, with_layers_cons, add_layer_run. }
  assert (List.length (get_layer_list c') = List.length ls) as Hlength.
  { unfold get_layer_list, dict_values. rewrite length_fmap, Hls'.
    rewrite dict_set_present by done. by rewrite Hls, length_fmap. }
  split; [done|]. split; [by rewrite Hnames', Hnames, length_app, length_fmap, Nat.add_1_r|].
  split; [|split].
  - intros n. unfold get_layer. rewrite bool_decide_eq_true_2 by lia.
    rewrite Hnames', Hnames, length_app, length_fmap. simpl.
    rewrite bool_decide_eq_false_2 by lia.
    rewrite list_index_out_of_range; [done|]. left. fold (get_layer_list c'). lia.
  - unfold get_layer_id. rewrite Hnames', Hnames.
    destruct (list_find _ _) as [[j n]|] eqn:Hfind.
    + apply list_find_Some in Hfind as (Hj & -> & Hfirst). f_equal.
      assert ((name <$> ls) !! i = Some (name layer)) as Hi'
        by (by rewrite list_lookup_fmap, Hi, <- Hname).
      destruct (decide (j < i)%nat) as [Hlt|Hge].
      * rewrite lookup_app_l in Hj
          by (apply lookup_lt_Some in Hi'; lia).
        eapply NoDup_lookup; done.
      * destruct (decide (j = i)) as [->|Hne]; [done|].
        destruct (Hfirst i (name layer)); [|lia|done].
        by apply lookup_app_l_Some.
    + apply list_find_None in Hfind. rewrite Forall_forall in Hfind.
      destruct (Hfind (name layer)); [|done]. apply elem_of_app. right. by left.
  - intros Hne. unfold get_layer. rewrite bool_decide_eq_false_2 by lia.
    rewrite bool_decide_eq_true_2 by done. unfold dict_mem.
    rewrite Hls', dict_get_set_eq. by rewrite bool_decide_eq_true_2 by eauto.
Qed.

Lemma readded_layer_shifts_ids_witness :
  let a := new_Layer "a" (Vec3 0 0 0) (Vec3 1 1 1) in
  let a' := new_Layer "a" (Vec3 0 1 0) (Vec3 1 1 1) in
  let c' := with_layers ([a] ++ [a']) (new_config VNone) in
  NoDup (name <$> [a]) /\
  get_layer "" 1 c' = Raised IndexError /\ get_layer_id "a" c' = Ok 0%nat.
Proof.
  intros a a' c'.
  assert (NoDup (name <$> [a])) as Hnodup
    by exact (bool_decide_unpack (NoDup (name <$> [a])) I).
  destruct (readded_layer_shifts_ids [a] a' a 0 (new_config VNone)
              eq_refl eq_refl Hnodup eq_refl eq_refl) as (_ & _ & Hid & Hfirst & _).
  split; [exact Hnodup|]. split; [exact (Hid "") | exact Hfirst].
Defined.

(** X3.  A call of [get_layer] that gives neither an id nor a name
    does not raise the [ArgumentError] its docstring announces: nothing
    defines that name, so the call ends in [NameError], whatever the
    configuration holds. *)
Theorem get_layer_without_arguments (id : Z) (c : ScaffoldConfig) :
  (id <= -1)%Z -> get_layer "" id c = NameError "ArgumentError".
Proof.
  intros Hid. unfold get_layer. rewrite bool_decide_eq_false_2 by lia.
  by rewrite bool_decide_eq_false_2 by (intros H; by apply H).
Qed.

Lemma get_layer_without_arguments_witness :
  (-1 <= -1)%Z /\
  get_layer "" (-1) (Sample_stack.initialised Sample.two_stacked)
    = NameError "ArgumentError".
Proof.
  split; [lia|].
  apply (get_layer_without_arguments (-1) (Sample_stack.initialised Sample.two_stacked)).
  lia.
Defined.

(** ** Cell types *)

Lemma add_cell_type_run (cell_type : CellType) (c : ScaffoldConfig) :
  add_cell_type cell_type c =
  (Ok tt, set_cell_type_map (cell_type_map c ++ [cell_type_name cell_type])
            (set_cell_types
               (dict_set (cell_type_name cell_type) cell_type (cell_types c)) c)).
Proof. reflexivity. Qed.

Lemma with_cell_types_cons (cell_type : CellType) (cts : list CellType)
    (c : ScaffoldConfig) :
  with_cell_types (cell_type :: cts) c = with_cell_types cts (add_cell_type cell_type c).2.
Proof.
  unfold with_cell_types. cbn [for_each]. rewrite bind_run, add_cell_type_run. done.
Qed.

Lemma with_cell_types_map (cts : list CellType) (c : ScaffoldConfig) :
  cell_type_map (with_cell_types cts c) = cell_type_map c ++ (cell_type_name <$> cts).
Proof.
  revert c. induction cts as [|ct cts IH]; intros c.
  - unfold with_cell_types. simpl. by rewrite app_nil_r.
  - rewrite with_cell_types_cons, IH, add_cell_type_run. simpl. by rewrite <- app_assoc.
Qed.

Lemma with_cell_types_get (cts : list CellType) (c : ScaffoldConfig) (n : string) :
  dict_get n (cell_types (with_cell_types cts c)) =
  match last (filter (fun ct => cell_type_name ct = n) cts) with
  | Some ct => Some ct
  | None => dict_get n (cell_types c)
  end.
Proof.
  revert c. induction cts as [|ct cts IH]; intros c; [done|].
  rewrite with_cell_types_cons, IH, add_cell_type_run. cbn [snd].
  rewrite filter_cons. simpl. rewrite dict_get_set.
  destruct (decide (cell_type_name ct = n)) as [Heq|Hne].
  - rewrite bool_decide_eq_true_2 by done. rewrite last_cons.
    by destruct (last (filter _ cts)).
  - by rewrite bool_decide_eq_false_2 by done.
Qed.

(** X4.  [get_cell_type] goes through the map of ids to the dictionary
    of cell types.  After cell types were added to a configuration
    without cell types, the id of the i-th addition leads to the cell
    type that was added last under the same name (to the i-th one itself
    when the names differ), an id that counts back from the end leads to
    the same one, and an id outside the map raises [IndexError]. *)
Theorem get_cell_type_latest (cts : list CellType) (c : ScaffoldConfig) :
  cell_types c = [] -> cell_type_map c = [] ->
  let c' := with_cell_types cts c in
  (forall (i : nat) (cell_type : CellType),
     cts !! i = Some cell_type ->
     exists cell_type',
       latest cts cell_type = Some cell_type' /\
       (NoDup (cell_type_name <$> cts) -> cell_type' = cell_type) /\
       get_cell_type (Z.of_nat i) c' = Ok cell_type' /\
       get_cell_type (Z.of_nat i - Z.of_nat (List.length cts)) c' = Ok cell_type') /\
  (forall id : Z,
     (Z.of_nat (List.length cts) <= id \/ id < - Z.of_nat (List.length cts))%Z ->
     get_cell_type id c' = Raise IndexError).
Proof.
  intros Htypes Hmap c'.
  assert (cell_type_map c' = cell_type_name <$> cts) as Hmap'
    by (unfold c'; by rewrite with_cell_types_map, Hmap).
  split.
  - intros i ct Hi. unfold latest.
    assert (ct ∈ filter (fun ct' => cell_type_name ct' = cell_type_name ct) cts) as Hin.
    { apply list_elem_of_filter. split; [done | by eapply list_elem_of_lookup_2]. }
    destruct (last (filter _ cts)) as [ct'|] eqn:Hlast.
    2:{ apply last_None in Hlast. rewrite Hlast in Hin. by apply elem_of_nil in Hin. }
    exists ct'. split; [done|].
    assert ((cell_type_map c') !! i = Some (cell_type_name ct)) as Hi'
      by (by rewrite Hmap', list_lookup_fmap, Hi).
    assert (dict_get (cell_type_name ct) (cell_types c') = Some ct') as Hget
      by (unfold c'; by rewrite with_cell_types_get, Hlast).
    split; [|split].
    + intros Hnodup.
      assert (ct' ∈ filter (fun ct' => cell_type_name ct' = cell_type_name ct) cts)
        as [Hname [j Hj]%list_elem_of_lookup_1]%list_elem_of_filter
        by (apply last_Some in Hlast as [l' ->]; apply elem_of_app; right; by left).
      assert (j = i) as ->; [|congruence].
      eapply NoDup_lookup; [done| |].
      * by rewrite list_lookup_fmap, Hj.
      * by rewrite list_lookup_fmap, Hi, Hname.
    + unfold get_cell_type. rewrite (list_index_lookup _ _ _ Hi'). simpl. by rewrite Hget.
    + unfold get_cell_type.
      replace (List.length cts) with (List.length (cell_type_map c'))
        by (by rewrite Hmap', length_fmap).
      rewrite (list_index_from_end _ _ _ Hi'). simpl. by rewrite Hget.
  - intros id Hid. unfold get_cell_type. rewrite list_index_out_of_range; [done|].
    by rewrite Hmap', length_fmap.
Qed.

Lemma get_cell_type_latest_witness :
  let cts := [mkCellType "granule" None false; mkCellType "golgi" None false;
              mkCellType "granule" None true] in
  let c' := with_cell_types cts (new_config VNone) in
  get_cell_type 0 c' = Ok (mkCellType "granule" None true) /\
  get_cell_type (-2) c' = Ok (mkCellType "golgi" None false) /\
  get_cell_type 3 c' = Raise IndexError.
Proof.
  intros cts c'.
  destruct (get_cell_type_latest cts (new_config VNone) eq_refl eq_refl) as [Hids Hout].
  destruct (Hids 0%nat _ eq_refl) as (ct0 & [= <-] & _ & H0 & _).
  destruct (Hids 1%nat _ eq_refl) as (ct1 & [= <-] & _ & _ & H1).
  split; [exact H0|]. split; [exact H1|]. apply Hout. simpl. lia.
Defined.
(** ** More on the volume resize *)

Lemma resize_layer_vertical (sx sz x z : Qc) (layer : Layer) :
  vertical (resize_layer sx sz x z layer) = vertical layer.
Proof. unfold resize_layer, vertical, thickness. by destruct layer as [n o d [] []]. Qed.

(** What [resize] does, by the divisions that fail. *)
Lemma resize_run (X' Z' : option Qc) (c : ScaffoldConfig) :
  resize X' Z' c =
  if divides_by_zero X' (X c) then (Raise ZeroDivisionError, c)
  else
    let c1 := match X' with Some x => set_X x c | None => c end in
    if divides_by_zero Z' (Z_ c) then (Raise ZeroDivisionError, c1)
    else
      let c2 := match Z' with Some z => set_Z z c1 | None => c1 end in
      let sx := match X' with Some x => x / X c | None => 1 end in
      let sz := match Z' with Some z => z / Z_ c | None => 1 end in
      (Ok tt, set_layers (prod_map id (resize_layer sx sz (X c2) (Z_ c2)) <$> layers c2) c2).
Proof.
  unfold resize, py_div, divides_by_zero. run_M.
  destruct X' as [x|], Z' as [z|]; simpl;
    repeat (case_bool_decide; simpl; try done); done.
Qed.

Lemma divides_by_zero_false (given : option Qc) (extent : Qc) :
  divides_by_zero given extent = false <-> (is_Some given -> extent <> 0).
Proof.
  unfold divides_by_zero. destruct given as [x|].
  - rewrite bool_decide_eq_false. split; [done | eauto].
  - split; [by intros _ [? [=]] | done].
Qed.

(** X5.  A volume resize, whether it succeeds or fails, leaves every
    layer its name, its height, its thickness and its flags, keeps the
    layers in their order, and touches nothing of the configuration but
    the extents, the dimensions and the origins. *)
Theorem resize_keeps_vertical (X' Z' : option Qc) (c : ScaffoldConfig) :
  let c' := (resize X' Z' c).2 in
  prod_map id vertical <$> layers c' = prod_map id vertical <$> layers c /\
  layer_map c' = layer_map c /\ _layer_stacks c' = _layer_stacks c /\
  _parsed_config c' = _parsed_config c /\ cell_types c' = cell_types c /\
  cell_type_map c' = cell_type_map c /\ connection_types c' = connection_types c /\
  placement_strategies c' = placement_strategies c.
Proof.
  intros c'. unfold c'. rewrite resize_run.
  destruct (divides_by_zero X' (X c)); [done|]. cbv zeta.
  destruct (divides_by_zero Z' (Z_ c)); [by destruct X'|].
  destruct X' as [x|], Z' as [z|]; simpl; repeat split; try done.
  all: rewrite <- list_fmap_compose; apply list_fmap_ext; intros i [n layer] _; simpl;
    unfold prod_map; simpl; f_equal; apply resize_layer_vertical.
Qed.

(** X6.  [resize] fails exactly when it is given an extent for an axis
    whose present extent is 0, and then with [ZeroDivisionError].  No
    layer has been touched when it fails, but the failure on Z comes
    after X has been assigned: a resize of both axes of a volume whose Z
    extent is 0 leaves the new X behind. *)
Theorem resize_fails_on_zero_extent (X' Z' : option Qc) (c : ScaffoldConfig) :
  let run := resize X' Z' c in
  (is_ok run.1 = true <-> (is_Some X' -> X c <> 0) /\ (is_Some Z' -> Z_ c <> 0)) /\
  (is_ok run.1 = false ->
   run.1 = Raise ZeroDivisionError /\ layers run.2 = layers c /\ Z_ run.2 = Z_ c) /\
  (forall x, X' = Some x -> X c <> 0 -> is_Some Z' -> Z_ c = 0 ->
   run = (Raise ZeroDivisionError, set_X x c)).
Proof.
  intros run. unfold run. rewrite resize_run.
  rewrite <- !divides_by_zero_false. split; [|split].
  - destruct (divides_by_zero X' (X c)), (divides_by_zero Z' (Z_ c)); simpl;
      split; try done; by intros [? ?].
  - destruct (divides_by_zero X' (X c)); [done|]. cbv zeta.
    destruct (divides_by_zero Z' (Z_ c)); [|done]. intros _. by destruct X'.
  - intros x -> HX [z ->] HZ. simpl.
    by rewrite bool_decide_eq_false_2, bool_decide_eq_true_2.
Qed.

Lemma resize_fails_on_zero_extent_witness :
  let c := set_Z 0 (Sample_stack.initialised Sample.two_stacked) in
  resize (Some (Qc_of_Z 100)) (Some (Qc_of_Z 100)) c
  = (Raise ZeroDivisionError, set_X (Qc_of_Z 100) c).
Proof.
  intros c.
  apply (proj2 (proj2 (resize_fails_on_zero_extent (Some (Qc_of_Z 100))
                         (Some (Qc_of_Z 100)) c)) (Qc_of_Z 100)); try done.
Defined.

(** ** The general section and missing collections *)

Lemma getitem_ok (section : value) (key : string) (v : value) :
  getitem section key = Ok v <->
  exists d, section = VDict d /\ dict_get key d = Some v.
Proof.
  split.
  - destruct section; try done. simpl.
    destruct (dict_get key d) eqn:Hget; [|done]. intros [= ->]. eauto.
  - intros (d & -> & Hget). simpl. by rewrite Hget.
Qed.

Lemma py_in_dict (key : string) (d : list (string * value)) :
  py_in key (VDict d) = Ok (bool_decide (is_Some (dict_get key d))).
Proof. reflexivity. Qed.

Lemma bind_when_false {S B} (m : M S unit) (f : unit -> M S B) (s : S) :
  (when false m ≫= f) s = f tt s.
Proof. reflexivity. Qed.

Section load_general.
Context `{!Runtime}.

(** X8.  [load_general] succeeds exactly on a document whose
    [network_architecture] is a dictionary that gives both
    [simulation_volume_x] and [simulation_volume_z] as values [float]
    accepts (numbers, booleans, numeric strings); the extents of the
    volume are then those two floats and nothing else has changed. *)
Theorem load_general_succeeds (config : value) (c c' : ScaffoldConfig) :
  load_general config c = (Ok tt, c') <->
  exists d netw raw_x raw_z x z,
    config = VDict d /\ dict_get "network_architecture" d = Some (VDict netw) /\
    dict_get "simulation_volume_x" netw = Some raw_x /\ float raw_x = Ok x /\
    dict_get "simulation_volume_z" netw = Some raw_z /\ float raw_z = Ok z /\
    c' = set_Z z (set_X x c).
Proof.
  split.
  - unfold load_general.
    intros (present & ? & [_ ->]%lift_ok & Hrun)%bind_ok.
    apply bind_ok in Hrun as ([] & ? & [[_ [=]]|[_ ->]]%when_ok & Hrun).
    apply bind_ok in Hrun as (netw_config & ? & [Hnetw ->]%lift_ok & Hrun).
    apply bind_ok in Hrun as (has_x & ? & [_ ->]%lift_ok & Hrun).
    apply bind_ok in Hrun as ([] & ? & [[_ [=]]|[_ ->]]%when_ok & Hrun).
    apply bind_ok in Hrun as (has_z & ? & [_ ->]%lift_ok & Hrun).
    apply bind_ok in Hrun as ([] & ? & [[_ [=]]|[_ ->]]%when_ok & Hrun).
    apply bind_ok in Hrun as (x & ? & [Hx ->]%lift_ok & Hrun).
    apply bind_ok in Hrun as ([] & ? & [= <-] & Hrun).
    apply bind_ok in Hrun as (z & ? & [Hz ->]%lift_ok & [= <-]).
    apply getitem_ok in Hnetw as (d & -> & Hd).
    apply outcome_bind_ok in Hx as (raw_x & (netw & -> & Hx)%getitem_ok & Hfx).
    apply outcome_bind_ok in Hz as (raw_z & (? & [= <-] & Hz)%getitem_ok & Hfz).
    eauto 15.
  - intros (d & netw & raw_x & raw_z & x & z & -> & Hnetw & Hx & Hfx & Hz & Hfz & ->).
    assert (getitem (VDict d) "network_architecture" = Ok (VDict netw)) as Hitem
      by (apply getitem_ok; eauto).
    unfold load_general. rewrite py_in_dict, Hnetw, (bind_lift_ok _ true) by done.
    rewrite bind_when_false, (bind_lift_ok _ _ _ _ Hitem).
    rewrite !py_in_dict, Hx, Hz. rewrite (bind_lift_ok _ true) by done.
    rewrite bind_when_false, (bind_lift_ok _ true) by done. rewrite bind_when_false.
    simpl getitem. rewrite Hx, Hz. simpl. by rewrite Hfx, Hfz.
Qed.

(** X9.  How [load_general] fails.  Without [network_architecture] it
    raises an [Exception] that says so.  Without either of the two
    extents it raises one and the same [Exception], which names
    [simulation_volume_x] also when only [simulation_volume_z] is
    missing.  In both cases the configuration is as it was.  When X is
    fine and the value of Z is not a float, the conversion error comes
    after X has been assigned. *)
Theorem load_general_fails (config netw_config : value) (c : ScaffoldConfig) :
  (py_in "network_architecture" config = Ok false ->
   load_general config c
   = (Raise (Exception "Missing 'network_architecture' attribute in configuration."), c)) /\
  (getitem config "network_architecture" = Ok netw_config ->
   py_in "simulation_volume_x" netw_config = Ok false \/
   (py_in "simulation_volume_x" netw_config = Ok true /\
    py_in "simulation_volume_z" netw_config = Ok false) ->
   load_general config c
   = (Raise (Exception
        "Missing 'simulation_volume_x' attribute in 'network_architecture' configuration."),
      c)) /\
  (forall raw_x raw_z x e,
     getitem config "network_architecture" = Ok netw_config ->
     getitem netw_config "simulation_volume_x" = Ok raw_x -> float raw_x = Ok x ->
     getitem netw_config "simulation_volume_z" = Ok raw_z -> float raw_z = Raise e ->
     load_general config c = (Raise e, set_X x c)).
Proof.
  split; [|split].
  - intros Hin. unfold load_general. by rewrite (bind_lift_ok _ _ _ _ Hin).
  - intros Hitem Hmissing. pose proof Hitem as (d & -> & Hd)%getitem_ok.
    unfold load_general. rewrite py_in_dict, Hd, (bind_lift_ok _ true) by done.
    rewrite bind_when_false, (bind_lift_ok _ _ _ _ Hitem).
    destruct Hmissing as [Hx|[Hx Hz]]; rewrite (bind_lift_ok _ _ _ _ Hx); [done|].
    rewrite bind_when_false. by rewrite (bind_lift_ok _ _ _ _ Hz).
  - intros raw_x raw_z x e Hitem Hx Hfx Hz Hfz.
    pose proof Hitem as (d & -> & Hd)%getitem_ok.
    pose proof Hx as (netw & -> & Hx')%getitem_ok.
    pose proof Hz as (? & [= <-] & Hz')%getitem_ok.
    unfold load_general. rewrite py_in_dict, Hd, (bind_lift_ok _ true) by done.
    rewrite bind_when_false, (bind_lift_ok _ _ _ _ Hitem).
    rewrite !py_in_dict, Hx', Hz'. rewrite (bind_lift_ok _ true) by done.
    rewrite bind_when_false, (bind_lift_ok _ true) by done. rewrite bind_when_false.
    rewrite Hx, Hz. simpl. by rewrite Hfx, Hfz.
Qed.

End load_general.

Lemma load_general_succeeds_witness :
  @load_general Sample.runtime volume_300_150 (new_config volume_300_150)
  = (Ok tt, set_Z (Qc_of_Z 150) (set_X (Qc_of_Z 300) (new_config volume_300_150))).
Proof.
  apply (@load_general_succeeds Sample.runtime).
  do 6 eexists. repeat split; reflexivity.
Defined.

Lemma load_general_fails_witness :
  @load_general Sample.runtime volume_without_z (new_config volume_without_z)
  = (Raise (Exception
       "Missing 'simulation_volume_x' attribute in 'network_architecture' configuration."),
     new_config volume_without_z).
Proof.
  apply (proj1 (proj2 (@load_general_fails Sample.runtime volume_without_z
                         (VDict [("simulation_volume_x", VInt 300)])
                         (new_config volume_without_z)))).
  - reflexivity.
  - right. split; reflexivity.
Defined.

(** X10.  [load_attr] on a section without the collection raises an
    [Exception] that names the collection and the node ("configuration"
    when no node name, or an empty one, was given); on a collection that
    is not a dictionary it raises [AttributeError].  Either way no
    callback has run: the state is as it was, whatever the callbacks
    are. *)
Theorem load_attr_without_collection {S : Type} (d : list (string * value))
    (attr : string) (init : string -> value -> M S unit) (final : option (finalizer S))
    (single : bool) (node_name : option string) (s : S) :
  (dict_get attr d = None ->
   load_attr (VDict d) attr init final single node_name s
   = (Raise (Exception ("Missing '" +:+ attr +:+ "' attribute in "
                        +:+ or_configuration node_name +:+ ".")), s)) /\
  (forall v, dict_get attr d = Some v -> (forall d', v <> VDict d') ->
   load_attr (VDict d) attr init final single node_name s = (Raise AttributeError, s)).
Proof.
  split.
  - intros Hget. unfold load_attr, contains, dict_mem, raise_format. rewrite Hget.
    rewrite bool_decide_eq_false_2 by (by intros [? [=]]). run_M. simpl.
    done.
  - intros v Hget Hv. unfold load_attr, contains, dict_mem, getitem. rewrite Hget.
    rewrite bool_decide_eq_true_2 by eauto. run_M. simpl.
    destruct v; try done. by destruct (Hv d0).
Qed.

Lemma load_attr_without_collection_witness :
  load_attr (VDict [("layers", VList [])]) "cell_types"
    (fun name section => @init_layer Sample.runtime name section;; mret tt)
    None false None (new_config VNone)
  = (Raise (Exception "Missing 'cell_types' attribute in configuration."), new_config VNone).
Proof.
  apply (proj1 (load_attr_without_collection [("layers", VList [])] "cell_types"
                  (fun name section => @init_layer Sample.runtime name section;; mret tt)
                  None false None (new_config VNone))).
  reflexivity.
Defined.
Section init_layer_frame.
Context `{!Runtime}.

Lemma init_layer_stack_same {B} (f : ScaffoldConfig -> B) name config s :
  (forall s stacks, f (set_layer_stacks stacks s) = f s) ->
  f (init_layer_stack name config s).2 = f s.
Proof.
  intros Hf. unfold init_layer_stack, update_stack, self_stack, raise_format. run_M.
  repeat (case_match; simplify_eq/=; rewrite ?Hf; try done).
Qed.

Lemma init_layer_xz_scale_same {B} (f : ScaffoldConfig -> B) name config s :
  (forall s parsed, f (set_parsed_config parsed s) = f s) ->
  f (init_layer_xz_scale name config s).2 = f s.
Proof.
  intros Hf. unfold init_layer_xz_scale, raise_format. run_M.
  repeat (case_match; simplify_eq/=; rewrite ?Hf; try done).
Qed.
End init_layer_frame.
(** ** Initialising one layer *)

(** A failing computation has left an observation alone if its first
    part always does and the rest does when it fails. *)
Lemma bind_fail_same {S A B C} (f : S -> C) (m : M S A) (k : A -> M S B) (s : S) :
  (forall s, f (m s).2 = f s) ->
  (forall a s, is_ok (k a s).1 = false -> f (k a s).2 = f s) ->
  is_ok ((m ≫= k) s).1 = false -> f ((m ≫= k) s).2 = f s.
Proof.
  intros Hm Hk. rewrite bind_run. specialize (Hm s).
  destruct (m s) as [[a|e] s1]; simpl in *; [|done].
  intros Hfail. by rewrite Hk, Hm.
Qed.

Lemma list_find_fresh (n : string) (names : list string) :
  n ∉ names ->
  match list_find (fun m => m = n) (names ++ [n]) with
  | Some (i, _) => Ok i
  | None => Raise ValueError
  end = Ok (List.length names).
Proof.
  intros Hfresh.
  destruct (list_find _ _) as [[j m]|] eqn:Hfind.
  - apply list_find_Some in Hfind as (Hj & -> & _). f_equal.
    destruct (decide (j < List.length names)%nat) as [Hlt|Hge].
    + rewrite lookup_app_l in Hj by done. destruct Hfresh.
      by eapply list_elem_of_lookup_2.
    + apply lookup_lt_Some in Hj. rewrite length_app in Hj. simpl in Hj. lia.
  - apply list_find_None in Hfind. rewrite Forall_forall in Hfind.
    destruct (Hfind n); [|done]. apply elem_of_app. right. by left.
Qed.

Section init_layer_facts.
Context `{!Runtime}.

(** What [init_layer] returns and registers when it succeeds. *)
Lemma init_layer_ok name config s layer s' :
  init_layer name config s = (Ok layer, s') ->
  exists thickness position xz0 xz1 centered s1 s2,
    section_thickness config = Ok thickness /\
    section_position config = Ok position /\
    section_centered config = Ok centered /\
    init_layer_xz_scale name config s1 = (Ok (xz0, xz1), s2) /\
    X s1 = X s /\ Z_ s1 = Z_ s /\
    (forall x y z, position = Some [x; y; z] \/ (position = None /\ x = 0 /\ y = 0 /\ z = 0) ->
     let dimensions := Vec3 (X s * xz0) thickness (Z_ s * xz1) in
     layer = set_xz_center centered
               (new_Layer name
                  (if centered then
                     Vec3 ((X s - vx dimensions) / 2) y ((Z_ s - vz dimensions) / 2)
                   else Vec3 x y z)
                  dimensions)) /\
    (exists x y z, position = Some [x; y; z] \/ (position = None /\ x = 0 /\ y = 0 /\ z = 0)) /\
    layers s' = dict_set name layer (layers s) /\
    layer_map s' = layer_map s ++ [name] /\
    X s' = X s /\ Z_ s' = Z_ s.
Proof.
  unfold init_layer, add_layer, section_thickness, section_position, section_centered.
  intros Hrun.
  apply bind_ok in Hrun as (has_thickness & ? & [-> ->]%lift_ok & Hrun).
  apply bind_ok in Hrun as (has_volume_scale & ? & [_ ->]%lift_ok & Hrun).
  apply bind_ok in Hrun as ([] & s0 & Hwhen & Hrun).
  assert (s0 = s) as ->.
  { apply when_ok in Hwhen as [[_ []%raise_format_not_ok]|[_ ->]]. done. }
  clear Hwhen.
  apply bind_ok in Hrun as (thickness & s0 & Hthickness & Hrun).
  assert (s0 = s /\
          (if has_thickness then getitem config "thickness" ≫= float else Ok 0)
          = Ok thickness) as [-> Hthickness'].
  { destruct has_thickness;
      [by apply lift_ok in Hthickness as [-> ->] | by injection Hthickness as <- <-]. }
  clear Hthickness.
  apply bind_ok in Hrun as (has_position & ? & [-> ->]%lift_ok & Hrun).
  apply bind_ok in Hrun as (origin & s0 & Horigin & Hrun).
  assert (s0 = s /\ exists position,
            (if has_position then
               position ← getitem config "position";
               origin ← iterate position ≫= map_outcome float;
               Ok (Some origin)
             else Ok None) = Ok position /\
            (position = Some [vx origin; vy origin; vz origin] \/
             (position = None /\ origin = Vec3 0 0 0))) as (-> & position & Hposition & Horigin').
  { destruct has_position; simpl in Horigin; [|injection Horigin as <- <-; eauto 6].
    apply bind_ok in Horigin as (p & ? & [Hp ->]%lift_ok & Horigin).
    apply bind_ok in Horigin as (l & ? & [Hl ->]%lift_ok & Horigin).
    rewrite (outcome_bind_run _ _ _ Hp), (outcome_bind_run _ _ _ Hl).
    destruct l as [|? [|? [|? [|]]]];
      try (by apply raise_format_not_ok in Horigin).
    injection Horigin as <- <-. eauto 6. }
  clear Horigin.
  apply bind_ok in Hrun as (has_stack & ? & [_ ->]%lift_ok & Hrun).
  apply bind_ok in Hrun as ([] & s1 & Hstack & Hrun).
  apply bind_ok in Hrun as ([xz0 xz1] & s2 & Hxz & Hrun).
  assert (X s1 = X s /\ Z_ s1 = Z_ s /\ layers s1 = layers s /\ layer_map s1 = layer_map s)
    as (HX1 & HZ1 & Hlayers1 & Hmap1).
  { apply when_ok in Hstack as [[_ Hstack]|[_ ->]]; [|done].
    pose proof (init_layer_stack_same
                  (fun s => (X s, Z_ s, layers s, layer_map s)) name config s
                  (fun _ _ => eq_refl)) as Hsame.
    rewrite Hstack in Hsame. by injection Hsame. }
  assert (X s2 = X s1 /\ Z_ s2 = Z_ s1 /\ layers s2 = layers s1 /\ layer_map s2 = layer_map s1)
    as (HX2 & HZ2 & Hlayers2 & Hmap2).
  { pose proof (init_layer_xz_scale_same
                  (fun s => (X s, Z_ s, layers s, layer_map s)) name config s1
                  (fun _ _ => eq_refl)) as Hsame.
    rewrite Hxz in Hsame. by injection Hsame. }
  apply bind_ok in Hrun as (selfX & ? & [= <- <-] & Hrun).
  apply bind_ok in Hrun as (selfZ & ? & [= <- <-] & Hrun).
  apply bind_ok in Hrun as (has_center & ? & [-> ->]%lift_ok & Hrun).
  apply bind_ok in Hrun as (centered & s3 & Hcentered & Hrun).
  assert (s3 = s2 /\
          (if has_center then is_True <$> getitem config "xz_center" else Ok false)
          = Ok centered) as [-> Hcentered'].
  { destruct has_center; [|by injection Hcentered as <- <-].
    unfold fmap, M_fmap, lift in Hcentered. unfold fmap, outcome_fmap.
    destruct (getitem config "xz_center"); by injection Hcentered as <- <-. }
  clear Hcentered. run_M. injection Hrun as <- <-. simpl.
  exists thickness, position, xz0, xz1, centered, s1, s2.
  rewrite HX2, HZ2, HX1, HZ1, Hlayers2, Hlayers1, Hmap2, Hmap1.
  repeat (split; [done|]). split; [|split; [|done]].
  - intros x y z Hxyz.
    assert (origin = Vec3 x y z) as ->; [|done].
    destruct origin. simpl in *.
    destruct Horigin' as [->|[-> ->]], Hxyz as [?|?]; destruct_and?; by simplify_eq.
  - destruct Horigin' as [->|[-> ->]]; [by eauto 6|].
    exists 0, 0, 0. by right.
Qed.

(** X11.  [init_layer] either succeeds and registers the layer it
    returns, or fails and registers nothing.  On success the layer
    carries the name of its section, is stored under that name, has the
    next id, and is what [get_layer] finds under the name; the extents of
    the volume are untouched.  On failure the layers, the map of ids and
    the extents are as before (a stack may already have been entered). *)
Theorem init_layer_registers (name' : string) (config : value) (s : ScaffoldConfig) :
  let run := init_layer name' config s in
  (forall layer, run.1 = Ok layer ->
     name layer = name' /\
     layers run.2 = dict_set name' layer (layers s) /\
     layer_map run.2 = layer_map s ++ [name'] /\
     (name' ∉ layer_map s -> get_layer_id name' run.2 = Ok (List.length (layer_map s))) /\
     (name' <> "" -> get_layer name' (-1) run.2 = Returned layer) /\
     X run.2 = X s /\ Z_ run.2 = Z_ s) /\
  (is_ok run.1 = false ->
     layers run.2 = layers s /\ layer_map run.2 = layer_map s /\
     X run.2 = X s /\ Z_ run.2 = Z_ s).
Proof.
  intros run. split.
  - intros layer Hrun.
    assert (init_layer name' config s = (Ok layer, run.2)) as Hok by by apply run_ok.
    destruct (init_layer_ok _ _ _ _ _ Hok)
      as (t & p & xz0 & xz1 & centered & s1 & s2 & _ & _ & _ & _ & _ & _ & Hlayer
          & (x & y & z & Hxyz) & Hlayers & Hmap & HX & HZ).
    rewrite (Hlayer x y z Hxyz). split; [done|]. rewrite <- (Hlayer x y z Hxyz).
    split; [done|]. split; [done|]. split; [|split; [|done]].
    + intros Hfresh. unfold get_layer_id. rewrite Hmap. by apply list_find_fresh.
    + intros Hname. unfold get_layer. rewrite bool_decide_eq_false_2 by lia.
      rewrite bool_decide_eq_true_2 by done. unfold dict_mem.
      rewrite Hlayers, dict_get_set_eq. by rewrite bool_decide_eq_true_2 by eauto.
  - unfold run. intros Hfail.
    pose (f := fun s : ScaffoldConfig => (layers s, layer_map s, X s, Z_ s)).
    assert (f (init_layer name' config s).2 = f s) as [= ? ? ? ?]; [|done].
    revert Hfail. unfold init_layer.
    repeat (apply bind_fail_same;
            [ intros;
              first [ apply (init_layer_xz_scale_same f); done
                    | unfold when; case_match; [apply (init_layer_stack_same f)|]; done
                    | by unfold raise_format, when; run_M;
                         repeat (case_match; simplify_eq/=; try done) ]
            | let a := fresh "a" in
              intros a ?;
              lazymatch type of a with
              | (_ * _)%type => destruct a
              | _ => idtac
              end ]).
    unfold add_layer. by run_M.
Qed.
End init_layer_facts.

Lemma init_layer_registers_witness :
  let s := new_config VNone in
  let run := @init_layer Sample.runtime "granular" centered_section s in
  exists layer,
    run.1 = Ok layer /\ layers run.2 = [("granular", layer)] /\
    get_layer "granular" (-1) run.2 = Returned layer.
Proof.
  intros s run. eexists. split; [vm_compute; reflexivity|].
  match goal with |- context [Returned ?layer] =>
    destruct (proj1 (@init_layer_registers Sample.runtime "granular" centered_section s)
                layer) as (_ & Hlayers & _ & _ & Hget & _)
  end.
  - vm_compute. reflexivity.
  - split; [exact Hlayers | by apply Hget].
Defined.
(** ** Centered layers *)

Lemma dict_get_fmap {K A B} `{EqDecision K} (g : A -> B) (k : K) (d : list (K * A)) :
  dict_get k (prod_map id g <$> d) = g <$> dict_get k d.
Proof.
  induction d as [|[k0 a] d IH]; [done|]. rewrite fmap_cons. unfold prod_map at 1. simpl.
  rewrite !dict_get_cons. by case_bool_decide.
Qed.




Section init_layer_centering.
Context `{!Runtime}.

End init_layer_centering.


(** ** The ids of loaded layers *)

Lemma dict_set_same_fmap {K A B} `{EqDecision K} (g : A -> B) (k : K) (a a' : A)
    (d : list (K * A)) :
  dict_get k d = Some a -> g a' = g a ->
  prod_map id g <$> dict_set k a' d = prod_map id g <$> d.
Proof.
  intros Hget Hg. induction d as [|[k0 a0] d IH]; [done|].
  rewrite dict_get_cons in Hget. cbn [dict_set]. case_bool_decide as Hk.
  - injection Hget as ->. rewrite !fmap_cons. f_equal. unfold prod_map. simpl.
    by rewrite Hg.
  - rewrite !fmap_cons. by rewrite IH.
Qed.

Section loaded_ids.
Context `{!Runtime}.

Lemma init_layer_name name' config s layer s' :
  init_layer name' config s = (Ok layer, s') ->
  name layer = name' /\ layers s' = dict_set name' layer (layers s) /\
  layer_map s' = layer_map s ++ [name'].
Proof.
  intros Hrun.
  destruct (init_layer_ok _ _ _ _ _ Hrun)
    as (t & p & xz0 & xz1 & centered & s1 & s2 & _ & _ & _ & _ & _ & _ & Hlayer
        & (x & y & z & Hxyz) & Hlayers & Hmap & _).
  by rewrite (Hlayer x y z Hxyz) at 1.
Qed.

(** Initialising sections under new names appends their layers, each
    under its own name. *)
Lemma init_loop_registry children s s' :
  NoDup children.*1 ->
  (forall n, n ∈ children.*1 -> n ∉ dict_keys (layers s)) ->
  for_each children (fun '(name, config) => init_layer name config;; mret tt) s
    = (Ok tt, s') ->
  prod_map id name <$> layers s'
    = (prod_map id name <$> layers s) ++ ((fun n => (n, n)) <$> children.*1) /\
  layer_map s' = layer_map s ++ children.*1.
Proof.
  revert s. induction children as [|[n config] children IH]; intros s Hnodup Hfresh.
  - intros [= <-]. simpl. by rewrite !app_nil_r.
  - cbn [for_each]. rewrite bind_run.
    destruct ((init_layer n config;; mret tt) s) as [[[]|e] s1] eqn:Hinit; [|done].
    intros Hrest. apply init_body_ok in Hinit as [layer Hinit].
    apply init_layer_name in Hinit as (Hname & Hlayers & Hmap).
    simpl in Hnodup. apply NoDup_cons in Hnodup as [Hn Hnodup].
    assert (n ∉ dict_keys (layers s)) as Hn' by (apply Hfresh; by left).
    rewrite dict_set_absent in Hlayers by done.
    destruct (IH s1 Hnodup) as [-> ->]; [|done|].
    + intros m Hm. rewrite Hlayers. unfold dict_keys. rewrite fmap_app. simpl.
      rewrite elem_of_app. intros [Hold|Hnew%list_elem_of_singleton]; [|by subst].
      by apply (Hfresh m); [right|].
    + rewrite Hlayers, Hmap, fmap_app. simpl. unfold prod_map at 2. simpl.
      rewrite Hname. by rewrite <- !app_assoc.
Qed.

Lemma finalize_layers_registry (s : ScaffoldConfig) :
  prod_map id name <$> layers (finalize_layers s).2 = prod_map id name <$> layers s /\
  layer_map (finalize_layers s).2 = layer_map s.
Proof.
  pose proof (finalize_layers_same
                (fun s => (prod_map id name <$> layers s, layer_map s))) as Hsame.
  simpl in Hsame. specialize (Hsame (fun s m layer d Hget =>
    f_equal (fun ls => (ls, layer_map s))
      (dict_set_same_fmap name m layer (set_dimensions d layer) (layers s) Hget eq_refl))).
  specialize (Hsame (fun s m layer y Hget =>
    f_equal (fun ls => (ls, layer_map s))
      (dict_set_same_fmap name m layer (lift_to y layer) (layers s) Hget eq_refl))).
  specialize (Hsame (fun _ _ => eq_refl) s). by injection Hsame.
Qed.

(** X14.  The layers of a document get their ids in document order.
    After the layers of a document with distinct layer names were loaded
    into a configuration without layers, the map of ids and the keys of
    the layer dictionary are the names in document order: [get_layer_id]
    of the i-th name is i, and [get_layer] with id i finds a layer of
    that name. *)
Theorem layer_ids_follow_document (s s' : ScaffoldConfig)
    (children : list (string * value)) :
  getitem (_parsed_config s) "layers" ≫= items = Ok children ->
  NoDup children.*1 -> layers s = [] -> layer_map s = [] ->
  load_layers s = (Ok tt, s') ->
  layer_map s' = children.*1 /\
  dict_keys (layers s') = children.*1 /\
  forall (i : nat) (n : string),
    children.*1 !! i = Some n ->
    get_layer_id n s' = Ok i /\
    exists layer, name layer = n /\ forall m, get_layer m (Z.of_nat i) s' = Returned layer.
Proof.
  intros Hchildren Hnodup Hlayers Hmap Hrun.
  rewrite (load_layers_run _ _ Hchildren), bind_run, init_layers_run in Hrun.
  destruct (for_each children _ (set_layer_stacks [] s)) as [[[]|] s1] eqn:Hinit; [|done].
  apply init_loop_registry in Hinit as [Hregistry1 Hmap1]; [|done|].
  2:{ intros n _. simpl. rewrite Hlayers. apply not_elem_of_nil. }
  simpl in Hregistry1, Hmap1. rewrite Hlayers in Hregistry1. rewrite Hmap in Hmap1.
  simpl in Hregistry1, Hmap1.
  destruct (finalize_layers_registry s1) as [Hregistry Hmap'].
  rewrite Hrun in Hregistry, Hmap'. simpl in Hregistry, Hmap'.
  rewrite Hregistry1 in Hregistry. rewrite Hmap1 in Hmap'.
  assert (dict_keys (layers s') = children.*1) as Hkeys.
  { unfold dict_keys.
    transitivity ((prod_map id name <$> layers s').*1).
    - rewrite <- list_fmap_compose. by apply list_fmap_ext; intros ? [? ?].
    - rewrite Hregistry, <- list_fmap_compose. apply list_fmap_id. }
  split; [done|]. split; [done|]. intros i n Hi. split.
  - unfold get_layer_id. rewrite Hmap'.
    destruct (list_find (fun m => m = n) children.*1) as [[j m]|] eqn:Hfind.
    + apply list_find_Some in Hfind as (Hj & -> & _). f_equal. by eapply NoDup_lookup.
    + apply list_find_None in Hfind. rewrite Forall_forall in Hfind.
      destruct (Hfind n); [|done]. by eapply list_elem_of_lookup_2.
  - assert ((prod_map id name <$> layers s') !! i = Some (n, n)) as Hith
      by (by rewrite Hregistry, list_lookup_fmap, Hi).
    rewrite list_lookup_fmap in Hith.
    destruct (layers s' !! i) as [[k layer]|] eqn:Hlayer; [|done].
    injection Hith as -> Hname. exists layer. split; [done|]. intros m.
    unfold get_layer. rewrite bool_decide_eq_true_2 by lia.
    rewrite Hmap'. pose proof (lookup_lt_Some _ _ _ Hi).
    rewrite bool_decide_eq_false_2 by lia.
    rewrite (list_index_lookup _ i layer); [done|].
    unfold dict_values. by rewrite list_lookup_fmap, Hlayer.
Qed.
End loaded_ids.

Lemma layer_ids_follow_document_witness :
  let s := Sample.config Sample.two_stacked in
  layer_map (@load_layers Sample.runtime s).2 = ["bottom"; "top"] /\
  get_layer_id "top" (@load_layers Sample.runtime s).2 = Ok 1%nat.
Proof.
  intros s.
  destruct (@layer_ids_follow_document Sample.runtime s (@load_layers Sample.runtime s).2
              (Sample.layer_sections Sample.two_stacked)) as (Hmap & _ & Hids).
  - reflexivity.
  - exact (bool_decide_unpack (NoDup (Sample.layer_sections Sample.two_stacked).*1) I).
  - reflexivity.
  - reflexivity.
  - apply run_ok. vm_compute. reflexivity.
  - split; [exact Hmap|]. exact (proj1 (Hids 1%nat "top" eq_refl)).
Defined.
(** ** A scalar [xz_scale] *)

Lemma alike_bind {A B} (m m' : M ScaffoldConfig A) (k k' : A -> M ScaffoldConfig B) :
  alike m m' -> (forall a, alike (k a) (k' a)) -> alike (m ≫= k) (m' ≫= k').
Proof.
  intros Hm Hk s s' Hs. rewrite !bind_run. destruct (Hm s s' Hs) as [H1 H2].
  destruct (m s) as [[a|e] s1], (m' s') as [[a'|e'] s1']; simpl in *.
  - injection H1 as ->. by apply Hk.
  - done.
  - done.
  - injection H1 as ->. by split.
Qed.

Lemma alike_lift {A} (r : outcome A) : alike (lift r) (lift r).
Proof. by intros s s' Hs. Qed.

Lemma alike_when (b : bool) (m : M ScaffoldConfig unit) :
  alike m m -> alike (when b m) (when b m).
Proof. destruct b; [done|]. by intros _ s s' Hs. Qed.

Lemma alike_raise_format {A} E fmt args :
  alike (@raise_format ScaffoldConfig A E fmt args) (raise_format E fmt args).
Proof. intros s s' Hs. unfold raise_format. run_M. by destruct (format fmt args). Qed.

Lemma alike_ret {A} (a : A) : alike (mret a) (mret a).
Proof. by intros s s' Hs. Qed.

Ltac same_fields s s' Hs :=
  destruct s, s'; unfold without_document, set_parsed_config in Hs; simpl in Hs;
  injection Hs as -> -> -> -> -> -> -> -> ->.

Lemma alike_gets_X : alike (gets X) (gets X).
Proof. intros s s' Hs. by same_fields s s' Hs. Qed.

Lemma alike_gets_Z : alike (gets Z_) (gets Z_).
Proof. intros s s' Hs. by same_fields s s' Hs. Qed.

Lemma alike_fmap_lift {A B} (g : A -> B) (r : outcome A) :
  alike (g <$> lift r) (g <$> lift r).
Proof. intros s s' Hs. unfold fmap, M_fmap, lift. by destruct r. Qed.

Section scalar_xz_scale.
Context `{!Runtime}.

Lemma alike_init_layer_stack name config :
  alike (init_layer_stack name config) (init_layer_stack name config).
Proof.
  intros s s' Hs. same_fields s s' Hs.
  unfold init_layer_stack, update_stack, self_stack, raise_format. run_M. simpl.
  repeat (case_match; simplify_eq/=; try done).
Qed.

Lemma alike_add_layer layer : alike (add_layer layer) (add_layer layer).
Proof. intros s s' Hs. by same_fields s s' Hs. Qed.

(** The one step that tells a scalar from a list. *)
Lemma alike_xz_scale name d v f :
  dict_get "xz_scale" d = Some v -> isinstance_list v = false -> float v = Ok f ->
  alike (init_layer_xz_scale name (VDict d))
        (init_layer_xz_scale name
           (VDict (dict_set "xz_scale" (VList [VFloat f; VFloat f]) d))).
Proof.
  intros Hget Hscalar Hfloat s s' Hs. same_fields s s' Hs.
  unfold init_layer_xz_scale, contains, getitem, dict_mem. run_M.
  rewrite dict_get_set_eq, Hget. simpl. rewrite Hscalar, Hfloat. simpl. by split.
Qed.

Lemma contains_set name' v' d k :
  is_Some (dict_get name' d) ->
  contains (VDict (dict_set name' v' d)) k = contains (VDict d) k.
Proof.
  intros [v Hget]. unfold contains, dict_mem.
  destruct (decide (name' = k)) as [->|Hne].
  - rewrite dict_get_set_eq, Hget. by rewrite !bool_decide_eq_true_2 by eauto.
  - by rewrite dict_get_set_ne.
Qed.

Lemma getitem_set name' v' d k :
  name' <> k -> getitem (VDict (dict_set name' v' d)) k = getitem (VDict d) k.
Proof. intros Hne. unfold getitem. by rewrite dict_get_set_ne. Qed.

(** X15.  A scalar [xz_scale] is a shorthand for the list that holds
    it twice: a layer section whose [xz_scale] is a value [float]
    accepts, and the same section with the list of that float twice in
    its place, initialise alike.  [init_layer] ends the same way on
    both, with the same layer or the same exception, and leaves
    configurations that differ at most in the document (where the scalar
    has been replaced by the list). *)
Theorem xz_scale_scalar_is_pair (name' : string) (d : list (string * value)) (v : value)
    (f : Qc) (s : ScaffoldConfig) :
  dict_get "xz_scale" d = Some v -> isinstance_list v = false -> float v = Ok f ->
  let pair := VList [VFloat f; VFloat f] in
  let run := init_layer name' (VDict d) s in
  let run' := init_layer name' (VDict (dict_set "xz_scale" pair d)) s in
  run.1 = run'.1 /\ without_document run.2 = without_document run'.2.
Proof.
  intros Hget Hscalar Hfloat pair run run'. subst pair.
  assert (alike (init_layer name' (VDict d))
                (init_layer name' (VDict (dict_set "xz_scale" (VList [VFloat f; VFloat f]) d))))
    as Halike; [|by apply Halike].
  pose proof (alike_xz_scale name' d v f Hget Hscalar Hfloat) as Hxz.
  unfold init_layer, init_layer_stack.
  rewrite !(contains_set "xz_scale") by eauto.
  rewrite !(getitem_set "xz_scale") by done.
  fold (init_layer_stack name' (VDict d)).
  repeat first
    [ exact Hxz
    | apply alike_ret | apply alike_lift | apply alike_raise_format
    | apply alike_gets_X | apply alike_gets_Z | apply alike_add_layer
    | apply alike_init_layer_stack | apply alike_fmap_lift | apply alike_when
    | apply alike_bind; [|let a := fresh "a" in
                          intros a;
                          lazymatch type of a with
                          | (_ * _)%type => destruct a
                          | _ => idtac
                          end]
    | match goal with
      | |- alike (if ?b then _ else _) _ => destruct b
      | |- alike (match ?l with _ => _ end) _ => destruct l
      end ].
Qed.
End scalar_xz_scale.

Lemma xz_scale_scalar_is_pair_witness :
  let s := new_config VNone in
  (@init_layer Sample.runtime "granular" (VDict scalar_xz_scale) s).1
  = (@init_layer Sample.runtime "granular"
       (VDict [("thickness", VInt 10);
               ("xz_scale", VList [VFloat (Qc_of_Z 2); VFloat (Qc_of_Z 2)])]) s).1.
Proof.
  intros s.
  exact (proj1 (@xz_scale_scalar_is_pair Sample.runtime "granular" scalar_xz_scale
                  (VStr "2") (Qc_of_Z 2) s eq_refl eq_refl eq_refl)).
Defined.
(** ** Copying a section onto an instance *)

Lemma fill_configurable_class_class obj conf excluded obj' :
  fill_configurable_class obj conf excluded = Ok obj' ->
  instance_class obj' = instance_class obj.
Proof.
  unfold fill_configurable_class. destruct (items conf) as [props|]; [|done]. simpl.
  intros [= <-]. revert obj. induction props as [|[n p] props IH]; intros obj; [done|].
  simpl. rewrite IH. by destruct (bool_decide _).
Qed.

(** X16.  [fill_configurable_class] copies a section onto an instance
    key by key: afterwards an attribute whose name is excluded is what
    it was, an attribute that the section gives and that is not excluded
    is the value of the section, replacing what the instance had, and
    any other attribute is what it was.  The class of the instance stays.
    A section that is not a dictionary has no [items]: the call raises
    [AttributeError]. *)
Theorem fill_configurable_class_copies (obj : Instance) (conf : value)
    (excluded : list string) :
  (forall d obj', conf = VDict d -> NoDup (dict_keys d) ->
     fill_configurable_class obj conf excluded = Ok obj' ->
     instance_class obj' = instance_class obj /\
     forall k,
       dict_get k (__dict__ obj') =
       if bool_decide (k ∈ excluded) then dict_get k (__dict__ obj)
       else match dict_get k d with
            | Some v => Some (Val v)
            | None => dict_get k (__dict__ obj)
            end) /\
  ((forall d, conf <> VDict d) ->
   fill_configurable_class obj conf excluded = Raise AttributeError) /\
  (forall d, conf = VDict d -> is_ok (fill_configurable_class obj conf excluded) = true).
Proof.
  split; [|split].
  - intros d obj' -> Hnodup Hfill. split.
    + by eapply fill_configurable_class_class.
    + intros k. by eapply fill_configurable_class_get.
  - intros Hconf. destruct conf; try done. by destruct (Hconf d).
  - by intros d ->.
Qed.

Lemma fill_configurable_class_copies_witness :
  let obj := mkInstance (Build_class_def [] false [])
               [("name", Val (VStr "a")); ("layer", Val (VStr "granular"))] in
  let d := [("layer", VStr "other"); ("name", VStr "b"); ("count", VInt 3)] in
  exists obj', fill_configurable_class obj (VDict d) ["layer"] = Ok obj' /\
    dict_get "layer" (__dict__ obj') = Some (Val (VStr "granular")) /\
    dict_get "name" (__dict__ obj') = Some (Val (VStr "b")) /\
    dict_get "count" (__dict__ obj') = Some (Val (VInt 3)).
Proof.
  intros obj d.
  assert (NoDup (dict_keys d)) as Hnodup
    by exact (bool_decide_unpack (NoDup (dict_keys d)) I).
  eexists. split; [reflexivity|].
  match goal with |- context [__dict__ ?obj'] =>
    destruct (proj1 (fill_configurable_class_copies obj (VDict d) ["layer"]) d obj'
                eq_refl Hnodup eq_refl) as [_ Hattrs]
  end.
  split; [exact (Hattrs "layer")|]. split; [exact (Hattrs "name") | exact (Hattrs "count")].
Defined.
(** ** Connection types that name themselves *)

Section renamed_connection.
Context `{!Runtime}.

Lemma load_configurable_class_name name class parent obj :
  load_configurable_class name class parent = Ok obj ->
  dict_get "name" (__dict__ obj) = Some (Val (VStr name)).
Proof.
  unfold load_configurable_class. destruct class; try done.
  destruct (import_class s) as [| |class_ref]; try done.
  case_bool_decide; [|by destruct (format _ _)].
  intros [= <-]. by rewrite setattr_get, bool_decide_eq_true_2.
Qed.

(** X17.  The attribute copier of [init_connection] does not exclude
    [name], so a connection type whose section has a [name] of its own
    is registered under that name and not under its key in the document.
    [finalize_connection], which looks the connection up by the key,
    then fails with [KeyError], unless something else is registered
    under the key. *)
Theorem renamed_connection_is_lost (name' other : string) (d : list (string * value))
    (s s' : ScaffoldConfig) :
  NoDup (dict_keys d) -> dict_get "name" d = Some (VStr other) -> other <> name' ->
  dict_get (SStr name') (connection_types s) = None ->
  init_connection name' (VDict d) s = (Ok tt, s') ->
  is_Some (dict_get (SStr other) (connection_types s')) /\
  dict_get (SStr name') (connection_types s') = None /\
  forall section, finalize_connection name' section s' = (Raise KeyError, s').
Proof.
  intros Hnodup Hname Hother Hfree. unfold init_connection, add_connection.
  intros (node_name & ? & [_ ->]%lift_ok & Hrun)%bind_ok.
  apply bind_ok in Hrun as (connection_class & ? & [_ ->]%lift_ok & Hrun).
  apply bind_ok in Hrun as (connection0 & ? & [Hload ->]%lift_ok & Hrun).
  apply bind_ok in Hrun as (connection1 & ? & [Hfill ->]%lift_ok & Hrun).
  apply bind_ok in Hrun as (from_cell_types & ? & [_ ->]%lift_ok & Hrun).
  apply bind_ok in Hrun as (to_cell_types & ? & [_ ->]%lift_ok & Hrun).
  apply bind_ok in Hrun as (key & ? & [Hkey ->]%lift_ok & [= <-]).
  assert (key = SStr other) as ->.
  { unfold instance_name in Hkey. rewrite !setattr_get in Hkey. simpl in Hkey.
    rewrite (fill_configurable_class_get _ _ _ _ "name" Hnodup Hfill) in Hkey.
    rewrite bool_decide_eq_false_2 in Hkey
      by exact (bool_decide_unpack
                  ("name" ∉ ["class"; "from_cell_types"; "to_cell_types"; "simulation"]) I).
    rewrite Hname in Hkey. by injection Hkey as <-. }
  cbn [connection_types set_connection_types].
  assert (dict_get (SStr name')
            (dict_set (SStr other)
               (setattr "_to_cell_types" (Val to_cell_types)
                  (setattr "_from_cell_types" (Val from_cell_types) connection1))
               (connection_types s)) = None) as Hlost
    by (rewrite dict_get_set_ne; [done | congruence]).
  split; [by rewrite dict_get_set_eq|]. split; [done|].
  intros section. unfold finalize_connection. run_M. simpl. by rewrite Hlost.
Qed.
End renamed_connection.

Lemma renamed_connection_is_lost_witness :
  let s := Sample.with_cell_type "b" (Sample.with_cell_type "a"
             (Sample.config renamed_connection)) in
  NoDup (dict_keys renamed_connection_section) /\
  (@load_connection_types Sample.runtime s).1 = Raise KeyError /\
  (@finalize_connection Sample.runtime "a_to_b" (VDict renamed_connection_section)
     (@init_connection Sample.runtime "a_to_b" (VDict renamed_connection_section) s).2).1
  = Raise KeyError.
Proof.
  intros s.
  assert (NoDup (dict_keys renamed_connection_section)) as Hnodup
    by exact (bool_decide_unpack (NoDup (dict_keys renamed_connection_section)) I).
  split; [exact Hnodup|]. split; [vm_compute; reflexivity|].
  destruct (@renamed_connection_is_lost Sample.runtime "a_to_b" "custom"
              renamed_connection_section s
              (@init_connection Sample.runtime "a_to_b"
                 (VDict renamed_connection_section) s).2 Hnodup)
    as (_ & _ & Hfinal).
  - reflexivity.
  - done.
  - reflexivity.
  - apply run_ok. vm_compute. reflexivity.
  - by rewrite Hfinal.
Defined.

(** ** A volume scale from a layer that does not exist *)

Lemma map_outcome_app_raise {A B} (f : A -> outcome B) (l1 l2 : list A) (x : A) (e : exn) :
  Forall (fun a => is_ok (f a) = true) l1 -> f x = Raise e ->
  map_outcome f (l1 ++ x :: l2) = Raise e.
Proof.
  intros Hl1 Hx. induction Hl1 as [|a l1 Ha _ IH]; simpl.
  - by rewrite Hx.
  - destruct (f a); [|done]. simpl. by rewrite IH.
Qed.

Section unknown_reference.
Context `{!Runtime}.

(** X18.  A layer that scales its volume from a layer that is not in
    the configuration is no configuration error: once the volume scale
    and the dimension ratios were read, summing the reference volumes
    raises [KeyError] at the first name that is unknown, and the layer
    keeps the dimensions it had. *)
Theorem scale_from_unknown_layer (local_name : option string) (layer_name unknown : string)
    (layer : Layer) (config : value) (known rest : list value) (ratios : vec3)
    (s : ScaffoldConfig) :
  dict_get layer_name (layers s) = Some layer ->
  layer_section s layer = Ok config ->
  contains config "volume_scale" = Ok true ->
  references_of config = Ok (known ++ VStr unknown :: rest) ->
  Forall (fun reference => is_ok (reference_volume (layers s) reference) = true) known ->
  dict_get unknown (layers s) = None ->
  dimension_ratios_of config = Ok ratios -> vy ratios <> 0 ->
  scale_layer local_name layer_name s = (Raise KeyError, s).
Proof.
  intros Hlayer Hconfig Hscale Hreferences Hknown Hunknown Hratios Hy.
  unfold scale_layer, self_layer. run_M. rewrite Hlayer. simpl.
  unfold layer_section, mbind in Hconfig. rewrite Hconfig. simpl.
  rewrite Hscale. simpl.
  assert (exists v, getitem config "volume_scale" = Ok v) as [v ->].
  { destruct config; try done. simpl in *. unfold dict_mem in Hscale.
    destruct (dict_get "volume_scale" d); [eauto|done]. }
  simpl. unfold references_of in Hreferences.
  apply outcome_bind_ok in Hreferences as (references & Hitem & Hiterate).
  rewrite (getitem_contains _ _ _ Hitem), Hitem. simpl.
  unfold dimension_ratios_of in Hratios.
  apply outcome_bind_ok in Hratios as (has_ratio & Hhas & Hratios).
  apply outcome_bind_ok in Hratios as (dimension_ratios & Hdimension_ratios & Hratios).
  apply outcome_bind_ok in Hratios as (l & Hl & Hthree).
  destruct l as [|rx [|ry [|rz [|]]]]; try done. injection Hthree as <-.
  simpl in Hy. rewrite Hhas. simpl.
  assert (scaled_dimensions (layers s) v references dimension_ratios = Raise KeyError)
    as Hdims.
  { unfold scaled_dimensions.
    pose proof Hl as (vs & Hvs & Hnumbers)%outcome_bind_ok.
    destruct (map_outcome_number_three _ _ _ _ Hnumbers) as (v0 & v1 & v2 & -> & Hv1).
    destruct dimension_ratios as [| | | |str|l|d]; try done; simpl in Hvs.
    all: try (by destruct str as [|? [|? [|? [|]]]]; simplify_eq/=).
    all: try (by destruct d as [|[] [|[] [|[] [|]]]]; simplify_eq/=).
    injection Hvs as ->.
    assert (map_outcome (fun r => np_div r ry) [rx; ry; rz]
            = Ok [rx / ry; ry / ry; rz / ry]) as Hnormalized
      by (simpl; unfold np_div; by rewrite !(bool_decide_eq_false_2 (ry = 0)) by done).
    rewrite (outcome_bind_run _ v1 _ eq_refl), (outcome_bind_run _ _ _ Hl).
    rewrite (outcome_bind_run _ _ _ Hv1), (outcome_bind_run _ _ _ Hnormalized).
    rewrite (outcome_bind_run _ _ _ Hiterate).
    rewrite (map_outcome_app_raise _ _ _ _ KeyError Hknown); [done|].
    simpl. by rewrite Hunknown. }
  destruct has_ratio.
  - rewrite Hdimension_ratios. simpl. by rewrite Hdims.
  - injection Hdimension_ratios as <-. simpl. by rewrite Hdims.
Qed.
End unknown_reference.

Lemma scale_from_unknown_layer_witness :
  let s := (@init_layers Sample.runtime (Sample.layer_sections unknown_reference)
              (Sample.config unknown_reference)).2 in
  (@load_layers Sample.runtime (Sample.config unknown_reference)).1 = Raise KeyError /\
  @scale_layer Sample.runtime None "B" s = (Raise KeyError, s).
Proof.
  intros s. split; [vm_compute; reflexivity|].
  refine (@scale_from_unknown_layer Sample.runtime None "B" "C"
            (default (new_Layer "B" (Vec3 0 0 0) (Vec3 0 0 0)) (dict_get "B" (layers s)))
            (VDict [("volume_scale", VInt 2);
                    ("scale_from_layers", VList [VStr "A"; VStr "C"])])
            [VStr "A"] [] (Vec3 1 1 1) s _ _ _ _ _ _ _ _).
  - vm_compute. reflexivity.
  - reflexivity.
  - reflexivity.
  - reflexivity.
  - by repeat constructor.
  - reflexivity.
  - reflexivity.
  - done.
Defined.

(** ** Leaving out one index *)

Lemma exclude_index_snoc {A} (arr : list A) (a : A) (index : Z) :
  exclude_index (arr ++ [a]) index =
  exclude_index arr index
  ++ (if bool_decide (Z.of_nat (List.length arr) <> index) then [a] else []).
Proof.
  unfold exclude_index. rewrite length_app. simpl. rewrite Nat.add_1_r, seq_S. simpl.
  rewrite filter_app, omap_app. f_equal.
  - apply list_omap_ext, Forall_Forall2_diag, Forall_forall.
    intros i [_ Hi%elem_of_seq]%list_elem_of_filter. apply lookup_app_l. lia.
  - rewrite filter_cons, filter_nil. case_decide.
    + rewrite bool_decide_eq_true_2 by done. simpl.
      by rewrite (list_lookup_middle arr [] a) by done.
    + by rewrite bool_decide_eq_false_2 by (intros Hne; by apply Hne).
Qed.

(** X19.  [exclude_index] removes the element at an index that lies in
    the list and keeps the order of the others.  An index outside the
    list removes nothing, and that includes the negative indices, which
    do not count from the end here as they do in [arr[index]]: the
    result is then a copy of the whole list. *)
Theorem exclude_index_removes {A} (arr : list A) :
  (forall i : nat, (i < List.length arr)%nat ->
     exclude_index arr (Z.of_nat i) = take i arr ++ drop (S i) arr) /\
  (forall index : Z, (index < 0 \/ Z.of_nat (List.length arr) <= index)%Z ->
     exclude_index arr index = arr).
Proof.
  induction arr as [|a arr [IHin IHout]] using rev_ind.
  - split; [simpl; lia | done].
  - split.
    + intros i Hi. rewrite length_app in Hi. simpl in Hi. rewrite exclude_index_snoc.
      destruct (decide (i = List.length arr)) as [->|Hne].
      * rewrite bool_decide_eq_false_2 by (intros H; by apply H).
        rewrite IHout by lia. rewrite take_app_length.
        rewrite drop_app_ge by lia.
        replace (S (List.length arr) - List.length arr)%nat with 1%nat by lia.
        done.
      * rewrite bool_decide_eq_true_2 by lia. rewrite IHin by lia.
        rewrite take_app_le by lia. rewrite drop_app_le by lia.
        by rewrite <- app_assoc.
    + intros index Hindex. rewrite length_app in Hindex. simpl in Hindex.
      rewrite exclude_index_snoc, IHout by lia. by rewrite bool_decide_eq_true_2 by lia.
Qed.

Lemma exclude_index_removes_witness :
  (1 < List.length ["a"; "b"; "c"])%nat /\
  exclude_index ["a"; "b"; "c"] 1 = ["a"; "c"] /\
  exclude_index ["a"; "b"; "c"] (-1) = ["a"; "b"; "c"].
Proof.
  assert (1 < List.length ["a"; "b"; "c"])%nat as Hlt by (simpl; lia).
  split; [exact Hlt|]. split.
  - exact (proj1 (exclude_index_removes ["a"; "b"; "c"]) 1%nat Hlt).
  - apply (proj2 (exclude_index_removes ["a"; "b"; "c"])). lia.
Defined.

(** ** Slots of mixed types *)

Lemma slot_lt_comparable (a b : slot) : is_ok (slot_lt a b) = comparable a b.
Proof. by destruct a, b. Qed.

Lemma comparable_trans (a b c : slot) :
  comparable a b = true -> comparable b c = true -> comparable a c = true.
Proof. by destruct a, b, c. Qed.

Lemma comparable_sym (a b : slot) : comparable a b = comparable b a.
Proof. by destruct a, b. Qed.

Lemma item_lt_distinct (x y : slot * string) :
  x.1 <> y.1 -> is_ok (item_lt x y) = comparable x.1 y.1.
Proof.
  intros Hne. unfold item_lt. rewrite bool_decide_eq_false_2 by done.
  apply slot_lt_comparable.
Qed.

Lemma item_lt_raises (x y : slot * string) (e : exn) :
  item_lt x y = Raise e -> e = TypeError.
Proof.
  unfold item_lt. case_bool_decide; [done|]. destruct x.1, y.1; simpl; congruence.
Qed.

Lemma insert_sorted_raises x l e : insert_sorted x l = Raise e -> e = TypeError.
Proof.
  induction l as [|y l IH]; simpl; [done|].
  destruct (item_lt x y) as [[]|e'] eqn:Hlt; simpl; [done| |].
  - destruct (insert_sorted x l); simpl; [done|]. intros [= <-]. by apply IH.
  - intros [= <-]. by eapply item_lt_raises.
Qed.

Lemma insert_sorted_comparable x l :
  (forall y, y ∈ l -> x.1 <> y.1 /\ comparable x.1 y.1 = true) ->
  is_ok (insert_sorted x l) = true.
Proof.
  induction l as [|y l IH]; intros Hl; simpl; [done|].
  destruct (Hl y) as [Hne Hxy]; [by left|].
  pose proof (item_lt_distinct x y Hne) as Hlt. rewrite Hxy in Hlt.
  destruct (item_lt x y) as [[]|]; simpl; [done| |done].
  assert (is_ok (insert_sorted x l) = true) as Hok
    by (apply IH; intros z Hz; apply Hl; by right).
  by destruct (insert_sorted x l).
Qed.

Lemma insert_sorted_head x y l :
  is_ok (insert_sorted x (y :: l)) = true -> is_ok (item_lt x y) = true.
Proof. simpl. by destruct (item_lt x y). Qed.

(** X20.  The layers of a stack are put in order by [sorted] on the
    items of the slot dictionary.  With slots that are all different,
    as the keys of a dictionary are, this succeeds exactly when any two
    slots can be compared: slots that are all numbers or all strings, or
    a single slot of any kind.  Slots of mixed types (a number and a
    string, or [null] next to anything) make it raise [TypeError], and
    nothing else can go wrong in it. *)
Theorem sorted_needs_comparable_slots (l : list (slot * string)) :
  NoDup l.*1 ->
  (is_ok (sorted l) = true <->
   forall a b, a ∈ l.*1 -> b ∈ l.*1 -> a <> b -> comparable a b = true) /\
  (is_ok (sorted l) = false -> sorted l = Raise TypeError).
Proof.
  intros Hnodup. split.
  - induction l as [|x l IH]; simpl.
    { split; [by intros _ a b ?%elem_of_nil | done]. }
    simpl in Hnodup. apply NoDup_cons in Hnodup as [Hx Hnodup].
    specialize (IH Hnodup). split.
    + destruct (sorted l) as [l'|] eqn:Hsorted; simpl; [|done]. intros Hins.
      pose proof (proj1 IH eq_refl) as Hl.
      assert (forall b, b ∈ l.*1 -> comparable x.1 b = true) as Hxb.
      { intros b Hb. pose proof (sorted_perm _ _ Hsorted) as Hperm.
        destruct l' as [|h l'].
        { apply Permutation_nil_l in Hperm. rewrite <- Hperm in Hb.
          by apply elem_of_nil in Hb. }
        assert (h.1 ∈ l.*1) as Hh
          by (rewrite <- Hperm; apply list_elem_of_fmap_2; by left).
        assert (comparable x.1 h.1 = true) as Hxh.
        { rewrite <- item_lt_distinct; [by eapply insert_sorted_head|].
          intros Heq. apply Hx. by rewrite Heq. }
        destruct (decide (h.1 = b)) as [<-|Hne]; [done|].
        eapply comparable_trans; [done|]. by apply Hl. }
      intros a b [->|Ha]%elem_of_cons [->|Hb]%elem_of_cons Hab; try done.
      * by apply Hxb.
      * rewrite comparable_sym. by apply Hxb.
      * by apply Hl.
    + intros Hall.
      destruct (sorted l) as [l'|] eqn:Hsorted; simpl.
      * apply insert_sorted_comparable. intros y Hy.
        assert (y.1 ∈ l.*1) as Hy'.
        { rewrite <- (sorted_perm _ _ Hsorted). by apply list_elem_of_fmap_2. }
        assert (x.1 <> y.1) as Hne by (intros Heq; apply Hx; by rewrite Heq).
        split; [done|]. apply Hall; [by left | by right | done].
      * assert (is_ok (Raise e : outcome (list (slot * string))) = true); [|done].
        apply IH. intros a b Ha Hb. apply Hall; by right.
  - clear Hnodup. induction l as [|x l IH]; simpl; [done|].
    destruct (sorted l) as [l'|e] eqn:Hsorted; simpl.
    + destruct (insert_sorted x l') as [|e] eqn:Hins; [done|]. intros _.
      by rewrite (insert_sorted_raises _ _ _ Hins).
    + intros _. by injection (IH eq_refl) as ->.
Qed.

Lemma sorted_needs_comparable_slots_witness :
  NoDup [(SNum 0, "a"); (SStr "1", "b")].*1 /\
  sorted [(SNum 0, "a"); (SStr "1", "b")] = Raise TypeError /\
  (@load_layers Sample.runtime (Sample.config mixed_slots)).1 = Raise TypeError.
Proof.
  assert (NoDup [(SNum 0, "a"); (SStr "1", "b")].*1) as Hnodup
    by (apply (bool_decide_unpack _); vm_compute; exact I).
  split; [exact Hnodup|]. split; [|vm_compute; reflexivity].
  by apply (proj2 (sorted_needs_comparable_slots _ Hnodup)).
Defined.

(** ** Stacks under a volume resize *)

Lemma stacked_vertical ls ls' roof names :
  (forall n, n ∈ names -> vertical <$> dict_get n ls' = vertical <$> dict_get n ls) ->
  stacked ls roof names -> stacked ls' roof names.
Proof.
  revert roof. induction names as [|m names IH]; intros roof Hsame; [done|].
  simpl. intros (layer & Hget & Hroof & Hrest).
  pose proof (Hsame m (list_elem_of_here _ _)) as Hm. rewrite Hget in Hm.
  destruct (dict_get m ls') as [layer'|]; [|done]. injection Hm as Hname Hy Ht _ _.
  exists layer'. split; [done|]. split; [congruence|]. rewrite Hy, Ht.
  apply IH; [|done]. intros n Hn. apply Hsame. by right.
Qed.

Lemma resize_vertical (X' Z' : option Qc) (c : ScaffoldConfig) (n : string) :
  vertical <$> dict_get n (layers (resize X' Z' c).2) = vertical <$> dict_get n (layers c).
Proof.
  rewrite resize_run.
  destruct (divides_by_zero X' (X c)); [done|]. cbv zeta.
  destruct (divides_by_zero Z' (Z_ c)); [by destruct X'|].
  cbn [snd layers set_layers].
  assert (forall c0 : ScaffoldConfig,
            layers (match Z' with
                    | Some z => set_Z z (match X' with Some x => set_X x c0 | None => c0 end)
                    | None => match X' with Some x => set_X x c0 | None => c0 end
                    end) = layers c0) as -> by (intros; by destruct X', Z').
  rewrite dict_get_fmap. destruct (dict_get n (layers c)); [|done]. simpl.
  by rewrite resize_layer_vertical.
Qed.

(** X21.  A volume resize keeps stacks stacked: layers that sit on top
    of each other from some height up still do after [resize], whatever
    the new extents are, and also when the resize fails. *)
Theorem resize_keeps_stacks (X' Z' : option Qc) (c : ScaffoldConfig) (roof : Qc)
    (names : list string) :
  stacked (layers c) roof names -> stacked (layers (resize X' Z' c).2) roof names.
Proof. apply stacked_vertical. intros n _. apply resize_vertical. Qed.

Lemma resize_keeps_stacks_witness :
  let c := (@load_layers Sample.runtime (Sample.config Sample.two_stacked)).2 in
  stacked (layers c) 0 ["bottom"; "top"] /\
  stacked (layers (resize (Some (Qc_of_Z 50)) (Some (Qc_of_Z 400)) c).2) 0 ["bottom"; "top"].
Proof.
  intros c.
  assert (stacked (layers c) 0 ["bottom"; "top"]) as Hstacked.
  { eexists. split; [vm_compute; reflexivity|]. split; [reflexivity|].
    eexists. split; [vm_compute; reflexivity|]. split; [|exact I].
    apply Qc_is_canon. reflexivity. }
  split; [exact Hstacked|].
  exact (resize_keeps_stacks (Some (Qc_of_Z 50)) (Some (Qc_of_Z 400)) c 0
           ["bottom"; "top"] Hstacked).
Defined.

(** ** Connection types after finalization *)

Section resolved_connections.
Context `{!Runtime}.

Lemma resolve_cell_types_resolved known node_name direction default_compartment i
    connected_cells types compartments :
  resolve_cell_types known node_name direction default_compartment i connected_cells
  = Ok (types, compartments) ->
  Forall2 (resolved known default_compartment) connected_cells (zip types compartments) /\
  List.length types = List.length compartments.
Proof.
  revert i types compartments.
  induction connected_cells as [|cell rest IH]; intros i types compartments.
  { intros [= <- <-]. by split. }
  cbn [resolve_cell_types]. intros Hrun.
  apply outcome_bind_ok in Hrun as (type & Htype & Hrun).
  apply outcome_bind_ok in Hrun as (key & Hkey & Hrun).
  unfold assert_attr in Htype.
  apply outcome_bind_ok in Htype as (present & _ & Htype).
  destruct present; [|by destruct (format _ _)].
  unfold unknown_cell_type in Hrun.
  destruct key as [| |type_name]; [by destruct (format _ _) ..|].
  destruct type; try done. injection Hkey as ->.
  destruct (dict_mem type_name known) eqn:Hknown; [|by destruct (format _ _)].
  apply outcome_bind_ok in Hrun as (has_compartments & Hhas & Hrun).
  apply outcome_bind_ok in Hrun as (own & Hown & Hrun).
  apply outcome_bind_ok in Hrun as ([types' compartments'] & Hrest & Hrun).
  injection Hrun as <- <-. destruct (IH _ _ _ Hrest) as [Hall Hlen].
  split; [|by simpl; f_equal]. simpl. constructor; [|done].
  split; [done|]. split; [done|]. simpl.
  destruct cell as [| | | | | |d]; try done. simpl in *. injection Hhas as <-.
  unfold dict_mem in Hown. destruct (dict_get "compartments" d) as [v|].
  - rewrite bool_decide_eq_true_2 in Hown by eauto. by injection Hown as <-.
  - rewrite bool_decide_eq_false_2 in Hown by (by intros [? ?]). by injection Hown as <-.
Qed.

(** X22.  A connection type that [finalize_connection] finalizes holds,
    under its key, one cell type and one list of compartments for every
    reference of its raw [_from_cell_types] and [_to_cell_types], in
    their order: the cell type is the declared one that the reference
    names, the compartments are the reference's own, or [["axon"]] for a
    source and [["dendrites"]] for a target that gives none. *)
Theorem finalized_connection_resolved (connection_name : string) (section : value)
    (s s' : ScaffoldConfig) :
  finalize_connection connection_name section s = (Ok tt, s') ->
  exists raw connection raw_from raw_to from_types from_compartments to_types
         to_compartments,
    dict_get (SStr connection_name) (connection_types s) = Some raw /\
    raw_references raw "_from_cell_types" = Ok raw_from /\
    raw_references raw "_to_cell_types" = Ok raw_to /\
    dict_get (SStr connection_name) (connection_types s') = Some connection /\
    getattr connection "from_cell_types" = Ok (CellTypes from_types) /\
    getattr connection "from_cell_compartments" = Ok (Val (VList from_compartments)) /\
    getattr connection "to_cell_types" = Ok (CellTypes to_types) /\
    getattr connection "to_cell_compartments" = Ok (Val (VList to_compartments)) /\
    Forall2 (resolved (cell_types s) "axon") raw_from (zip from_types from_compartments) /\
    List.length from_types = List.length from_compartments /\
    Forall2 (resolved (cell_types s) "dendrites") raw_to (zip to_types to_compartments) /\
    List.length to_types = List.length to_compartments.
Proof.
  unfold finalize_connection. run_M. simpl.
  destruct (dict_get (SStr connection_name) (connection_types s)) as [raw|] eqn:Hraw;
    [|done]. simpl.
  destruct (raw_references raw "_from_cell_types") as [raw_from|] eqn:Hfrom; [|done].
  simpl.
  destruct (resolve_cell_types (cell_types s) "connection_types.{}" "from_cell_types"
              "axon" 0 raw_from) as [[from_types from_compartments]|] eqn:Hresolved;
    [|done]. simpl.
  destruct (raw_references raw "_to_cell_types") as [raw_to|] eqn:Hto; [|done]. simpl.
  destruct (resolve_cell_types (cell_types s) "connection_types.{}" "to_cell_types"
              "dendrites" 0 raw_to) as [[to_types to_compartments]|] eqn:Hresolved';
    [|done]. simpl.
  intros [= <-].
  apply resolve_cell_types_resolved in Hresolved as [Hall Hlen].
  apply resolve_cell_types_resolved in Hresolved' as [Hall' Hlen'].
  eexists raw, _, raw_from, raw_to, from_types, from_compartments, to_types,
    to_compartments.
  split; [done|]. split; [done|]. split; [done|].
  split; [cbn; apply dict_get_set_eq|].
  unfold getattr, setattr. cbn [__dict__].
  repeat split; try done.
  - rewrite !dict_get_set_ne by done. by rewrite dict_get_set_eq.
  - rewrite !dict_get_set_ne by done. by rewrite dict_get_set_eq.
  - rewrite !dict_get_set_ne by done. by rewrite dict_get_set_eq.
  - by rewrite dict_get_set_eq.
Qed.
End resolved_connections.

Lemma finalized_connection_resolved_witness :
  let s := (@init_connection Sample.runtime "a_to_b" a_to_b_section
              (Sample.with_cell_type "a" (Sample.with_cell_type "b"
                 (Sample.config a_to_b_connection)))).2 in
  let s' := (@finalize_connection Sample.runtime "a_to_b" a_to_b_section s).2 in
  @finalize_connection Sample.runtime "a_to_b" a_to_b_section s = (Ok tt, s') /\
  exists connection,
    dict_get (SStr "a_to_b") (connection_types s') = Some connection /\
    getattr connection "from_cell_types" = Ok (CellTypes ["a"]) /\
    getattr connection "from_cell_compartments" = Ok (Val (VList [VList [VStr "soma"]])) /\
    getattr connection "to_cell_types" = Ok (CellTypes ["b"]) /\
    getattr connection "to_cell_compartments"
    = Ok (Val (VList [VList [VStr "dendrites"]])).
Proof.
  cbv zeta.
  assert (@finalize_connection Sample.runtime "a_to_b" a_to_b_section
            (@init_connection Sample.runtime "a_to_b" a_to_b_section
               (Sample.with_cell_type "a" (Sample.with_cell_type "b"
                  (Sample.config a_to_b_connection)))).2
          = (Ok tt,
             (@finalize_connection Sample.runtime "a_to_b" a_to_b_section
                (@init_connection Sample.runtime "a_to_b" a_to_b_section
                   (Sample.with_cell_type "a" (Sample.with_cell_type "b"
                      (Sample.config a_to_b_connection)))).2).2)) as Hrun
    by (vm_compute; reflexivity).
  split; [exact Hrun|].
  destruct (finalized_connection_resolved (H := Sample.runtime) _ _ _ _ Hrun)
    as (raw & connection & raw_from & raw_to & ft & fc & tt' & tc & _ & _ & _ & Hget & _).
  exists connection. split; [exact Hget|].
  revert Hget. vm_compute. intros [= <-]. repeat split; reflexivity.
Defined.
